(** * Retrieval and answer generation of the lecture RAG system

    A shallow embedding of the retrieval side of
    [retrival_research/GEMINI_final.py] and of the retrieval, prompt
    building and three-tier answer generation of
    [multimodal-rag-system.py], with the properties the design document
    states about them.

    Python values are embedded as follows: [str] as [string] (the ASCII
    fragment), [int] as [Z], [float] as IEEE binary64 [spec_float], a
    [dict] with string keys as [gmap string pyval], a [set] of strings as
    [gset string], and a raised exception as the [Raises] branch of
    [outcome].  External collaborators (NLTK, the embedding model, Milvus,
    MongoDB, the language model, the LangChain agent) are parameters. *)

From Stdlib Require Import ZArith Zpower List String Ascii Bool Lia DecimalString.
From Stdlib Require Import Floats.SpecFloat.
From stdpp Require Import gmap strings.

Local Open Scope string_scope.

(** ** Python exceptions and results *)

(** The exception classes the two programs can meet.  All of them derive
    from [Exception]; [MilvusException] is the only one that
    [perform_search] names in its [except] clause. *)
Inductive exn : Type :=
  | MilvusException (msg : string)
  | TypeError (msg : string)
  | ValueError (msg : string)
  | AttributeError (msg : string)
  | KeyError (msg : string)
  | RuntimeError (msg : string).

Definition is_MilvusException (e : exn) : bool :=
  match e with
  | MilvusException _ => true
  | _ => false
  end.

(** A call either returns a value or raises. *)
Inductive outcome (A : Type) : Type :=
  | Returns (a : A)
  | Raises (e : exn).
Arguments Returns {A} a.
Arguments Raises {A} e.

Definition obind {A B : Type} (m : outcome A) (k : A -> outcome B) : outcome B :=
  match m with
  | Returns a => k a
  | Raises e => Raises e
  end.

(** [try: m  except <class> as e: handler e]: the handler runs only for
    the exceptions the clause selects; the others keep propagating. *)
Definition otry {A : Type} (m : outcome A) (catches : exn -> bool)
    (handler : exn -> outcome A) : outcome A :=
  match m with
  | Returns a => Returns a
  | Raises e => if catches e then handler e else Raises e
  end.

Declare Scope outcome_scope.
Delimit Scope outcome_scope with outcome.
Notation "'do' x <- m ; k" := (obind m (fun x => k))
  (at level 10, x name, m at level 100, k at level 200) : outcome_scope.

(** ** Python floats *)

Definition py_float := spec_float.

(** The literals [0.0] and [1.0]. *)
Definition float_zero : py_float := S754_zero false.
Definition float_one : py_float := S754_finite false 4503599627370496 (-52).

(** [x + y], [x - y] and [x <= y] on floats: IEEE 754 binary64, round to
    nearest, ties to even. *)
Definition float_add (x y : py_float) : py_float := SFadd 53 1024 x y.
Definition float_sub (x y : py_float) : py_float := SFsub 53 1024 x y.
Definition float_le (x y : py_float) : bool := SFleb x y.

(** The floats a Python program can hold. *)
Definition is_float (x : py_float) : bool := valid_binary 53 1024 x.

(** ** Rounding, as integer arithmetic

    [rne M n] is [M / 2^n] rounded to the nearest integer, ties to even;
    [shifted M j] is the state of the shift register of [SpecFloat] after
    [j] right shifts of [M]; [round_tail R E] is the last step of
    [binary_round_aux] on the rounded mantissa [R] at exponent [E]. *)
Definition rne (M n : Z) : Z :=
  let q := (M / 2 ^ n)%Z in
  let r := (M mod 2 ^ n)%Z in
  let half := (2 ^ (n - 1))%Z in
  if (r <? half)%Z then q
  else if (r =? half)%Z then (if Z.even q then q else (q + 1)%Z)
  else (q + 1)%Z.

Definition shifted (M : Z) (j : nat) : shr_record :=
  {| shr_m := (M / 2 ^ Z.of_nat j)%Z;
     shr_r := match j with O => false | S j' => Z.testbit M (Z.of_nat j') end;
     shr_s := match j with
              | O => false
              | S j' => negb (M mod 2 ^ Z.of_nat j' =? 0)%Z
              end |}.

Definition round_tail (R E : Z) : spec_float :=
  let '(mrs, e) := shr_fexp 53 1024 R E loc_Exact in
  match shr_m mrs with
  | Z0 => S754_zero false
  | Zpos m =>
      if (e <=? 1024 - 53)%Z then S754_finite false m e
      else S754_infinity false
  | Zneg _ => S754_nan
  end.

(** ** Python strings and lists *)

Definition lower_ascii (c : ascii) : ascii :=
  let n := N_of_ascii c in
  if ((65 <=? n) && (n <=? 90))%N then ascii_of_N (n + 32) else c.

Definition isalnum_ascii (c : ascii) : bool :=
  let n := N_of_ascii c in
  (((48 <=? n) && (n <=? 57)) || ((65 <=? n) && (n <=? 90))
   || ((97 <=? n) && (n <=? 122)))%N.

(** [s.lower()] *)
Fixpoint lower (s : string) : string :=
  match s with
  | EmptyString => EmptyString
  | String c s' => String (lower_ascii c) (lower s')
  end.

Fixpoint all_chars (p : ascii -> bool) (s : string) : bool :=
  match s with
  | EmptyString => true
  | String c s' => p c && all_chars p s'
  end.

(** [s.isalnum()]: every character is alphanumeric and there is at least
    one character. *)
Definition isalnum (s : string) : bool :=
  match s with
  | EmptyString => false
  | _ => all_chars isalnum_ascii s
  end.

(** [sep.join(parts)] *)
Definition join (sep : string) (parts : list string) : string :=
  String.concat sep parts.

(** [l[:k]] for a Python integer [k]: a negative bound counts from the
    end of the list. *)
Definition slice_to {A : Type} (l : list A) (k : Z) : list A :=
  if (k <? 0)%Z then firstn (Z.to_nat (Z.of_nat (length l) + k)) l
  else firstn (Z.to_nat k) l.

(** [[x] * n] for a Python integer [n]: empty when [n] is not positive. *)
Definition list_repeat {A : Type} (x : A) (n : Z) : list A :=
  repeat x (Z.to_nat n).

(** [omap_list f l]: a list comprehension whose element expression can
    raise; the first exception ends it. *)
Fixpoint omap_list {A B : Type} (f : A -> outcome B) (l : list A)
    : outcome (list B) :=
  match l with
  | [] => Returns []
  | x :: l' =>
      (do y <- f x ;
       do ys <- omap_list f l' ;
       Returns (y :: ys))%outcome
  end.

(** [enumerate(l)] *)
Definition enumerate {A : Type} (l : list A) : list (nat * A) :=
  combine (seq 0 (length l)) l.

(** [str(n)] for an integer. *)
Definition str_int (n : Z) : string := NilZero.string_of_int (Z.to_int n).

Definition nl : string := String "010"%char EmptyString.
Definition dq : string := String "034"%char EmptyString.

(** * [retrival_research/GEMINI_final.py] *)

Module GeminiFinal.

(** A Milvus hit as [perform_search] reads it. *)
Record hit : Type := Hit {
  description : string;
  distance : py_float
}.

Section Program.

(** NLTK: [word_tokenize], [WordNetLemmatizer().lemmatize] and the
    English stop word list. *)
Variable word_tokenize : string -> list string.
Variable lemmatize : string -> string.
Variable stop_words : gset string.

(** [embedding_model.encode([text])[0].tolist()], the raw vector of the
    MiniLM model *)
Variable encode : string -> outcome (list py_float).

(** [Collection(name)] and [collection.search(...)[0]] with the query
    vector and the limit. *)
Variable open_collection : string -> outcome unit.
Variable collection_search : list py_float -> Z -> outcome (list hit).

Definition keeps (token : string) : bool :=
  isalnum token && negb (bool_decide (token ∈ stop_words)).

Definition processed_tokens (query : string) : list string :=
  map lemmatize (List.filter keeps (word_tokenize (lower query))).

Definition preprocess_query (query : string) : string :=
  join " " (processed_tokens query).

Definition pad_or_truncate (vector : list py_float) (target_dim : Z)
    : list py_float :=
  if (Z.of_nat (length vector) >? target_dim)%Z
  then slice_to vector target_dim
  else (vector ++ list_repeat float_zero (target_dim - Z.of_nat (length vector)))%list.

Definition get_embedding (text : string) (target_dim : Z)
    : outcome (list py_float) :=
  (do embeddings <- encode text ;
   Returns (pad_or_truncate embeddings target_dim))%outcome.

Definition collection_name : string := "AllMini_MDPCC".

Definition perform_search (query : string)
    : outcome (list (string * py_float)) :=
  otry
    (let preprocessed_query := preprocess_query query in
     do user_vector <- get_embedding preprocessed_query 384 ;
     do _ <- open_collection collection_name ;
     do search_results <- collection_search user_vector 5 ;
     Returns (map (fun h => (description h, distance h)) search_results))%outcome
    is_MilvusException
    (fun e => Returns []).

End Program.

(** ** Answer generation and the query form *)

(** A row of the result table: rank, description, distance as text. *)
Record row : Type := Row {
  rank : Z;
  row_description : string;
  row_distance : string
}.

(** The three widgets that [submit_query] reads and writes.  Message
    boxes and [print] are not part of the state. *)
Record gui : Type := Gui {
  query_input : string;
  result_tree : list row;
  llm_output_text : string
}.

(** Whitespace, as [str.strip] and [str.isspace] see it in ASCII. *)
Definition isspace_ascii (c : ascii) : bool :=
  let n := N_of_ascii c in
  (((9 <=? n) && (n <=? 13)) || ((28 <=? n) && (n <=? 32)))%N.

(** [not s.strip()]: nothing is left after stripping. *)
Definition strips_to_empty (s : string) : bool := all_chars isspace_ascii s.

Section Form.

Variable word_tokenize : string -> list string.
Variable lemmatize : string -> string.
Variable stop_words : gset string.
Variable encode : string -> outcome (list py_float).
Variable open_collection : string -> outcome unit.
Variable collection_search : list py_float -> Z -> outcome (list hit).

(** [genai.list_models()], read for the debugging printout only, and
    [genai.GenerativeModel(name).generate_content(prompt).text]. *)
Variable list_models : outcome unit.
Variable generate_content : string -> string -> outcome string.

(** [format(distance, ".4f")] *)
Variable format_4f : py_float -> string.

Definition gemini_prompt (query : string) (retrieved_chunks : list string)
    : string :=
  let context :=
    join nl (map (fun '(i, chunk) =>
                    "Chunk " ++ str_int (Z.of_nat i + 1) ++ ": " ++ chunk)
                 (enumerate retrieved_chunks)) in
  "The user asked: " ++ query ++ nl
  ++ "The retrieved context is:" ++ nl
  ++ context ++ nl
  ++ "Please provide a comprehensive and concise answer based on the above information.".

Definition gemini_error : string :=
  "An error occurred while generating the answer.".

Definition generate_answer_with_gemini (query : string)
    (retrieved_chunks : list string) : outcome string :=
  otry
    (let prompt := gemini_prompt query retrieved_chunks in
     do available_models <- list_models ;
     do answer <- generate_content "gemini-2.0-flash" prompt ;
     Returns answer)%outcome
    (fun e => true)
    (fun e => Returns gemini_error).

(** [result_tree.delete( *result_tree.get_children())] *)
Definition tree_delete_all (g : gui) : gui :=
  {| query_input := query_input g;
     result_tree := [];
     llm_output_text := llm_output_text g |}.

(** [result_tree.insert("", "end", values=...)] *)
Definition tree_insert_end (r : row) (g : gui) : gui :=
  {| query_input := query_input g;
     result_tree := (result_tree g ++ [r])%list;
     llm_output_text := llm_output_text g |}.

(** [llm_output_text.delete("1.0", tk.END)] and
    [llm_output_text.insert(tk.END, text)] *)
Definition text_delete_all (g : gui) : gui :=
  {| query_input := query_input g;
     result_tree := result_tree g;
     llm_output_text := "" |}.
Definition text_insert_end (text : string) (g : gui) : gui :=
  {| query_input := query_input g;
     result_tree := result_tree g;
     llm_output_text := llm_output_text g ++ text |}.

(** The loop that fills the table. *)
Fixpoint insert_rows (rows : list (nat * (string * py_float))) (g : gui) : gui :=
  match rows with
  | [] => g
  | (idx, (description, distance)) :: rest =>
      insert_rows rest
        (tree_insert_end
           {| rank := Z.of_nat idx + 1;
              row_description := description;
              row_distance := format_4f distance |} g)
  end.

(** The command of the button: the outcome and the widgets as the call
    leaves them. *)
Definition submit_query (g : gui) : outcome unit * gui :=
  let query := query_input g in
  if strips_to_empty query then
    (* warning box, return *)
    (Returns tt, g)
  else
    match perform_search word_tokenize lemmatize stop_words encode
            open_collection collection_search query with
    | Raises e => (Raises e, g)
    | Returns results =>
        let g := tree_delete_all g in
        let retrieved_chunks := map fst results in
        let g := insert_rows (enumerate results) g in
        match generate_answer_with_gemini query retrieved_chunks with
        | Raises e => (Raises e, g)
        | Returns llm_answer =>
            let g := text_delete_all g in
            let g := text_insert_end llm_answer g in
            (Returns tt, g)
        end
    end.

End Form.

End GeminiFinal.

(** * [multimodal-rag-system.py] *)

Module Rag.

(** A PIL image, as the metadata store hands it over. *)
Record image : Type := PILImage { pixels : list Byte.byte }.

(** The Python values that occur in metadata and match dictionaries. *)
Inductive pyval : Type :=
  | PNone
  | PInt (n : Z)
  | PFloat (x : py_float)
  | PStr (s : string)
  | PImage (img : image).

(** Truth value of an object, as [not v] and [if v] test it. *)
Definition truthy (v : pyval) : bool :=
  match v with
  | PNone => false
  | PInt n => negb (n =? 0)%Z
  | PFloat (S754_zero _) => false
  | PFloat _ => true
  | PStr EmptyString => false
  | PStr _ => true
  | PImage _ => true
  end.

(** [d.get(key)] and [d.get(key, default)] *)
Definition dict_get (d : gmap string pyval) (key : string) : pyval :=
  default PNone (d !! key).
Definition dict_get_default (d : gmap string pyval) (key : string)
    (dflt : pyval) : pyval :=
  default dflt (d !! key).

(** A LangChain document returned by the text index. *)
Record document : Type := Document {
  page_content : string;
  metadata : gmap string pyval
}.

(** The dictionaries built by [search_text_chunks]. *)
Module TextMatch.
Record t : Type := Build {
  content : string;
  source : pyval;
  page : pyval;
  module_code : pyval;
  module_name : pyval;
  lecture_number : pyval;
  lecture_title : pyval
}.
End TextMatch.

(** The dictionaries built by [search_images]. *)
Module ImageMatch.
Record t : Type := Build {
  image_data : string;
  similarity_score : pyval;
  lecture_code : pyval;
  lecture_number : pyval;
  lecture_title : pyval;
  page_number : pyval;
  text : pyval
}.
End ImageMatch.

(** The dictionary returned by [generate_combined_response]. *)
Record AnswerResult : Type := Answer {
  answer_text : string;
  image_results : list ImageMatch.t;
  has_images : bool;
  original_query : string
}.

(** The names of the two tools handed to the agent. *)
Inductive tool_name : Type := TextSearch | ImageSearch.

(** One planning step of the agent. *)
Inductive agent_step : Type :=
  | AgentFinish (output : string)
  | AgentAction (tool : tool_name) (tool_input : string).

(** Calls to the collaborators, in the order they were made. *)
Inductive event : Type :=
  | EvGetLlm
  | EvLlmInvoke (prompt : string)
  | EvHuggingFaceEmbeddings (model_name : string)
  | EvMilvus (collection : string)
  | EvSimilaritySearch (query : string) (k : Z)
  | EvSearchImagesByText (query : string) (top_k : Z)
      (milvus_collection mongodb_collection : string)
  | EvInitializeAgent (max_iterations : nat)
  | EvAgentPlan (input : string)
  | EvObservation (tool : tool_name) (tool_input observation : string).

Definition history : Type := list event.

(** The collaborators.  A call is answered from the calls made so far,
    so the same call can be answered differently the second time. *)
Record world : Type := World {
  get_llm : history -> outcome unit;
  llm_invoke : history -> string -> outcome string;
  HuggingFaceEmbeddings : history -> string -> outcome unit;
  Milvus : history -> string -> outcome unit;
  similarity_search : history -> string -> Z -> outcome (list document);
  search_images_by_text :
    history -> string -> Z -> string -> string ->
    outcome (list (gmap string pyval));
  (** [img.save(buffer, format="PNG"); buffer.getvalue()] *)
  save_png : image -> outcome (list Byte.byte);
  (** [base64.b64encode(data).decode("utf-8")] *)
  b64encode : list Byte.byte -> string;
  (** [str(v)] for floats and images *)
  py_repr : pyval -> string;
  (** [format(v, ".2f")] *)
  format_2f : pyval -> outcome string;
  initialize_agent : history -> nat -> outcome unit;
  agent_plan : history -> string -> outcome agent_step;
  (** what [agent.run] returns when [max_iterations] is used up *)
  agent_stopped : string
}.

(** ** Computations that call collaborators and can raise *)

Definition M (A : Type) : Type := history -> outcome A * history.

Definition ret {A : Type} (a : A) : M A := fun h => (Returns a, h).

Definition raise {A : Type} (e : exn) : M A := fun h => (Raises e, h).

Definition bind {A B : Type} (m : M A) (k : A -> M B) : M B :=
  fun h =>
    match m h with
    | (Returns a, h') => k a h'
    | (Raises e, h') => (Raises e, h')
    end.

(** [try: m  except Exception as e: handler e] *)
Definition try_except {A : Type} (m : M A) (handler : exn -> M A) : M A :=
  fun h =>
    match m h with
    | (Returns a, h') => (Returns a, h')
    | (Raises e, h') => handler e h'
    end.

(** A call to a collaborator: answered from the history, then recorded. *)
Definition call {A : Type} (ev : event) (answer : history -> outcome A) : M A :=
  fun h => (answer h, (h ++ [ev])%list).

(** A computation without calls. *)
Definition lift {A : Type} (o : outcome A) : M A := fun h => (o, h).

Declare Scope M_scope.
Delimit Scope M_scope with M.
Notation "'do' x <- m ; k" := (bind m (fun x => k))
  (at level 10, x name, m at level 100, k at level 200) : M_scope.

(** ** Retrieval *)

Section Program.

Variable W : world.

(** [str(v)], as an f-string renders a value. *)
Definition py_str (v : pyval) : string :=
  match v with
  | PNone => "None"
  | PInt n => str_int n
  | PStr s => s
  | _ => py_repr W v
  end.

(** [v[:100]] *)
Definition slice_100 (v : pyval) : outcome string :=
  match v with
  | PStr s => Returns (substring 0 100 s)
  | _ => Raises (TypeError "object is not subscriptable")
  end.

(** [v.save(buffer, format="PNG")] followed by [buffer.getvalue()] *)
Definition save (v : pyval) : outcome (list Byte.byte) :=
  match v with
  | PImage img => save_png W img
  | _ => Raises (AttributeError "object has no attribute save")
  end.

Definition Unknown : pyval := PStr "Unknown".

(** The dictionary literal of [search_text_chunks]. *)
Definition text_result (doc : document) : TextMatch.t :=
  {| TextMatch.content := page_content doc;
     TextMatch.source := dict_get_default (metadata doc) "source" Unknown;
     TextMatch.page := dict_get_default (metadata doc) "page" Unknown;
     TextMatch.module_code :=
       dict_get_default (metadata doc) "module_code" Unknown;
     TextMatch.module_name :=
       dict_get_default (metadata doc) "module_name" Unknown;
     TextMatch.lecture_number :=
       dict_get_default (metadata doc) "lecture_number" Unknown;
     TextMatch.lecture_title :=
       dict_get_default (metadata doc) "lecture_title" Unknown |}.

Definition search_text_chunks (query : string) (top_k : Z)
    : M (list TextMatch.t) :=
  try_except
    (do embeddings <-
        call (EvHuggingFaceEmbeddings "all-MiniLM-L6-v2")
             (fun h => HuggingFaceEmbeddings W h "all-MiniLM-L6-v2") ;
     do vectorstore <-
        call (EvMilvus "combined_text_collection")
             (fun h => Milvus W h "combined_text_collection") ;
     do docs <-
        call (EvSimilaritySearch query top_k)
             (fun h => similarity_search W h query top_k) ;
     let results := map text_result docs in
     ret results)%M
    (fun e => ret []).

(** The dictionary literal of [search_images]. *)
Definition image_result (img_str : string) (match_ : gmap string pyval)
    : ImageMatch.t :=
  {| ImageMatch.image_data := img_str;
     ImageMatch.similarity_score :=
       dict_get_default match_ "similarity_score" (PInt 0);
     ImageMatch.lecture_code :=
       dict_get_default match_ "lecture_code" Unknown;
     ImageMatch.lecture_number :=
       dict_get_default match_ "lecture_number" Unknown;
     ImageMatch.lecture_title :=
       dict_get_default match_ "lecture_title" Unknown;
     ImageMatch.page_number :=
       dict_get_default match_ "page_number" Unknown;
     ImageMatch.text :=
       dict_get_default match_ "text" (PStr "No text available") |}.

(** The [try] block inside the loop of [search_images]: the value is
    the [results] list after the block. *)
Definition process_match (match_ : gmap string pyval)
    (results : list ImageMatch.t) : outcome (list ImageMatch.t) :=
  if negb (truthy (dict_get match_ "image")) then
    (* continue *)
    Returns results
  else
    (do buffer <- save (dict_get match_ "image") ;
     let img_str := b64encode W buffer in
     let result := image_result img_str match_ in
     Returns (results ++ [result])%list)%outcome.

(** The loop of [search_images]; an exception in one round is logged
    and the loop goes on with [results] as it was. *)
Fixpoint format_results (matches : list (gmap string pyval))
    (results : list ImageMatch.t) : list ImageMatch.t :=
  match matches with
  | [] => results
  | match_ :: rest =>
      match process_match match_ results with
      | Returns results' => format_results rest results'
      | Raises img_err => format_results rest results
      end
  end.

Definition search_images (query : string) (top_k : Z)
    : M (list ImageMatch.t) :=
  try_except
    (do matches <-
        call (EvSearchImagesByText query top_k
                "combined_embeddings_7" "pdf_images_7")
             (fun h => search_images_by_text W h query top_k
                         "combined_embeddings_7" "pdf_images_7") ;
     ret (format_results matches []))%M
    (fun e => ret []).

(** ** The agent's tools *)

Definition text_search_tool (query : string) : M string :=
  (do results <- search_text_chunks query 5 ;
   match results with
   | [] => ret "No relevant text information found."
   | _ =>
       ret (join nl
              (map (fun '(i, result) =>
                      "Text Result " ++ str_int (Z.of_nat (i + 1)) ++ ":" ++ nl
                      ++ "Module: " ++ py_str (TextMatch.module_code result)
                      ++ " - " ++ py_str (TextMatch.module_name result) ++ nl
                      ++ "Source: " ++ py_str (TextMatch.source result)
                      ++ ", Lecture " ++ py_str (TextMatch.lecture_number result)
                      ++ ", Page: " ++ py_str (TextMatch.page result) ++ nl
                      ++ "Content: " ++ TextMatch.content result ++ nl)
                   (enumerate results)))
   end)%M.

Definition image_search_tool (query : string) : M string :=
  (do results <- search_images query 3 ;
   match results with
   | [] => ret "No relevant images found."
   | _ =>
       do formatted_results <-
          lift (omap_list
                  (fun '(i, img) =>
                     (do related <- slice_100 (ImageMatch.text img) ;
                      do score <- format_2f W (ImageMatch.similarity_score img) ;
                      Returns
                        ("Image " ++ str_int (Z.of_nat (i + 1)) ++ ":" ++ nl
                         ++ "From " ++ py_str (ImageMatch.lecture_code img) ++ ", "
                         ++ "Lecture " ++ py_str (ImageMatch.lecture_number img) ++ ", "
                         ++ "Page " ++ py_str (ImageMatch.page_number img) ++ " - "
                         ++ "Related to: " ++ related ++ "..." ++ nl
                         ++ "Similarity score: " ++ score ++ nl))%outcome)
                  (enumerate results)) ;
       ret (join nl formatted_results)
   end)%M.

Definition run_tool (tool : tool_name) (tool_input : string) : M string :=
  match tool with
  | TextSearch => text_search_tool tool_input
  | ImageSearch => image_search_tool tool_input
  end.

(** [agent.run(input)]: plan, use a tool, observe, at most
    [max_iterations] times. *)
Fixpoint agent_run (max_iterations : nat) (input : string) : M string :=
  match max_iterations with
  | O => ret (agent_stopped W)
  | S remaining =>
      (do step <- call (EvAgentPlan input) (fun h => agent_plan W h input) ;
       match step with
       | AgentFinish output => ret output
       | AgentAction tool tool_input =>
           do observation <- run_tool tool tool_input ;
           do _ <- call (EvObservation tool tool_input observation)
                        (fun _ => Returns tt) ;
           agent_run remaining input
       end)%M
  end.

(** ** Prompt building *)

Definition no_text_found : string := "No relevant text information found.".
Definition no_images_found : string := "No relevant images found.".

Definition text_context_of (text_results : list TextMatch.t) : string :=
  match text_results with
  | [] => ""
  | _ =>
      join (nl ++ nl)
        (map (fun result =>
                "Source: " ++ py_str (TextMatch.module_code result)
                ++ ", Lecture " ++ py_str (TextMatch.lecture_number result)
                ++ ", Page " ++ py_str (TextMatch.page result) ++ nl
                ++ "Content: " ++ TextMatch.content result)
             text_results)
  end.

Definition image_context_of (image_results : list ImageMatch.t)
    : outcome string :=
  match image_results with
  | [] => Returns ""
  | _ =>
      (do entries <-
          omap_list
            (fun '(i, img) =>
               (do related <- slice_100 (ImageMatch.text img) ;
                Returns
                  ("Image " ++ str_int (Z.of_nat (i + 1)) ++ ": From "
                   ++ py_str (ImageMatch.lecture_code img) ++ ", Lecture "
                   ++ py_str (ImageMatch.lecture_number img) ++ ", "
                   ++ "Page " ++ py_str (ImageMatch.page_number img) ++ " - "
                   ++ "Related to: " ++ related ++ "..." ++ nl))%outcome)
            (enumerate image_results) ;
       Returns (join nl entries))%outcome
  end.

(** [x if x else fallback] for a string [x] *)
Definition or_else (x fallback : string) : string :=
  match x with
  | EmptyString => fallback
  | _ => x
  end.

Definition indent : string := "        ".

(** The five numbered directives that close every prompt. *)
Definition INSTRUCTIONS : string :=
  indent ++ "INSTRUCTIONS:" ++ nl
  ++ indent ++ "1. Based on the provided context, answer the user's query thoroughly." ++ nl
  ++ indent ++ "2. ALWAYS cite the specific lecture numbers when providing information (e.g., "
  ++ dq ++ "As explained in Lecture 3..." ++ dq ++ " or "
  ++ dq ++ "According to Lecture 5..." ++ dq ++ ")." ++ nl
  ++ indent ++ "3. If there are relevant images that would help illustrate your answer, mention them by referring to their number and lecture (e.g., "
  ++ dq ++ "As shown in Image 1 from Lecture 2..." ++ dq ++ ")." ++ nl
  ++ indent ++ "4. Make the lecture number references a natural part of your answer, not just citations at the end." ++ nl
  ++ indent ++ "5. If the lecture number is unknown for some sources, you can mention this (e.g., "
  ++ dq ++ "from an unspecified lecture" ++ dq ++ ")." ++ nl
  ++ indent.

(** The prompt with its two context blocks filled in. *)
Definition prompt_with (query text_block image_block : string) : string :=
  nl
  ++ indent ++ "User Query: " ++ query ++ nl
  ++ indent ++ nl
  ++ indent ++ "Text Context:" ++ nl
  ++ indent ++ text_block ++ nl
  ++ indent ++ nl
  ++ indent ++ "Image References:" ++ nl
  ++ indent ++ image_block ++ nl
  ++ indent ++ nl
  ++ INSTRUCTIONS.

Definition build_prompt (query text_context image_context : string) : string :=
  prompt_with query (or_else text_context no_text_found)
                    (or_else image_context no_images_found).

(** ** Answer generation *)

Definition llm_test_prompt : string := "Hello, are you working properly?".

Definition agent_prompt_of (query : string) : string :=
  "Please answer this query, and make sure to reference the specific lecture numbers when providing information: "
  ++ query.

Definition generation_apology : string :=
  "I encountered an error while generating an answer. Please try again or rephrase your question.".

Definition processing_apology : string :=
  "I encountered an error while processing your query. Please try again or rephrase your question.".

Definition generate_combined_response (query : string) : M AnswerResult :=
  try_except
    (do llm <- call EvGetLlm (get_llm W) ;
     do test_response <-
        try_except
          (call (EvLlmInvoke llm_test_prompt)
                (fun h => llm_invoke W h llm_test_prompt))
          (fun llm_test_error => raise llm_test_error) ;
     do text_results <- search_text_chunks query 5 ;
     do image_results <- search_images query 3 ;
     let text_context := text_context_of text_results in
     do image_context <- lift (image_context_of image_results) ;
     let prompt := build_prompt query text_context image_context in
     try_except
       (do response <-
           call (EvLlmInvoke prompt) (fun h => llm_invoke W h prompt) ;
        ret {| answer_text := response;
               image_results := image_results;
               has_images := (0 <? length image_results)%nat;
               original_query := query |})
       (fun direct_error =>
          try_except
            (do agent <-
                call (EvInitializeAgent 3)
                     (fun h => initialize_agent W h 3) ;
             let agent_prompt := agent_prompt_of query in
             do agent_response <- agent_run 3 agent_prompt ;
             ret {| answer_text := agent_response;
                    image_results := image_results;
                    has_images := (0 <? length image_results)%nat;
                    original_query := query |})
            (fun agent_error =>
               ret {| answer_text := generation_apology;
                      image_results := image_results;
                      has_images := (0 <? length image_results)%nat;
                      original_query := query |})))%M
    (fun e =>
       ret {| answer_text := processing_apology;
              image_results := [];
              has_images := false;
              original_query := query |}).

End Program.

(** ** Document processing *)

(** Modelled from the spec: the class [EmbeddingConfig] is defined in
    [pdf_processor], which is not among the sources.  The design
    document describes it as an immutable configuration bundle, created
    once per ingestion request and handed to the pipeline read-only, with
    the fields that the constructor call names. *)
Module EmbeddingConfig.
Record t : Type := Build {
  image_weight : py_float;
  text_weight : py_float;
  similarity_threshold : py_float;
  batch_size : Z;
  use_dim_reduction : bool;
  output_dim : Z;
  use_embedding_alignment : bool;
  mongodb_collection : string;
  milvus_collection : string
}.
End EmbeddingConfig.

(** The dictionary returned by [process_document_for_images]. *)
Record processing_result : Type := Processing {
  success : bool;
  result : option (gmap string pyval);
  message : string
}.

Definition exn_message (e : exn) : string :=
  match e with
  | MilvusException msg | TypeError msg | ValueError msg
  | AttributeError msg | KeyError msg | RuntimeError msg => msg
  end.

Section Ingestion.

Variable W : world.

(** Writing the upload to a temporary file gives its path. *)
Variable save_upload : list Byte.byte -> outcome string.

(** [create_embeddings_and_store(pdf_path, metadata, config)] of
    [pdf_processor]. *)
Variable create_embeddings_and_store :
  string -> gmap string pyval -> EmbeddingConfig.t -> outcome (gmap string pyval).

(** [d[key]] *)
Definition dict_item (d : gmap string pyval) (key : string) : outcome pyval :=
  match d !! key with
  | Some v => Returns v
  | None => Raises (KeyError key)
  end.

Definition process_document_for_images (file : list Byte.byte)
    (metadata : gmap string pyval) (config : EmbeddingConfig.t)
    : processing_result :=
  match
    (do pdf_path <- save_upload file ;
     do result <- create_embeddings_and_store pdf_path metadata config ;
     match result !! "error" with
     | Some err =>
         Returns {| success := false;
                    result := None;
                    message := "Error: " ++ py_str W err |}
     | None =>
         do num_unique <- dict_item result "num_unique" ;
         Returns {| success := true;
                    result := Some result;
                    message := "Successfully processed " ++ py_str W num_unique
                               ++ " unique images" |}
     end)%outcome
  with
  | Returns r => r
  | Raises e =>
      {| success := false;
         result := None;
         message := "Error: " ++ exn_message e |}
  end.

(** The handler of the button "Process PDF for Images": the values of
    the form, the uploaded file if there is one, and the metadata.  It
    gives the configuration it built, as it is after the pipeline ran,
    and the pipeline's result; nothing when no file was uploaded. *)
Definition process_pdf_for_images
    (image_weight similarity_threshold : py_float) (batch_size : Z)
    (use_dim_reduction : bool) (output_dim : Z) (use_alignment : bool)
    (mongo_collection milvus_collection : string)
    (uploaded_file_img : option (list Byte.byte))
    (image_metadata : gmap string pyval)
    : option (EmbeddingConfig.t * processing_result) :=
  match uploaded_file_img with
  | Some file =>
      let config :=
        {| EmbeddingConfig.image_weight := image_weight;
           EmbeddingConfig.text_weight := float_sub float_one image_weight;
           EmbeddingConfig.similarity_threshold := similarity_threshold;
           EmbeddingConfig.batch_size := batch_size;
           EmbeddingConfig.use_dim_reduction := use_dim_reduction;
           EmbeddingConfig.output_dim := output_dim;
           EmbeddingConfig.use_embedding_alignment := use_alignment;
           EmbeddingConfig.mongodb_collection := mongo_collection;
           EmbeddingConfig.milvus_collection := milvus_collection |} in
      let result := process_document_for_images file image_metadata config in
      Some (config, result)
  | None => None
  end.

End Ingestion.

(** ** Text ingestion *)

(** The dictionary returned by [process_document_for_text]. *)
Record text_processing_result : Type := TextProcessing {
  text_success : bool;
  chunk_count : option Z;
  text_message : string
}.

Section TextIngestion.

Variable save_upload : list Byte.byte -> outcome string.

(** [PyMuPDFLoader(pdf_path).load()], the splitter's
    [split_documents(documents)], [HuggingFaceEmbeddings(model_name=...)]
    and [Milvus.from_documents(chunks, embeddings, collection_name)]. *)
Variable load : string -> outcome (list document).
Variable split_documents : list document -> outcome (list document).
Variable load_embeddings : string -> outcome unit.
Variable from_documents : list document -> string -> outcome unit.

(** [doc.metadata.update(metadata)]: the entries of [metadata] replace
    those of the document with the same key. *)
Definition update_metadata (metadata : gmap string pyval) (doc : document)
    : document :=
  {| page_content := page_content doc;
     metadata := metadata ∪ Rag.metadata doc |}.

Definition process_document_for_text (file : list Byte.byte)
    (metadata : gmap string pyval) : text_processing_result :=
  match
    (do pdf_path <- save_upload file ;
     do documents <- load pdf_path ;
     let documents := map (update_metadata metadata) documents in
     do chunks <- split_documents documents ;
     do embeddings <- load_embeddings "all-MiniLM-L6-v2" ;
     do vectorstore <- from_documents chunks "combined_text_collection" ;
     Returns
       {| text_success := true;
          chunk_count := Some (Z.of_nat (length chunks));
          text_message :=
            "Successfully processed and indexed "
            ++ str_int (Z.of_nat (length chunks)) ++ " text chunks" |})%outcome
  with
  | Returns r => r
  | Raises e =>
      {| text_success := false;
         chunk_count := None;
         text_message := "Error: " ++ exn_message e |}
  end.

End TextIngestion.

(** ** The chat *)

(** The messages of the session: the role and the content, which is the
    prompt for a user and the result dictionary or plain text for the
    assistant. *)
Inductive chat_message : Type :=
  | SystemMessage (content : string)
  | UserMessage (content : string)
  | AssistantAnswer (content : AnswerResult)
  | AssistantText (content : string).

(** The entries of [st.session_state] that the chat reads and writes;
    the conversation memory object is created with them and never used. *)
Record session_state : Type := Session {
  messages : list chat_message;
  show_sources : bool;
  include_images : bool
}.

Definition greeting : string :=
  "I am a multimodal assistant that can help you find information from both text and images in your documents.".

(** The session as it is first created. *)
Definition initial_session : session_state :=
  {| messages := [SystemMessage greeting];
     show_sources := false;
     include_images := true |}.

(** The button "Clear Chat History". *)
Definition clear_chat_history (st : session_state) : session_state :=
  {| messages := [SystemMessage greeting];
     show_sources := show_sources st;
     include_images := include_images st |}.

Definition get_chat_history (st : session_state) : string :=
  fold_left
    (fun chat_history msg =>
       match msg with
       | SystemMessage _ => chat_history
       | UserMessage content => chat_history ++ "User: " ++ content ++ nl
       | AssistantAnswer content =>
           chat_history ++ "Assistant: " ++ answer_text content ++ nl
       | AssistantText content => chat_history ++ "Assistant: " ++ content ++ nl
       end)
    (messages st) "".

(** What the page shows: Streamlit elements, with the containers that
    hold others. *)
#[warnings="-register-all"]
Inductive widget : Type :=
  | st_markdown (body : string)
  | st_subheader (body : string)
  | st_write (body : string)
  | st_warning (body : string)
  | st_error (body : string)
  | st_image (image caption : string)
  | st_chat_message (name : string) (children : list widget)
  | st_columns (columns : list (list widget))
  | st_expander (label : string) (children : list widget).

Section Chat.

Variable W : world.

Definition format_image_info (img : ImageMatch.t) : string :=
  let source_info := "**Source**: " ++ py_str W (ImageMatch.lecture_code img) in
  let lecture_info := "Lecture " ++ py_str W (ImageMatch.lecture_number img) in
  let page_info := "Page " ++ py_str W (ImageMatch.page_number img) in
  source_info ++ ", " ++ lecture_info ++ ", " ++ page_info.

(** The body of one column: the image, then its score and provenance,
    or an error box when formatting the score raises. *)
Definition image_column (i : nat) (img : ImageMatch.t) : list widget :=
  st_image ("data:image/png;base64," ++ ImageMatch.image_data img)
           ("Image " ++ str_int (Z.of_nat i + 1))
  :: match format_2f W (ImageMatch.similarity_score img) with
     | Returns score =>
         [st_markdown ("**Score**: " ++ score);
          st_markdown (format_image_info img)]
     | Raises img_err =>
         [st_error ("Error displaying image " ++ str_int (Z.of_nat i + 1)
                    ++ ": " ++ exn_message img_err)]
     end.

(** [st.columns(min(3, len(image_results)))] filled by
    [zip(cols, image_results)]. *)
Definition image_columns (image_results : list ImageMatch.t) : widget :=
  let num_cols := Nat.min 3 (length image_results) in
  st_columns (map (fun '(i, img) => image_column i img)
                  (enumerate (firstn num_cols image_results))).

(** The image part of a stored answer, when the history is shown. *)
Definition show_images (st : session_state) (image_results : list ImageMatch.t)
    : list widget :=
  match image_results with
  | [] => []
  | _ =>
      if include_images st then
        [st_subheader "Relevant Images:";
         st_write ("Found " ++ str_int (Z.of_nat (length image_results))
                   ++ " relevant images");
         image_columns image_results]
      else []
  end.

(** The image part of a fresh answer. *)
Definition show_new_images (st : session_state)
    (image_results : list ImageMatch.t) : list widget :=
  match image_results with
  | [] => []
  | _ =>
      if include_images st then
        ([st_subheader "Relevant Images:";
          st_write ("Found " ++ str_int (Z.of_nat (length image_results))
                    ++ " relevant images")]
         ++ match image_results with
            | [] => [st_warning "No images were found for this query."]
            | _ => [image_columns image_results]
            end)%list
      else []
  end.

(** The expander with the text sources of a query: a new text search. *)
Definition show_text_sources (query : string) : M (list widget) :=
  (do text_results <- text_search_tool W query ;
   ret [st_expander "View Text Sources" [st_markdown text_results]])%M.

(** One round of the loop that shows the history. *)
Definition show_message (st : session_state) (msg : chat_message)
    : M (list widget) :=
  match msg with
  | SystemMessage _ => ret []
  | UserMessage content => ret [st_chat_message "user" [st_markdown content]]
  | AssistantAnswer content =>
      (do sources <-
          (if show_sources st then show_text_sources (original_query content)
           else ret []) ;
       ret [st_chat_message "assistant"
              (st_markdown (answer_text content)
               :: (show_images st (image_results content) ++ sources)%list)])%M
  | AssistantText content =>
      ret [st_chat_message "assistant" [st_markdown content]]
  end.

Fixpoint show_history (st : session_state) (msgs : list chat_message)
    : M (list widget) :=
  match msgs with
  | [] => ret []
  | msg :: rest =>
      (do shown <- show_message st msg ;
       do shown_rest <- show_history st rest ;
       ret (shown ++ shown_rest)%list)%M
  end.

(** [response["original_query"] = prompt] *)
Definition set_original_query (response : AnswerResult) (prompt : string)
    : AnswerResult :=
  {| answer_text := answer_text response;
     image_results := image_results response;
     has_images := has_images response;
     original_query := prompt |}.

(** The chat input: the session after the turn and what the turn shows.
    The dictionary appended to the messages is the one that is then
    given its [original_query], so the stored message has it too. *)
Definition chat_input (st : session_state) (prompt : string)
    : M (session_state * list widget) :=
  match prompt with
  | EmptyString => ret (st, [])
  | _ =>
      let messages1 := (messages st ++ [UserMessage prompt])%list in
      (do response <- generate_combined_response W prompt ;
       let response := set_original_query response prompt in
       let messages2 := (messages1 ++ [AssistantAnswer response])%list in
       do sources <-
          (if show_sources st then show_text_sources prompt else ret []) ;
       ret ({| messages := messages2;
               show_sources := show_sources st;
               include_images := include_images st |},
            [st_chat_message "user" [st_markdown prompt];
             st_chat_message "assistant"
               (st_markdown (answer_text response)
                :: (show_new_images st (image_results response) ++ sources)%list)]))%M
  end.

End Chat.

(** ** Reading a history *)

Definition is_retrieval_call (ev : event) : bool :=
  match ev with
  | EvHuggingFaceEmbeddings _ | EvMilvus _ | EvSimilaritySearch _ _
  | EvSearchImagesByText _ _ _ _ => true
  | _ => false
  end.

(** The first call of [search_text_chunks]. *)
Definition starts_text_search (ev : event) : bool :=
  match ev with
  | EvHuggingFaceEmbeddings _ => true
  | _ => false
  end.

(** The first call of [search_images]. *)
Definition starts_image_search (ev : event) : bool :=
  match ev with
  | EvSearchImagesByText _ _ _ _ => true
  | _ => false
  end.

Definition count_events (p : event -> bool) (evs : list event) : nat :=
  length (List.filter p evs).

(** A computation only adds calls to the history. *)
Definition appends_calls {A : Type} (m : M A) : Prop :=
  forall h, exists calls, snd (m h) = (h ++ calls)%list.

(** The dictionary that each of the three tiers returns, and the one of
    the outer handler. *)
Definition tier_answer (text : string) (images : list ImageMatch.t)
    (query : string) : AnswerResult :=
  {| answer_text := text;
     image_results := images;
     has_images := (0 <? length images)%nat;
     original_query := query |}.

Definition fallback_answer (query : string) : AnswerResult :=
  {| answer_text := processing_apology;
     image_results := [];
     has_images := false;
     original_query := query |}.

(** The run of [generate_combined_response] from [h] gets as far as the
    first generation tier: the model is obtained and passes the health
    check, the two searches give [text_results] and [image_results] and
    leave the history [h3], and the image block is [image_context]. *)
Definition reaches_generation (W : world) (query : string) (h : history)
    (text_results : list TextMatch.t) (image_results : list ImageMatch.t)
    (image_context : string) (h3 : history) : Prop :=
  get_llm W h = Returns tt
  /\ (exists test_response,
        llm_invoke W (h ++ [EvGetLlm])%list llm_test_prompt
        = Returns test_response)
  /\ (exists h2,
        search_text_chunks W query 5
          ((h ++ [EvGetLlm]) ++ [EvLlmInvoke llm_test_prompt])%list
        = (Returns text_results, h2)
        /\ search_images W query 3 h2 = (Returns image_results, h3))
  /\ image_context_of W image_results = Returns image_context.

(** The stored answers of the assistant, which carry a query. *)
Definition is_assistant_answer (msg : chat_message) : bool :=
  match msg with
  | AssistantAnswer _ => true
  | _ => false
  end.

(** [isinstance(v, str)] *)
Definition is_str (v : pyval) : bool :=
  match v with
  | PStr _ => true
  | _ => false
  end.

End Rag.

(** * Concrete collaborators

    Small stand-ins for the external services, used to run the programs
    on concrete inputs. *)

Module Scenario.

(** A tokenizer that splits on blanks. *)
Fixpoint split_blank (current : string) (s : string) : list string :=
  match s with
  | EmptyString =>
      match current with
      | EmptyString => []
      | _ => [current]
      end
  | String c s' =>
      if Ascii.eqb c " "%char then
        match current with
        | EmptyString => split_blank EmptyString s'
        | _ => current :: split_blank EmptyString s'
        end
      else split_blank (current ++ String c EmptyString) s'
  end.

Definition word_tokenize (s : string) : list string := split_blank EmptyString s.

(** A lemmatizer that knows three plural nouns, as WordNet does. *)
Definition lemmatize (token : string) : string :=
  if String.eqb token "cans" then "can"
  else if String.eqb token "lectures" then "lecture"
  else if String.eqb token "images" then "image"
  else token.

(** Part of NLTK's English stop word list. *)
Definition stop_words : gset string :=
  {[ "the"; "a"; "is"; "what"; "can"; "will"; "just"; "should"; "now" ]}.

Definition one : py_float := float_one.

(** An embedding model with three native dimensions. *)
Definition encode3 (text : string) : outcome (list py_float) :=
  Returns [one; one; one].

(** An embedding model that is out of memory. *)
Definition encode_fails (text : string) : outcome (list py_float) :=
  Raises (RuntimeError "CUDA out of memory").

Definition open_ok (name : string) : outcome unit := Returns tt.

Definition search_one (v : list py_float) (limit : Z)
    : outcome (list GeminiFinal.hit) :=
  Returns [GeminiFinal.Hit "gradient descent" one].
Definition search_timeout (v : list py_float) (limit : Z)
    : outcome (list GeminiFinal.hit) :=
  Raises (MilvusException "search timed out").

(** ** Collaborators of the RAG system *)

(** A stand-in for base64: the bytes read as characters. *)
Definition b64 (data : list Byte.byte) : string := string_of_list_byte data.

(** Everything is up, both indexes are empty, the model answers. *)
Definition quiet : Rag.world :=
  {| Rag.get_llm := fun _ => Returns tt;
     Rag.llm_invoke := fun _ _ => Returns "Gradient descent is explained in Lecture 3.";
     Rag.HuggingFaceEmbeddings := fun _ _ => Returns tt;
     Rag.Milvus := fun _ _ => Returns tt;
     Rag.similarity_search := fun _ _ _ => Returns [];
     Rag.search_images_by_text := fun _ _ _ _ _ => Returns [];
     Rag.save_png := fun img => Returns (Rag.pixels img);
     Rag.b64encode := b64;
     Rag.py_repr := fun _ => "?";
     Rag.format_2f := fun _ => Returns "0.00";
     Rag.initialize_agent := fun _ _ => Returns tt;
     Rag.agent_plan := fun _ _ => Returns (Rag.AgentFinish "The agent's answer.");
     Rag.agent_stopped := "Agent stopped due to iteration limit or time limit." |}.

Definition with_llm_invoke
    (f : Rag.history -> string -> outcome string) (W : Rag.world) : Rag.world :=
  {| Rag.get_llm := Rag.get_llm W;
     Rag.llm_invoke := f;
     Rag.HuggingFaceEmbeddings := Rag.HuggingFaceEmbeddings W;
     Rag.Milvus := Rag.Milvus W;
     Rag.similarity_search := Rag.similarity_search W;
     Rag.search_images_by_text := Rag.search_images_by_text W;
     Rag.save_png := Rag.save_png W;
     Rag.b64encode := Rag.b64encode W;
     Rag.py_repr := Rag.py_repr W;
     Rag.format_2f := Rag.format_2f W;
     Rag.initialize_agent := Rag.initialize_agent W;
     Rag.agent_plan := Rag.agent_plan W;
     Rag.agent_stopped := Rag.agent_stopped W |}.

Definition with_text_index
    (connect : Rag.history -> string -> outcome unit)
    (f : Rag.history -> string -> Z -> outcome (list Rag.document))
    (W : Rag.world) : Rag.world :=
  {| Rag.get_llm := Rag.get_llm W;
     Rag.llm_invoke := Rag.llm_invoke W;
     Rag.HuggingFaceEmbeddings := Rag.HuggingFaceEmbeddings W;
     Rag.Milvus := connect;
     Rag.similarity_search := f;
     Rag.search_images_by_text := Rag.search_images_by_text W;
     Rag.save_png := Rag.save_png W;
     Rag.b64encode := Rag.b64encode W;
     Rag.py_repr := Rag.py_repr W;
     Rag.format_2f := Rag.format_2f W;
     Rag.initialize_agent := Rag.initialize_agent W;
     Rag.agent_plan := Rag.agent_plan W;
     Rag.agent_stopped := Rag.agent_stopped W |}.

Definition with_image_index
    (f : Rag.history -> string -> Z -> string -> string ->
         outcome (list (gmap string Rag.pyval)))
    (W : Rag.world) : Rag.world :=
  {| Rag.get_llm := Rag.get_llm W;
     Rag.llm_invoke := Rag.llm_invoke W;
     Rag.HuggingFaceEmbeddings := Rag.HuggingFaceEmbeddings W;
     Rag.Milvus := Rag.Milvus W;
     Rag.similarity_search := Rag.similarity_search W;
     Rag.search_images_by_text := f;
     Rag.save_png := Rag.save_png W;
     Rag.b64encode := Rag.b64encode W;
     Rag.py_repr := Rag.py_repr W;
     Rag.format_2f := Rag.format_2f W;
     Rag.initialize_agent := Rag.initialize_agent W;
     Rag.agent_plan := Rag.agent_plan W;
     Rag.agent_stopped := Rag.agent_stopped W |}.

Definition with_agent
    (f : Rag.history -> string -> outcome Rag.agent_step)
    (W : Rag.world) : Rag.world :=
  {| Rag.get_llm := Rag.get_llm W;
     Rag.llm_invoke := Rag.llm_invoke W;
     Rag.HuggingFaceEmbeddings := Rag.HuggingFaceEmbeddings W;
     Rag.Milvus := Rag.Milvus W;
     Rag.similarity_search := Rag.similarity_search W;
     Rag.search_images_by_text := Rag.search_images_by_text W;
     Rag.save_png := Rag.save_png W;
     Rag.b64encode := Rag.b64encode W;
     Rag.py_repr := Rag.py_repr W;
     Rag.format_2f := Rag.format_2f W;
     Rag.initialize_agent := Rag.initialize_agent W;
     Rag.agent_plan := f;
     Rag.agent_stopped := Rag.agent_stopped W |}.

(** The language model is out of quota for every request. *)
Definition llm_down : Rag.world :=
  with_llm_invoke (fun _ _ => Raises (RuntimeError "429 quota exceeded")) quiet.

(** The model answers the health check and nothing else. *)
Definition llm_health_check_only : Rag.world :=
  with_llm_invoke
    (fun _ prompt =>
       if String.eqb prompt Rag.llm_test_prompt then Returns "Yes."
       else Raises (RuntimeError "429 quota exceeded"))
    quiet.

(** Milvus and the image search are unreachable. *)
Definition index_down : Rag.world :=
  with_image_index
    (fun _ _ _ _ _ => Raises (RuntimeError "connection refused"))
    (with_text_index
       (fun _ _ => Raises (MilvusException "connection refused"))
       (fun _ _ _ => Returns [])
       quiet).

Definition diagram : Rag.image :=
  Rag.PILImage [Byte.x50; Byte.x4e; Byte.x47].

(** A chunk and an image of lecture 3. *)
Definition chunk3 : Rag.document :=
  Rag.Document "Gradient descent follows the negative gradient."
    {[ "module_code" := Rag.PStr "MDPCC";
       "lecture_number" := Rag.PInt 3;
       "page" := Rag.PInt 7 ]}.

Definition match3 : gmap string Rag.pyval :=
  {[ "image" := Rag.PImage diagram;
     "similarity_score" := Rag.PFloat one;
     "lecture_code" := Rag.PStr "IT3061";
     "lecture_number" := Rag.PInt 3;
     "page_number" := Rag.PInt 12;
     "text" := Rag.PStr "Loss surface" ]}.

(** A stored image without caption or provenance. *)
Definition bare_match : gmap string Rag.pyval :=
  {[ "image" := Rag.PImage diagram ]}.

(** A record whose image payload is gone. *)
Definition orphan_match : gmap string Rag.pyval :=
  {[ "image" := Rag.PNone;
     "lecture_number" := Rag.PInt 4 ]}.

Definition asked_images (h : Rag.history) : bool :=
  existsb (fun ev =>
             match ev with
             | Rag.EvSearchImagesByText _ _ _ _ => true
             | _ => false
             end) h.

Definition observed (h : Rag.history) : bool :=
  existsb (fun ev =>
             match ev with
             | Rag.EvObservation _ _ _ => true
             | _ => false
             end) h.

(** Lecture 3 is indexed; the image search answers the first request
    only; the model answers the health check only; the agent looks for
    images once and then answers. *)
Definition lecture3 : Rag.world :=
  with_agent
    (fun h input =>
       if observed h then Returns (Rag.AgentFinish "Lecture 3 covers gradient descent.")
       else Returns (Rag.AgentAction Rag.ImageSearch "gradient descent"))
    (with_image_index
       (fun h _ _ _ _ =>
          if asked_images h then Returns []
          else Returns [orphan_match; match3])
       (with_text_index
          (fun _ _ => Returns tt)
          (fun _ _ _ => Returns [chunk3])
          llm_health_check_only)).

(** As [lecture3], with the model out of quota for every request. *)
Definition lecture3_llm_down : Rag.world :=
  with_llm_invoke (fun _ _ => Raises (RuntimeError "429 quota exceeded")) lecture3.

(** As [lecture3], with an agent that fails. *)
Definition lecture3_agent_down : Rag.world :=
  with_agent (fun _ _ => Raises (ValueError "could not parse LLM output")) lecture3.

(** The image store holds one bare image. *)
Definition bare_store : Rag.world :=
  with_image_index (fun _ _ _ _ _ => Returns [bare_match]) quiet.

(** The default position of the image weight slider: the float [0.3]. *)
Definition weight_03 : py_float := S754_finite false 5404319552844595 (-54).

(** The default similarity threshold: the float [0.98]. *)
Definition threshold_098 : py_float := S754_finite false 8827055269646172 (-53).

Definition upload_ok (file : list Byte.byte) : outcome string :=
  Returns "/tmp/upload.pdf".

(** A pipeline that stores two images. *)
Definition store_two (pdf_path : string) (metadata : gmap string Rag.pyval)
    (config : Rag.EmbeddingConfig.t) : outcome (gmap string Rag.pyval) :=
  Returns {[ "num_unique" := Rag.PInt 2; "num_original_images" := Rag.PInt 3 ]}.

(** ** Collaborators of the query form *)

Definition models_ok : outcome unit := Returns tt.
Definition models_unreachable : outcome unit :=
  Raises (RuntimeError "503 service unavailable").

Definition gemini_answers (model prompt : string) : outcome string :=
  Returns "Gradient descent minimizes the loss step by step.".

Definition four_decimals (x : py_float) : string := "1.0000".

(** A search that also answers queries of the wrong width. *)
Definition search_any_width (v : list py_float) (limit : Z)
    : outcome (list GeminiFinal.hit) :=
  if (length v =? 384)%nat then search_one v limit
  else Returns [GeminiFinal.Hit "unrelated" one; GeminiFinal.Hit "noise" one].

(** The form with an old result in it. *)
Definition stale_form (query : string) : GeminiFinal.gui :=
  {| GeminiFinal.query_input := query;
     GeminiFinal.result_tree := [GeminiFinal.Row 1 "old hit" "0.5000"];
     GeminiFinal.llm_output_text := "old answer" |}.

(** ** More collaborators of the RAG system *)

(** A stored image whose caption is null. *)
Definition captionless_match : gmap string Rag.pyval :=
  {[ "image" := Rag.PImage diagram;
     "lecture_number" := Rag.PInt 3;
     "text" := Rag.PNone ]}.

(** Everything is up and the model answers; the text index holds the
    chunk of lecture 3, the image store the captionless image. *)
Definition captionless_store : Rag.world :=
  with_image_index (fun _ _ _ _ _ => Returns [captionless_match])
    (with_text_index (fun _ _ => Returns tt) (fun _ _ _ => Returns [chunk3])
       quiet).

(** Everything is up and the model answers; lecture 3 is indexed. *)
Definition lecture3_up : Rag.world :=
  with_image_index (fun _ _ _ _ _ => Returns [orphan_match; match3])
    (with_text_index (fun _ _ => Returns tt) (fun _ _ _ => Returns [chunk3])
       quiet).

(** A session with one exchange in it, sources shown. *)
Definition one_exchange : Rag.session_state :=
  {| Rag.messages :=
       [Rag.SystemMessage Rag.greeting;
        Rag.UserMessage "What is a loss?";
        Rag.AssistantAnswer
          (Rag.tier_answer "A loss measures the error." [] "What is a loss?")];
     Rag.show_sources := true;
     Rag.include_images := true |}.

(** ** Collaborators of the text ingestion *)

Definition page1 : Rag.document :=
  Rag.Document "Gradient descent follows the negative gradient."
    {[ "source" := Rag.PStr "/tmp/upload.pdf"; "page" := Rag.PInt 0 ]}.

Definition load_one (pdf_path : string) : outcome (list Rag.document) :=
  Returns [page1].

(** A splitter that cuts every document in two halves with its metadata. *)
Definition split_in_two (documents : list Rag.document)
    : outcome (list Rag.document) :=
  Returns (flat_map (fun doc => [doc; doc]) documents).

Definition embeddings_ok (model_name : string) : outcome unit := Returns tt.

Definition index_ok (chunks : list Rag.document) (collection_name : string)
    : outcome unit := Returns tt.

Definition form_metadata : gmap string Rag.pyval :=
  {[ "module_code" := Rag.PStr "MDPCC";
     "lecture_number" := Rag.PInt 3;
     "source" := Rag.PStr "lecture3.pdf" ]}.

End Scenario.

(** * Properties of [GEMINI_final.py] *)

Section GeminiFinalFacts.

Import GeminiFinal.

Lemma slice_to_length {A : Type} (l : list A) (k : Z) :
  (0 <= k)%Z -> (k < Z.of_nat (length l))%Z ->
  slice_to l k = firstn (Z.to_nat k) l /\ length (slice_to l k) = Z.to_nat k.
Proof.
  intros Hk Hlt. unfold slice_to.
  destruct (Z.ltb_spec k 0) as [Hneg | _]; [lia |].
  split; [reflexivity |].
  rewrite length_firstn. lia.
Qed.

Lemma pad_or_truncate_longer (vector : list py_float) (d : Z) :
  (0 <= d)%Z -> (d < Z.of_nat (length vector))%Z ->
  pad_or_truncate vector d = firstn (Z.to_nat d) vector.
Proof.
  intros Hd Hlt. unfold pad_or_truncate.
  destruct (Z.gtb_spec (Z.of_nat (length vector)) d) as [_ | Hle]; [| lia].
  apply slice_to_length; assumption.
Qed.

Lemma pad_or_truncate_shorter (vector : list py_float) (d : Z) :
  (Z.of_nat (length vector) <= d)%Z ->
  pad_or_truncate vector d
  = (vector ++ repeat float_zero (Z.to_nat d - length vector))%list.
Proof.
  intros Hle. unfold pad_or_truncate.
  destruct (Z.gtb_spec (Z.of_nat (length vector)) d) as [Hgt | _]; [lia |].
  unfold list_repeat. f_equal. f_equal. lia.
Qed.

Lemma pad_or_truncate_length (vector : list py_float) (d : Z) :
  (0 <= d)%Z -> Z.of_nat (length (pad_or_truncate vector d)) = d.
Proof.
  intros Hd.
  destruct (Z.lt_ge_cases d (Z.of_nat (length vector))) as [Hlt | Hge].
  - rewrite pad_or_truncate_longer by assumption.
    rewrite length_firstn. lia.
  - rewrite pad_or_truncate_shorter by assumption.
    rewrite length_app, repeat_length. lia.
Qed.

End GeminiFinalFacts.

(** C5.  When the embedding model returns a raw vector for [text],
    [get_embedding text d] returns for every dimension [d >= 0] a vector
    of length exactly [d]: the raw vector followed by [0.0] entries when
    it has at most [d] entries, and its first [d] entries otherwise. *)
Theorem get_embedding_has_target_dim
    (encode : string -> outcome (list py_float))
    (text : string) (d : Z) (raw : list py_float) :
  (0 <= d)%Z ->
  encode text = Returns raw ->
  exists v,
    GeminiFinal.get_embedding encode text d = Returns v
    /\ Z.of_nat (length v) = d
    /\ ((Z.of_nat (length raw) <= d)%Z ->
        v = (raw ++ repeat float_zero (Z.to_nat d - length raw))%list)
    /\ ((d < Z.of_nat (length raw))%Z -> v = firstn (Z.to_nat d) raw).
Proof.
  intros Hd Henc.
  exists (GeminiFinal.pad_or_truncate raw d).
  unfold GeminiFinal.get_embedding. rewrite Henc. cbn.
  split; [reflexivity |].
  split; [apply pad_or_truncate_length; assumption |].
  split; intros H.
  - apply pad_or_truncate_shorter; assumption.
  - apply pad_or_truncate_longer; assumption.
Qed.

Lemma get_embedding_has_target_dim_witness :
  exists v,
    GeminiFinal.get_embedding Scenario.encode3 "gradient descent" 5 = Returns v
    /\ Z.of_nat (length v) = 5%Z
    /\ ((Z.of_nat (length [Scenario.one; Scenario.one; Scenario.one]) <= 5)%Z ->
        v = ([Scenario.one; Scenario.one; Scenario.one]
             ++ repeat float_zero
                  (Z.to_nat 5 - length [Scenario.one; Scenario.one; Scenario.one]))%list)
    /\ ((5 < Z.of_nat (length [Scenario.one; Scenario.one; Scenario.one]))%Z ->
        v = firstn (Z.to_nat 5) [Scenario.one; Scenario.one; Scenario.one]).
Proof.
  apply (get_embedding_has_target_dim Scenario.encode3 "gradient descent" 5
           [Scenario.one; Scenario.one; Scenario.one]).
  - lia.
  - reflexivity.
Defined.

(** ** Query normalization *)

Lemma filter_keeps_all {A : Type} (p : A -> bool) (l : list A) :
  Forall (fun x => p x = true) l -> List.filter p l = l.
Proof.
  induction 1 as [| x l Hx _ IH]; cbn.
  - reflexivity.
  - rewrite Hx, IH. reflexivity.
Qed.

Lemma map_fixed {A : Type} (f : A -> A) (l : list A) :
  Forall (fun x => f x = x) l -> map f l = l.
Proof.
  induction 1 as [| x l Hx _ IH]; cbn.
  - reflexivity.
  - rewrite Hx, IH. reflexivity.
Qed.

(** C4, as stated, fails: the stop word filter runs before the
    lemmatizer and not after it.  The plural "cans" survives the filter
    and is lemmatized to "can"; "can" is a stop word, so a second pass
    yields the empty string. *)
Lemma preprocess_query_not_idempotent :
  let normalize :=
    GeminiFinal.preprocess_query
      Scenario.word_tokenize Scenario.lemmatize Scenario.stop_words in
  normalize "cans" = "can"
  /\ normalize (normalize "cans") = ""
  /\ normalize (normalize "cans") <> normalize "cans".
Proof.
  cbv zeta. split; [| split].
  - vm_compute. reflexivity.
  - vm_compute. reflexivity.
  - vm_compute. discriminate.
Qed.

(** C4, amended.  [preprocess_query] is idempotent on every query whose
    processed tokens are stable: tokenizing their lowercased join gives
    the same tokens back, and each of them passes the alphanumeric and
    stop word filter and is left unchanged by the lemmatizer. *)
Theorem preprocess_query_idempotent_on_stable_tokens
    (word_tokenize : string -> list string)
    (lemmatize : string -> string)
    (stop_words : gset string)
    (query : string) :
  let tokens :=
    GeminiFinal.processed_tokens word_tokenize lemmatize stop_words query in
  word_tokenize (lower (join " " tokens)) = tokens ->
  Forall (fun token =>
            GeminiFinal.keeps stop_words token = true
            /\ lemmatize token = token) tokens ->
  GeminiFinal.preprocess_query word_tokenize lemmatize stop_words
    (GeminiFinal.preprocess_query word_tokenize lemmatize stop_words query)
  = GeminiFinal.preprocess_query word_tokenize lemmatize stop_words query.
Proof.
  intros tokens Htok Hstable.
  unfold GeminiFinal.preprocess_query at 1.
  unfold GeminiFinal.processed_tokens at 1.
  unfold GeminiFinal.preprocess_query. fold tokens.
  rewrite Htok.
  rewrite filter_keeps_all.
  - rewrite map_fixed; [reflexivity |].
    eapply List.Forall_impl; [| exact Hstable]. cbn. intros t [_ Ht]. exact Ht.
  - eapply List.Forall_impl; [| exact Hstable]. cbn. intros t [Ht _]. exact Ht.
Qed.

Lemma preprocess_query_idempotent_on_stable_tokens_witness :
  GeminiFinal.preprocess_query
    Scenario.word_tokenize Scenario.lemmatize Scenario.stop_words
    (GeminiFinal.preprocess_query
       Scenario.word_tokenize Scenario.lemmatize Scenario.stop_words
       "What is the Gradient in the lectures")
  = GeminiFinal.preprocess_query
      Scenario.word_tokenize Scenario.lemmatize Scenario.stop_words
      "What is the Gradient in the lectures".
Proof.
  apply (preprocess_query_idempotent_on_stable_tokens
           Scenario.word_tokenize Scenario.lemmatize Scenario.stop_words
           "What is the Gradient in the lectures").
  - vm_compute. reflexivity.
  - vm_compute. repeat constructor.
Defined.


(** * Properties of [multimodal-rag-system.py] *)

Local Open Scope list_scope.

(** ** Retrieval never raises *)

Section RetrievalFacts.

Import Rag.

Variable W : world.

(** What [search_text_chunks] does, call by call. *)
Lemma search_text_chunks_unfold (query : string) (top_k : Z) (h : history) :
  search_text_chunks W query top_k h =
  match HuggingFaceEmbeddings W h "all-MiniLM-L6-v2" with
  | Raises _ => (Returns [], h ++ [EvHuggingFaceEmbeddings "all-MiniLM-L6-v2"])
  | Returns _ =>
      match Milvus W (h ++ [EvHuggingFaceEmbeddings "all-MiniLM-L6-v2"]) "combined_text_collection" with
      | Raises _ =>
          (Returns [],
           (h ++ [EvHuggingFaceEmbeddings "all-MiniLM-L6-v2"]) ++ [EvMilvus "combined_text_collection"])
      | Returns _ =>
          match similarity_search W
                  ((h ++ [EvHuggingFaceEmbeddings "all-MiniLM-L6-v2"])
                   ++ [EvMilvus "combined_text_collection"]) query top_k with
          | Raises _ =>
              (Returns [],
               ((h ++ [EvHuggingFaceEmbeddings "all-MiniLM-L6-v2"])
                ++ [EvMilvus "combined_text_collection"]) ++ [EvSimilaritySearch query top_k])
          | Returns docs =>
              (Returns (map (text_result) docs),
               ((h ++ [EvHuggingFaceEmbeddings "all-MiniLM-L6-v2"])
                ++ [EvMilvus "combined_text_collection"]) ++ [EvSimilaritySearch query top_k])
          end
      end
  end.
Proof.
  unfold search_text_chunks, try_except, bind, call, ret.
  destruct (HuggingFaceEmbeddings W h _); [| reflexivity].
  destruct (Milvus W _ _); [| reflexivity].
  destruct (similarity_search W _ _ _); reflexivity.
Qed.

Lemma search_text_chunks_total (query : string) (top_k : Z) (h : history) :
  exists results h', search_text_chunks W query top_k h = (Returns results, h').
Proof.
  rewrite search_text_chunks_unfold.
  destruct (HuggingFaceEmbeddings W h _); [| eauto].
  destruct (Milvus W _ _); [| eauto].
  destruct (similarity_search W _ _ _); eauto.
Qed.

Lemma search_images_unfold (query : string) (top_k : Z) (h : history) :
  search_images W query top_k h =
  (Returns
     match search_images_by_text W h query top_k "combined_embeddings_7" "pdf_images_7" with
     | Returns matches => format_results W matches []
     | Raises _ => []
     end,
   h ++ [EvSearchImagesByText query top_k "combined_embeddings_7" "pdf_images_7"]).
Proof.
  unfold search_images, try_except, bind, call, ret.
  destruct (search_images_by_text W h _ _ _ _); reflexivity.
Qed.

End RetrievalFacts.

(** ** Retrieval degrades to the empty sequence *)

(** C2, as stated, fails for [perform_search]: its handler names
    [MilvusException] only, so an exception raised by the embedding
    model leaves the function. *)
Lemma perform_search_propagates_embedding_failure :
  GeminiFinal.perform_search
    Scenario.word_tokenize Scenario.lemmatize Scenario.stop_words
    Scenario.encode_fails Scenario.open_ok Scenario.search_one
    "What is gradient descent?"
  = Raises (RuntimeError "CUDA out of memory")
  /\ GeminiFinal.perform_search
       Scenario.word_tokenize Scenario.lemmatize Scenario.stop_words
       Scenario.encode_fails Scenario.open_ok Scenario.search_one
       "What is gradient descent?"
     <> Returns [].
Proof.
  split.
  - vm_compute. reflexivity.
  - vm_compute. discriminate.
Qed.

(** C2, amended.  [search_text_chunks] returns the empty sequence when
    loading the embedding model, connecting to Milvus or the similarity
    query raises any exception, and [search_images] does when the image
    search raises any exception.  [perform_search] returns the empty
    sequence when the embedding, the collection or the search raises a
    [MilvusException]; an exception of another class raised by the
    embedding model propagates to its caller. *)
Theorem retrieval_failure_yields_empty_sequence
    (W : Rag.world) (query : string) (top_k : Z) (h : Rag.history)
    (word_tokenize : string -> list string) (lemmatize : string -> string)
    (stop_words : gset string)
    (encode : string -> outcome (list py_float))
    (open_collection : string -> outcome unit)
    (collection_search : list py_float -> Z -> outcome (list GeminiFinal.hit)) :
  let h1 := h ++ [Rag.EvHuggingFaceEmbeddings "all-MiniLM-L6-v2"] in
  let h2 := h1 ++ [Rag.EvMilvus "combined_text_collection"] in
  let perform_search :=
    GeminiFinal.perform_search word_tokenize lemmatize stop_words
      encode open_collection collection_search in
  let preprocessed :=
    GeminiFinal.preprocess_query word_tokenize lemmatize stop_words query in
  (((exists e, Rag.HuggingFaceEmbeddings W h "all-MiniLM-L6-v2" = Raises e)
    \/ (exists e, Rag.Milvus W h1 "combined_text_collection" = Raises e)
    \/ (exists e, Rag.similarity_search W h2 query top_k = Raises e)) ->
   fst (Rag.search_text_chunks W query top_k h) = Returns [])
  /\ ((exists e, Rag.search_images_by_text W h query top_k
                   "combined_embeddings_7" "pdf_images_7" = Raises e) ->
      fst (Rag.search_images W query top_k h) = Returns [])
  /\ (forall e, is_MilvusException e = true ->
        encode preprocessed = Raises e
        \/ (exists v, encode preprocessed = Returns v
                      /\ open_collection GeminiFinal.collection_name = Raises e)
        \/ (exists v u, encode preprocessed = Returns v
                        /\ open_collection GeminiFinal.collection_name = Returns u
                        /\ collection_search (GeminiFinal.pad_or_truncate v 384) 5%Z
                           = Raises e) ->
        perform_search query = Returns [])
  /\ (forall e, is_MilvusException e = false ->
        encode preprocessed = Raises e ->
        perform_search query = Raises e).
Proof.
  intros h1 h2 perform_search preprocessed.
  split; [| split; [| split]].
  - intros Hfail. rewrite search_text_chunks_unfold. fold h1. fold h2.
    destruct (Rag.HuggingFaceEmbeddings W h _) as [u0 | e0]; [| reflexivity].
    destruct (Rag.Milvus W h1 _) as [u1 | e1]; [| reflexivity].
    destruct (Rag.similarity_search W h2 query top_k) as [docs | e2];
      [| reflexivity].
    destruct Hfail as [[e He] | [[e He] | [e He]]]; discriminate He.
  - intros [e He]. rewrite search_images_unfold. rewrite He. reflexivity.
  - intros e Hmilvus Hfail.
    unfold perform_search, GeminiFinal.perform_search, GeminiFinal.get_embedding.
    fold preprocessed.
    destruct Hfail as [He | [(v & Hv & He) | (v & u & Hv & Hu & He)]].
    + rewrite He. cbn. rewrite Hmilvus. reflexivity.
    + rewrite Hv. cbn. rewrite He. cbn. rewrite Hmilvus. reflexivity.
    + rewrite Hv. cbn. rewrite Hu. cbn. rewrite He. cbn. rewrite Hmilvus.
      reflexivity.
  - intros e Hother He.
    unfold perform_search, GeminiFinal.perform_search, GeminiFinal.get_embedding.
    fold preprocessed. rewrite He. cbn. rewrite Hother. reflexivity.
Qed.

Lemma retrieval_failure_yields_empty_sequence_witness :
  fst (Rag.search_text_chunks Scenario.index_down "What is gradient descent?" 5 [])
  = Returns []
  /\ fst (Rag.search_images Scenario.index_down "What is gradient descent?" 3 [])
     = Returns []
  /\ GeminiFinal.perform_search
       Scenario.word_tokenize Scenario.lemmatize Scenario.stop_words
       Scenario.encode3 Scenario.open_ok Scenario.search_timeout
       "What is gradient descent?"
     = Returns [].
Proof.
  split; [| split].
  - apply (retrieval_failure_yields_empty_sequence
             Scenario.index_down "What is gradient descent?" 5 []
             Scenario.word_tokenize Scenario.lemmatize Scenario.stop_words
             Scenario.encode3 Scenario.open_ok Scenario.search_timeout).
    right. left. exists (MilvusException "connection refused"). reflexivity.
  - apply (retrieval_failure_yields_empty_sequence
             Scenario.index_down "What is gradient descent?" 3 []
             Scenario.word_tokenize Scenario.lemmatize Scenario.stop_words
             Scenario.encode3 Scenario.open_ok Scenario.search_timeout).
    exists (RuntimeError "connection refused"). reflexivity.
  - destruct (retrieval_failure_yields_empty_sequence
                Scenario.index_down "What is gradient descent?" 3 []
                Scenario.word_tokenize Scenario.lemmatize Scenario.stop_words
                Scenario.encode3 Scenario.open_ok Scenario.search_timeout)
      as (_ & _ & Hmilvus & _).
    apply (Hmilvus (MilvusException "search timed out")).
    + reflexivity.
    + right. right.
      exists [Scenario.one; Scenario.one; Scenario.one], tt.
      split; [reflexivity | split; reflexivity].
Defined.

(** ** The image batch *)

Section ImageBatch.

Import Rag.

Variable W : world.

Lemma process_match_present (match_ : gmap string pyval)
    (results : list ImageMatch.t) (img : image) (data : list Byte.byte) :
  match_ !! "image" = Some (PImage img) ->
  save_png W img = Returns data ->
  process_match W match_ results
  = Returns (results ++ [image_result (b64encode W data) match_]).
Proof.
  intros Himg Hsave. unfold process_match, dict_get.
  rewrite Himg. cbn. rewrite Hsave. reflexivity.
Qed.

Lemma process_match_inv (match_ : gmap string pyval)
    (results results' : list ImageMatch.t) :
  process_match W match_ results = Returns results' ->
  results' = results
  \/ exists img data,
       match_ !! "image" = Some (PImage img)
       /\ save_png W img = Returns data
       /\ results' = results ++ [image_result (b64encode W data) match_].
Proof.
  unfold process_match, dict_get.
  destruct (match_ !! "image") as [v |] eqn:Himg; cbn.
  - destruct (truthy v) eqn:Htruthy; cbn.
    + destruct v as [| n | x | s | img]; cbn; try discriminate.
      destruct (save_png W img) as [data | e] eqn:Hsave; cbn; [| discriminate].
      intros [= <-]. right. exists img, data. auto.
    + intros [= <-]. left. reflexivity.
  - intros [= <-]. left. reflexivity.
Qed.

Lemma process_match_acc (match_ : gmap string pyval)
    (results : list ImageMatch.t) :
  process_match W match_ results
  = match process_match W match_ [] with
    | Returns added => Returns (results ++ added)
    | Raises e => Raises e
    end.
Proof.
  unfold process_match.
  destruct (negb (truthy (dict_get match_ "image"))).
  - rewrite app_nil_r. reflexivity.
  - destruct (save W (dict_get match_ "image")); reflexivity.
Qed.

Lemma format_results_acc (matches : list (gmap string pyval))
    (results : list ImageMatch.t) :
  format_results W matches results = results ++ format_results W matches [].
Proof.
  revert results.
  induction matches as [| match_ rest IH]; intros results; cbn.
  - rewrite app_nil_r. reflexivity.
  - rewrite (process_match_acc match_ results).
    destruct (process_match W match_ []) as [added | e].
    + rewrite (IH (results ++ added)), (IH added), app_assoc. reflexivity.
    + apply IH.
Qed.

Lemma in_format_results (matches : list (gmap string pyval)) (r : ImageMatch.t) :
  In r (format_results W matches [])
  <-> exists match_ img data,
        In match_ matches
        /\ match_ !! "image" = Some (PImage img)
        /\ save_png W img = Returns data
        /\ r = image_result (b64encode W data) match_.
Proof.
  induction matches as [| match_ rest IH]; cbn.
  - split; [intros [] | intros (m & img & data & [] & _)].
  - destruct (process_match W match_ []) as [added | e] eqn:Hstep.
    + rewrite format_results_acc, in_app_iff, IH.
      destruct (process_match_inv _ _ _ Hstep)
        as [-> | (img & data & Himg & Hsave & ->)]; cbn.
      * split.
        -- intros [[] | (m & img & data & Hin & Hrest)].
           exists m, img, data. auto.
        -- intros (m & img & data & [<- | Hin] & Himg & Hsave & ->).
           ++ rewrite (process_match_present match_ [] img data Himg Hsave)
                in Hstep.
              discriminate Hstep.
           ++ right. exists m, img, data. auto.
      * split.
        -- intros [[<- | []] | (m & img' & data' & Hin & Hrest)].
           ++ exists match_, img, data. auto.
           ++ exists m, img', data'. auto.
        -- intros (m & img' & data' & [<- | Hin] & Himg' & Hsave' & ->).
           ++ left. left.
              rewrite Himg in Himg'. injection Himg' as <-.
              rewrite Hsave in Hsave'. injection Hsave' as <-. reflexivity.
           ++ right. exists m, img', data'. auto.
    + rewrite IH. split.
      * intros (m & img & data & Hin & Hrest). exists m, img, data. auto.
      * intros (m & img & data & [<- | Hin] & Himg & Hsave & ->).
        -- rewrite (process_match_present match_ [] img data Himg Hsave) in Hstep.
           discriminate Hstep.
        -- exists m, img, data. auto.
Qed.

End ImageBatch.

(** C7.  [search_images] always returns a sequence, and an entry is in
    it exactly when it was built from a candidate whose ["image"] payload
    is a present image that could be encoded: every returned entry
    carries the encoded payload of such a candidate, a candidate without
    payload contributes nothing, and every candidate with a payload is
    still returned, whatever the other candidates of the batch are. *)
Theorem search_images_entries_have_payload
    (W : Rag.world) (query : string) (top_k : Z) (h : Rag.history) :
  exists results h',
    Rag.search_images W query top_k h = (Returns results, h')
    /\ (forall r, In r results ->
          exists matches match_ img data,
            Rag.search_images_by_text W h query top_k
              "combined_embeddings_7" "pdf_images_7" = Returns matches
            /\ In match_ matches
            /\ match_ !! "image" = Some (Rag.PImage img)
            /\ Rag.save_png W img = Returns data
            /\ r = Rag.image_result (Rag.b64encode W data) match_
            /\ Rag.ImageMatch.image_data r = Rag.b64encode W data)
    /\ (forall matches match_ img data,
          Rag.search_images_by_text W h query top_k
            "combined_embeddings_7" "pdf_images_7" = Returns matches ->
          In match_ matches ->
          match_ !! "image" = Some (Rag.PImage img) ->
          Rag.save_png W img = Returns data ->
          In (Rag.image_result (Rag.b64encode W data) match_) results)
    /\ (forall matches,
          Rag.search_images_by_text W h query top_k
            "combined_embeddings_7" "pdf_images_7" = Returns matches ->
          Forall (fun match_ => Rag.truthy (Rag.dict_get match_ "image") = false)
                 matches ->
          results = []).
Proof.
  rewrite search_images_unfold.
  eexists. eexists. split; [reflexivity |].
  destruct (Rag.search_images_by_text W h query top_k _ _) as [matches | e].
  - split; [| split].
    + intros r Hr. apply in_format_results in Hr.
      destruct Hr as (m & img & data & Hin & Himg & Hsave & ->).
      exists matches, m, img, data. repeat split; auto.
    + intros matches' m img data [= <-] Hin Himg Hsave.
      apply in_format_results. exists m, img, data. auto.
    + intros matches' [= <-] Hnone.
      destruct (Rag.format_results W matches []) as [| r rest] eqn:Hres;
        [reflexivity |].
      assert (Hr : In r (Rag.format_results W matches []))
        by (rewrite Hres; left; reflexivity).
      apply in_format_results in Hr.
      destruct Hr as (m & img & data & Hin & Himg & _).
      rewrite List.Forall_forall in Hnone. specialize (Hnone m Hin).
      unfold Rag.dict_get in Hnone. rewrite Himg in Hnone. discriminate Hnone.
  - split; [| split].
    + intros r [].
    + intros matches m img data Hm. discriminate Hm.
    + reflexivity.
Qed.

(** On a batch whose first record lost its payload, the second record is
    returned alone. *)
Example search_images_drops_orphan :
  fst (Rag.search_images Scenario.lecture3 "What is gradient descent?" 3 [])
  = Returns [Rag.image_result "PNG" Scenario.match3].
Proof. vm_compute. reflexivity. Qed.

(** ** Defaults for missing metadata *)

(** C8, as stated, fails: an image record without a ["text"] entry gets
    the caption ["No text available"], and one without a
    ["similarity_score"] entry gets the score [0]; neither is the
    sentinel ["Unknown"]. *)
Lemma image_text_default_is_not_Unknown :
  exists r,
    fst (Rag.search_images Scenario.bare_store "What is gradient descent?" 3 [])
    = Returns [r]
    /\ Scenario.bare_match !! "text" = None
    /\ Rag.ImageMatch.text r = Rag.PStr "No text available"
    /\ Rag.ImageMatch.text r <> Rag.Unknown
    /\ Scenario.bare_match !! "similarity_score" = None
    /\ Rag.ImageMatch.similarity_score r <> Rag.Unknown.
Proof.
  exists (Rag.image_result "PNG" Scenario.bare_match).
  split; [vm_compute; reflexivity |].
  split; [vm_compute; reflexivity |].
  split; [vm_compute; reflexivity |].
  split; [vm_compute; discriminate |].
  split; [vm_compute; reflexivity |].
  vm_compute; discriminate.
Qed.

(** C8, amended.  For every raw hit of the text index, each of the six
    metadata fields of the match that is absent upstream is ["Unknown"],
    and the index's hits are all turned into matches.  For every raw hit
    of the image index, each of [lecture_code], [lecture_number],
    [lecture_title] and [page_number] that is absent upstream is
    ["Unknown"], an absent [text] is ["No text available"], an absent
    [similarity_score] is [0], and a hit whose image payload is present
    and encodes is turned into a match whatever metadata it lacks. *)
Theorem missing_metadata_gets_defaults (W : Rag.world) :
  (forall doc : Rag.document,
     let r := Rag.text_result doc in
     (Rag.metadata doc !! "source" = None -> Rag.TextMatch.source r = Rag.Unknown)
     /\ (Rag.metadata doc !! "page" = None -> Rag.TextMatch.page r = Rag.Unknown)
     /\ (Rag.metadata doc !! "module_code" = None ->
         Rag.TextMatch.module_code r = Rag.Unknown)
     /\ (Rag.metadata doc !! "module_name" = None ->
         Rag.TextMatch.module_name r = Rag.Unknown)
     /\ (Rag.metadata doc !! "lecture_number" = None ->
         Rag.TextMatch.lecture_number r = Rag.Unknown)
     /\ (Rag.metadata doc !! "lecture_title" = None ->
         Rag.TextMatch.lecture_title r = Rag.Unknown))
  /\ (forall query top_k h docs,
        (exists u, Rag.HuggingFaceEmbeddings W h "all-MiniLM-L6-v2" = Returns u) ->
        (exists u, Rag.Milvus W (h ++ [Rag.EvHuggingFaceEmbeddings "all-MiniLM-L6-v2"])
                     "combined_text_collection" = Returns u) ->
        Rag.similarity_search W
          ((h ++ [Rag.EvHuggingFaceEmbeddings "all-MiniLM-L6-v2"])
           ++ [Rag.EvMilvus "combined_text_collection"]) query top_k
        = Returns docs ->
        fst (Rag.search_text_chunks W query top_k h)
        = Returns (map Rag.text_result docs))
  /\ (forall (img_str : string) (match_ : gmap string Rag.pyval),
        let r := Rag.image_result img_str match_ in
        (match_ !! "lecture_code" = None ->
         Rag.ImageMatch.lecture_code r = Rag.Unknown)
        /\ (match_ !! "lecture_number" = None ->
            Rag.ImageMatch.lecture_number r = Rag.Unknown)
        /\ (match_ !! "lecture_title" = None ->
            Rag.ImageMatch.lecture_title r = Rag.Unknown)
        /\ (match_ !! "page_number" = None ->
            Rag.ImageMatch.page_number r = Rag.Unknown)
        /\ (match_ !! "text" = None ->
            Rag.ImageMatch.text r = Rag.PStr "No text available")
        /\ (match_ !! "similarity_score" = None ->
            Rag.ImageMatch.similarity_score r = Rag.PInt 0))
  /\ (forall (match_ : gmap string Rag.pyval) results img data,
        match_ !! "image" = Some (Rag.PImage img) ->
        Rag.save_png W img = Returns data ->
        Rag.process_match W match_ results
        = Returns (results ++ [Rag.image_result (Rag.b64encode W data) match_])).
Proof.
  split; [| split; [| split]].
  - intros doc r. unfold r, Rag.text_result, Rag.dict_get_default. cbn.
    repeat split; intros ->; reflexivity.
  - intros query top_k h docs [u0 H0] [u1 H1] H2.
    rewrite search_text_chunks_unfold, H0, H1, H2. reflexivity.
  - intros img_str m r. unfold r, Rag.image_result, Rag.dict_get_default. cbn.
    repeat split; intros ->; reflexivity.
  - intros m results img data Himg Hsave.
    exact (process_match_present W m results img data Himg Hsave).
Qed.

Lemma missing_metadata_gets_defaults_witness :
  Rag.TextMatch.lecture_title (Rag.text_result Scenario.chunk3) = Rag.Unknown
  /\ Rag.ImageMatch.lecture_title (Rag.image_result "PNG" Scenario.match3)
     = Rag.Unknown
  /\ Rag.process_match Scenario.bare_store Scenario.bare_match []
     = Returns ([] ++ [Rag.image_result
                         (Rag.b64encode Scenario.bare_store
                            [Byte.x50; Byte.x4e; Byte.x47])
                         Scenario.bare_match]).
Proof.
  destruct (missing_metadata_gets_defaults Scenario.bare_store)
    as (Htext & _ & Himage & Hbuild).
  split; [| split].
  - apply (Htext Scenario.chunk3). vm_compute. reflexivity.
  - apply (Himage "PNG" Scenario.match3). vm_compute. reflexivity.
  - apply (Hbuild Scenario.bare_match [] Scenario.diagram).
    + vm_compute. reflexivity.
    + reflexivity.
Defined.

(** ** Histories only grow *)

Section Appends.

Import Rag.

Lemma ret_appends {A : Type} (a : A) : appends_calls (ret a).
Proof. intros h. exists []. cbn. rewrite app_nil_r. reflexivity. Qed.

Lemma raise_appends {A : Type} (e : exn) : appends_calls (@raise A e).
Proof. intros h. exists []. cbn. rewrite app_nil_r. reflexivity. Qed.

Lemma lift_appends {A : Type} (o : outcome A) : appends_calls (lift o).
Proof. intros h. exists []. cbn. rewrite app_nil_r. reflexivity. Qed.

Lemma call_appends {A : Type} (ev : event) (answer : history -> outcome A) :
  appends_calls (call ev answer).
Proof. intros h. exists [ev]. reflexivity. Qed.

Lemma bind_appends {A B : Type} (m : M A) (k : A -> M B) :
  appends_calls m -> (forall a, appends_calls (k a)) -> appends_calls (bind m k).
Proof.
  intros Hm Hk h. unfold bind.
  destruct (Hm h) as [c1 Hc1].
  destruct (m h) as [[a | e] h1]; cbn in Hc1; subst h1.
  - destruct (Hk a (h ++ c1)) as [c2 Hc2].
    exists (c1 ++ c2). rewrite Hc2, app_assoc. reflexivity.
  - exists c1. reflexivity.
Qed.

Lemma try_except_appends {A : Type} (m : M A) (handler : exn -> M A) :
  appends_calls m -> (forall e, appends_calls (handler e)) ->
  appends_calls (try_except m handler).
Proof.
  intros Hm Hk h. unfold try_except.
  destruct (Hm h) as [c1 Hc1].
  destruct (m h) as [[a | e] h1]; cbn in Hc1; subst h1.
  - exists c1. reflexivity.
  - destruct (Hk e (h ++ c1)) as [c2 Hc2].
    exists (c1 ++ c2). rewrite Hc2, app_assoc. reflexivity.
Qed.

Variable W : world.

Lemma search_text_chunks_appends (query : string) (top_k : Z) :
  appends_calls (search_text_chunks W query top_k).
Proof.
  unfold search_text_chunks.
  repeat first
    [ apply try_except_appends | apply bind_appends | apply call_appends
    | apply ret_appends | intros ? ].
Qed.

Lemma search_images_appends (query : string) (top_k : Z) :
  appends_calls (search_images W query top_k).
Proof.
  unfold search_images.
  repeat first
    [ apply try_except_appends | apply bind_appends | apply call_appends
    | apply ret_appends | intros ? ].
Qed.

Lemma run_tool_appends (tool : tool_name) (tool_input : string) :
  appends_calls (run_tool W tool tool_input).
Proof.
  destruct tool; cbn.
  - unfold text_search_tool. apply bind_appends.
    + apply search_text_chunks_appends.
    + intros [| r results]; apply ret_appends.
  - unfold image_search_tool. apply bind_appends.
    + apply search_images_appends.
    + intros [| r results]; [apply ret_appends |].
      apply bind_appends; [apply lift_appends |].
      intros formatted. apply ret_appends.
Qed.

Lemma agent_run_appends (max_iterations : nat) (input : string) :
  appends_calls (agent_run W max_iterations input).
Proof.
  induction max_iterations as [| remaining IH]; cbn.
  - apply ret_appends.
  - apply bind_appends; [apply call_appends |].
    intros [output | tool tool_input]; [apply ret_appends |].
    apply bind_appends; [apply run_tool_appends |].
    intros observation.
    apply bind_appends; [apply call_appends |].
    intros _. exact IH.
Qed.

Lemma agent_run_extends (max_iterations : nat) (input : string) (h : history) :
  exists o calls, agent_run W max_iterations input h = (o, h ++ calls).
Proof.
  destruct (agent_run_appends max_iterations input h) as [calls Hcalls].
  destruct (agent_run W max_iterations input h) as [o h'].
  cbn in Hcalls. subst h'. exists o, calls. reflexivity.
Qed.

End Appends.

(** ** Answer generation *)

Section Generation.

Import Rag.

Variable W : world.

(** Once the first tier is reached, the run is decided by the model,
    the agent constructor and the agent. *)
Lemma generate_from_first_tier (query : string) (h : history)
    (txts : list TextMatch.t) (imgs : list ImageMatch.t)
    (ictx : string) (h3 : history) :
  reaches_generation W query h txts imgs ictx h3 ->
  let prompt := build_prompt query (text_context_of W txts) ictx in
  let h4 := h3 ++ [EvLlmInvoke prompt] in
  generate_combined_response W query h =
  match llm_invoke W h3 prompt with
  | Returns response => (Returns (tier_answer response imgs query), h4)
  | Raises _ =>
      match initialize_agent W h4 3 with
      | Raises _ =>
          (Returns (tier_answer generation_apology imgs query),
           h4 ++ [EvInitializeAgent 3])
      | Returns _ =>
          match agent_run W 3 (agent_prompt_of query)
                  (h4 ++ [EvInitializeAgent 3]) with
          | (Returns output, h5) => (Returns (tier_answer output imgs query), h5)
          | (Raises _, h5) =>
              (Returns (tier_answer generation_apology imgs query), h5)
          end
      end
  end.
Proof.
  intros (Hllm & [test Htest] & (h2 & Htxt & Himg) & Hictx) prompt h4.
  unfold generate_combined_response.
  unfold try_except, bind, call, lift, raise, ret.
  rewrite Hllm, Htest, Htxt, Himg, Hictx.
  fold prompt. fold h4.
  destruct (llm_invoke W h3 prompt) as [response | e1]; [reflexivity |].
  destruct (initialize_agent W h4 3) as [u | e2]; [| reflexivity].
  destruct (agent_run W 3 (agent_prompt_of query) (h4 ++ [EvInitializeAgent 3]))
    as [[output | e3] h5]; reflexivity.
Qed.

(** A run that does not reach the first tier ends in the outer handler. *)
Lemma generate_cases (query : string) (h : history) :
  (exists txts imgs ictx h3, reaches_generation W query h txts imgs ictx h3)
  \/ (exists h', generate_combined_response W query h
                 = (Returns (fallback_answer query), h')
                 /\ (get_llm W h = Returns tt ->
                     (exists test_response,
                        llm_invoke W (h ++ [EvGetLlm]) llm_test_prompt
                        = Returns test_response) ->
                     exists txts imgs h2 h3 e,
                       search_text_chunks W query 5
                         ((h ++ [EvGetLlm]) ++ [EvLlmInvoke llm_test_prompt])
                       = (Returns txts, h2)
                       /\ search_images W query 3 h2 = (Returns imgs, h3)
                       /\ image_context_of W imgs = Raises e)).
Proof.
  unfold reaches_generation, generate_combined_response.
  unfold try_except, bind, call, lift, raise, ret.
  destruct (get_llm W h) as [[] | e0] eqn:Hllm.
  2:{ right. eexists. split; [reflexivity |]. intros Hcontra. discriminate. }
  destruct (llm_invoke W (h ++ [EvGetLlm]) llm_test_prompt)
    as [test | e1] eqn:Htest.
  2:{ right. eexists. split; [reflexivity |]. intros _ [t Ht]. discriminate. }
  destruct (search_text_chunks_total W query 5
              ((h ++ [EvGetLlm]) ++ [EvLlmInvoke llm_test_prompt]))
    as (txts & h2 & Htxt).
  rewrite Htxt.
  destruct (search_images W query 3 h2) as [imgs_o h3] eqn:Himg.
  pose proof (search_images_unfold W query 3 h2) as Hshape.
  rewrite Himg in Hshape. injection Hshape as Hval Hh3.
  destruct imgs_o as [imgs | e2]; [| discriminate Hval].
  destruct (image_context_of W imgs) as [ictx | e3] eqn:Hictx.
  - left. exists txts, imgs, ictx, h3.
    split; [reflexivity |]. split; [eauto |]. split; [eauto |]. exact Hictx.
  - right. eexists. split; [reflexivity |].
    intros _ _. exists txts, imgs, h2, h3, e3. auto.
Qed.

(** The calls of the two searches. *)
Lemma search_text_chunks_calls (query : string) (top_k : Z) (h h2 : history)
    (txts : list TextMatch.t) :
  search_text_chunks W query top_k h = (Returns txts, h2) ->
  exists calls,
    h2 = h ++ calls
    /\ Forall (fun ev => is_retrieval_call ev = true) calls
    /\ count_events starts_text_search calls = 1
    /\ count_events starts_image_search calls = 0.
Proof.
  rewrite search_text_chunks_unfold.
  destruct (HuggingFaceEmbeddings W h _).
  - destruct (Milvus W _ _).
    + destruct (similarity_search W _ _ _); intros [= _ <-];
        rewrite <- !app_assoc; cbn; eexists; (split; [reflexivity |]);
        repeat constructor.
    + intros [= _ <-]. rewrite <- !app_assoc. cbn. eexists.
      split; [reflexivity |]. repeat constructor.
  - intros [= _ <-]. eexists. split; [reflexivity |]. repeat constructor.
Qed.

Lemma search_images_calls (query : string) (top_k : Z) (h h3 : history)
    (imgs : list ImageMatch.t) :
  search_images W query top_k h = (Returns imgs, h3) ->
  exists calls,
    h3 = h ++ calls
    /\ Forall (fun ev => is_retrieval_call ev = true) calls
    /\ count_events starts_text_search calls = 0
    /\ count_events starts_image_search calls = 1.
Proof.
  rewrite search_images_unfold. intros [= _ <-].
  eexists. split; [reflexivity |]. repeat constructor.
Qed.

Lemma count_events_app (p : event -> bool) (l1 l2 : list event) :
  count_events p (l1 ++ l2) = count_events p l1 + count_events p l2.
Proof. unfold count_events. rewrite List.filter_app, length_app. reflexivity. Qed.

End Generation.

Lemma nonempty_iff_positive_length {A : Type} (l : list A) :
  (0 <? length l)%nat = true <-> l <> [].
Proof.
  destruct l as [| x l]; cbn.
  - split; [discriminate | intros H; contradiction H; reflexivity].
  - split; [discriminate | reflexivity].
Qed.

(** Every run of [generate_combined_response] returns one of the two
    dictionaries. *)
Lemma generate_returns (W : Rag.world) (query : string) (h : Rag.history) :
  exists r h',
    Rag.generate_combined_response W query h = (Returns r, h')
    /\ (r = Rag.fallback_answer query
        \/ exists text txts imgs ictx h3,
             Rag.reaches_generation W query h txts imgs ictx h3
             /\ r = Rag.tier_answer text imgs query).
Proof.
  destruct (generate_cases W query h)
    as [(txts & imgs & ictx & h3 & Hreach) | (h' & Hgen & _)].
  - rewrite (generate_from_first_tier W query h txts imgs ictx h3 Hreach).
    cbv zeta.
    destruct (Rag.llm_invoke W h3 _) as [response | e1].
    { eexists. eexists. split; [reflexivity |]. right.
      exists response, txts, imgs, ictx, h3. auto. }
    destruct (Rag.initialize_agent W _ 3) as [u | e2].
    2:{ eexists. eexists. split; [reflexivity |]. right.
        exists Rag.generation_apology, txts, imgs, ictx, h3. auto. }
    destruct (Rag.agent_run W 3 _ _) as [[output | e3] h5].
    + eexists. eexists. split; [reflexivity |]. right.
      exists output, txts, imgs, ictx, h3. auto.
    + eexists. eexists. split; [reflexivity |]. right.
      exists Rag.generation_apology, txts, imgs, ictx, h3. auto.
  - exists (Rag.fallback_answer query), h'. auto.
Qed.

(** C10.  Every run of [generate_combined_response] returns a result,
    and in it [has_images] is true exactly when [image_results] is a
    non-empty sequence; this covers the three tiers and the outer
    handler. *)
Theorem has_images_iff_image_results_nonempty
    (W : Rag.world) (query : string) (h : Rag.history) :
  exists r h',
    Rag.generate_combined_response W query h = (Returns r, h')
    /\ (Rag.has_images r = true <-> Rag.image_results r <> []).
Proof.
  destruct (generate_returns W query h)
    as (r & h' & Hgen & [-> | (text & txts & imgs & ictx & h3 & _ & ->)]).
  - exists (Rag.fallback_answer query), h'. split; [exact Hgen |]. cbn.
    split; [discriminate | intros H; contradiction H; reflexivity].
  - exists (Rag.tier_answer text imgs query), h'. split; [exact Hgen |]. cbn.
    apply nonempty_iff_positive_length.
Qed.

(** C1.  Every run of [generate_combined_response] returns a result
    dictionary with a string as [answer_text] and never raises.  When
    every invocation of the language model raises, the answer is the
    fixed apology of the outer handler; when the first tier is reached
    and both the direct invocation and the agent (its construction or
    its run) raise, the answer is the fixed apology of the third tier. *)
Theorem generate_always_returns_an_answer
    (W : Rag.world) (query : string) (h : Rag.history) :
  exists r h',
    Rag.generate_combined_response W query h = (Returns r, h')
    /\ ((forall h0 prompt, exists e, Rag.llm_invoke W h0 prompt = Raises e) ->
        Rag.answer_text r = Rag.processing_apology)
    /\ (forall txts imgs ictx h3 e1,
          Rag.reaches_generation W query h txts imgs ictx h3 ->
          let prompt := Rag.build_prompt query (Rag.text_context_of W txts) ictx in
          let h4 := h3 ++ [Rag.EvLlmInvoke prompt] in
          Rag.llm_invoke W h3 prompt = Raises e1 ->
          (exists e2, Rag.initialize_agent W h4 3 = Raises e2)
          \/ (exists u e2 h5,
                Rag.initialize_agent W h4 3 = Returns u
                /\ Rag.agent_run W 3 (Rag.agent_prompt_of query)
                     (h4 ++ [Rag.EvInitializeAgent 3])
                   = (Raises e2, h5)) ->
          Rag.answer_text r = Rag.generation_apology).
Proof.
  destruct (generate_returns W query h) as (r & h' & Hgen & Hshape).
  exists r, h'. split; [exact Hgen |]. split.
  - intros Hdown.
    destruct Hshape as [-> | (text & txts & imgs & ictx & h3 & Hreach & ->)].
    + reflexivity.
    + destruct Hreach as (_ & [test Htest] & _).
      destruct (Hdown (h ++ [Rag.EvGetLlm]) Rag.llm_test_prompt) as [e He].
      rewrite He in Htest. discriminate Htest.
  - intros txts imgs ictx h3 e1 Hreach prompt h4 Hdirect Hagent.
    rewrite (generate_from_first_tier W query h txts imgs ictx h3 Hreach)
      in Hgen.
    cbv zeta in Hgen. fold prompt in Hgen. fold h4 in Hgen.
    rewrite Hdirect in Hgen.
    destruct Hagent as [[e2 Hinit] | (u & e2 & h5 & Hinit & Hrun)].
    + rewrite Hinit in Hgen. injection Hgen as <- _. reflexivity.
    + rewrite Hinit, Hrun in Hgen. injection Hgen as <- _. reflexivity.
Qed.

(** With the model out of quota the caller gets the apology of the outer
    handler; with a model that passes the health check only and a failing
    agent, the apology of the third tier, with the retrieved image. *)
Example generate_with_llm_down :
  fst (Rag.generate_combined_response Scenario.llm_down
         "What is gradient descent?" [])
  = Returns (Rag.fallback_answer "What is gradient descent?").
Proof. vm_compute. reflexivity. Qed.

Example generate_with_both_tiers_down :
  fst (Rag.generate_combined_response Scenario.lecture3_agent_down
         "What is gradient descent?" [])
  = Returns (Rag.tier_answer Rag.generation_apology
               [Rag.image_result "PNG" Scenario.match3]
               "What is gradient descent?").
Proof. vm_compute. reflexivity. Qed.

(** The run on lecture 3 reaches the first tier with one text match and
    one image. *)
Lemma lecture3_reaches_generation (W : Rag.world) :
  W = Scenario.lecture3 \/ W = Scenario.lecture3_agent_down ->
  Rag.reaches_generation W "What is gradient descent?" []
    [Rag.text_result Scenario.chunk3]
    [Rag.image_result "PNG" Scenario.match3]
    ("Image 1: From IT3061, Lecture 3, Page 12 - Related to: Loss surface..."
     ++ nl)%string
    [Rag.EvGetLlm;
     Rag.EvLlmInvoke Rag.llm_test_prompt;
     Rag.EvHuggingFaceEmbeddings "all-MiniLM-L6-v2";
     Rag.EvMilvus "combined_text_collection";
     Rag.EvSimilaritySearch "What is gradient descent?" 5;
     Rag.EvSearchImagesByText "What is gradient descent?" 3
       "combined_embeddings_7" "pdf_images_7"].
Proof.
  intros [-> | ->].
  - split; [reflexivity |]. split; [exists "Yes."; reflexivity |].
    split; [| vm_compute; reflexivity].
    eexists. split; vm_compute; reflexivity.
  - split; [reflexivity |]. split; [exists "Yes."; reflexivity |].
    split; [| vm_compute; reflexivity].
    eexists. split; vm_compute; reflexivity.
Defined.

Lemma generate_always_returns_an_answer_witness :
  (exists r h',
     Rag.generate_combined_response Scenario.llm_down
       "What is gradient descent?" [] = (Returns r, h')
     /\ Rag.answer_text r = Rag.processing_apology)
  /\ (exists r h',
        Rag.generate_combined_response Scenario.lecture3_agent_down
          "What is gradient descent?" [] = (Returns r, h')
        /\ Rag.answer_text r = Rag.generation_apology).
Proof.
  split.
  - destruct (generate_always_returns_an_answer Scenario.llm_down
                "What is gradient descent?" [])
      as (r & h' & Hgen & Hdown & _).
    exists r, h'. split; [exact Hgen |].
    apply Hdown. intros h0 prompt.
    exists (RuntimeError "429 quota exceeded"). reflexivity.
  - destruct (generate_always_returns_an_answer Scenario.lecture3_agent_down
                "What is gradient descent?" [])
      as (r & h' & Hgen & _ & Htiers).
    exists r, h'. split; [exact Hgen |].
    eapply (Htiers _ _ _ _ (RuntimeError "429 quota exceeded")
              (lecture3_reaches_generation Scenario.lecture3_agent_down
                 (or_intror eq_refl))).
    + vm_compute. reflexivity.
    + right. exists tt, (ValueError "could not parse LLM output"). eexists.
      split; vm_compute; reflexivity.
Defined.

(** C3, as stated, fails: the health check comes before retrieval, and
    when it raises the run goes to the outer handler.  With the model
    down, nothing is retrieved although the index holds an image of
    lecture 3, and the result carries no image. *)
Lemma health_check_failure_skips_retrieval :
  exists h',
    Rag.generate_combined_response Scenario.lecture3_llm_down
      "What is gradient descent?" []
    = (Returns (Rag.fallback_answer "What is gradient descent?"), h')
    /\ Rag.count_events Rag.starts_text_search h' = 0
    /\ Rag.count_events Rag.starts_image_search h' = 0
    /\ fst (Rag.search_images Scenario.lecture3_llm_down
              "What is gradient descent?" 3 [])
       = Returns [Rag.image_result "PNG" Scenario.match3]
    /\ Rag.image_results (Rag.fallback_answer "What is gradient descent?")
       <> [Rag.image_result "PNG" Scenario.match3].
Proof.
  eexists. split; [vm_compute; reflexivity |].
  split; [vm_compute; reflexivity |].
  split; [vm_compute; reflexivity |].
  split; [vm_compute; reflexivity |].
  cbn. discriminate.
Qed.

(** C3, amended.  When the run reaches the first generation tier (the
    model is obtained, passes the health check, and the prompt is
    built), the calls made before the first tier's model invocation are
    the health check followed by retrieval calls only, among them
    exactly one start of [search_text_chunks] and exactly one start of
    [search_images]; and whichever tier produces the answer,
    [image_results], [has_images] and [original_query] of the result come
    from that retrieval and the query.  In particular, when the direct
    invocation raises and the agent returns an output, [answer_text] is
    that output and [image_results] is still the sequence retrieved
    before generation, whatever the agent's tools fetched. *)
Theorem retrieval_precedes_and_feeds_every_tier
    (W : Rag.world) (query : string) (h : Rag.history)
    (txts : list Rag.TextMatch.t) (imgs : list Rag.ImageMatch.t)
    (ictx : string) (h3 : Rag.history) :
  Rag.reaches_generation W query h txts imgs ictx h3 ->
  let prompt := Rag.build_prompt query (Rag.text_context_of W txts) ictx in
  let h4 := h3 ++ [Rag.EvLlmInvoke prompt] in
  exists r h' retrieval later,
    Rag.generate_combined_response W query h = (Returns r, h')
    /\ h3 = h ++ [Rag.EvGetLlm; Rag.EvLlmInvoke Rag.llm_test_prompt] ++ retrieval
    /\ h' = h3 ++ Rag.EvLlmInvoke prompt :: later
    /\ Forall (fun ev => Rag.is_retrieval_call ev = true) retrieval
    /\ Rag.count_events Rag.starts_text_search retrieval = 1
    /\ Rag.count_events Rag.starts_image_search retrieval = 1
    /\ Rag.image_results r = imgs
    /\ Rag.has_images r = (0 <? length imgs)%nat
    /\ Rag.original_query r = query
    /\ (forall response,
          Rag.llm_invoke W h3 prompt = Returns response ->
          Rag.answer_text r = response)
    /\ (forall e u output h5,
          Rag.llm_invoke W h3 prompt = Raises e ->
          Rag.initialize_agent W h4 3 = Returns u ->
          Rag.agent_run W 3 (Rag.agent_prompt_of query)
            (h4 ++ [Rag.EvInitializeAgent 3]) = (Returns output, h5) ->
          Rag.answer_text r = output /\ Rag.image_results r = imgs).
Proof.
  intros Hreach prompt h4.
  pose proof (generate_from_first_tier W query h txts imgs ictx h3 Hreach)
    as Hgen.
  cbv zeta in Hgen. fold prompt in Hgen. fold h4 in Hgen.
  destruct Hreach as (_ & _ & (h2 & Htxt & Himg) & _).
  destruct (search_text_chunks_calls W query 5 _ h2 txts Htxt)
    as (tcalls & -> & Htall & Htt & Hti).
  destruct (search_images_calls W query 3 _ h3 imgs Himg)
    as (icalls & Hh3 & Hiall & Hit & Hii).
  assert (Hprefix :
            h3 = h ++ [Rag.EvGetLlm; Rag.EvLlmInvoke Rag.llm_test_prompt]
                   ++ (tcalls ++ icalls)).
  { rewrite Hh3. rewrite <- !app_assoc. reflexivity. }
  assert (Hall : Forall (fun ev => Rag.is_retrieval_call ev = true)
                   (tcalls ++ icalls))
    by (apply List.Forall_app; split; assumption).
  assert (Hct : Rag.count_events Rag.starts_text_search (tcalls ++ icalls) = 1)
    by (rewrite count_events_app, Htt, Hit; reflexivity).
  assert (Hci : Rag.count_events Rag.starts_image_search (tcalls ++ icalls) = 1)
    by (rewrite count_events_app, Hti, Hii; reflexivity).
  assert (Htail : forall l, h4 ++ l = h3 ++ Rag.EvLlmInvoke prompt :: l).
  { intros l. unfold h4. rewrite <- app_assoc. reflexivity. }
  destruct (Rag.llm_invoke W h3 prompt) as [response | e1].
  { exists (Rag.tier_answer response imgs query), h4, (tcalls ++ icalls), [].
    split; [exact Hgen |]. split; [exact Hprefix |].
    split; [reflexivity |]. repeat (split; [assumption || reflexivity |]).
    split; [intros response' [= <-]; reflexivity |].
    intros e u output h5 Hcontra. discriminate Hcontra. }
  destruct (Rag.initialize_agent W h4 3) as [u | e2].
  2:{ exists (Rag.tier_answer Rag.generation_apology imgs query),
        (h4 ++ [Rag.EvInitializeAgent 3]), (tcalls ++ icalls),
        [Rag.EvInitializeAgent 3].
      split; [exact Hgen |]. split; [exact Hprefix |].
      split; [apply Htail |]. repeat (split; [assumption || reflexivity |]).
      split; [intros response Hcontra; discriminate Hcontra |].
      intros e u output h5 _ Hcontra. discriminate Hcontra. }
  destruct (agent_run_extends W 3 (Rag.agent_prompt_of query)
              (h4 ++ [Rag.EvInitializeAgent 3])) as (o & acalls & Hrun).
  rewrite Hrun in Hgen.
  destruct o as [output | e3].
  - exists (Rag.tier_answer output imgs query),
      ((h4 ++ [Rag.EvInitializeAgent 3]) ++ acalls), (tcalls ++ icalls),
      (Rag.EvInitializeAgent 3 :: acalls).
    split; [exact Hgen |]. split; [exact Hprefix |].
    split; [rewrite <- app_assoc; apply Htail |].
    repeat (split; [assumption || reflexivity |]).
    split; [intros response Hcontra; discriminate Hcontra |].
    intros e u' output' h5 _ _ Hrun'. rewrite Hrun in Hrun'.
    injection Hrun' as <- _. split; reflexivity.
  - exists (Rag.tier_answer Rag.generation_apology imgs query),
      ((h4 ++ [Rag.EvInitializeAgent 3]) ++ acalls), (tcalls ++ icalls),
      (Rag.EvInitializeAgent 3 :: acalls).
    split; [exact Hgen |]. split; [exact Hprefix |].
    split; [rewrite <- app_assoc; apply Htail |].
    repeat (split; [assumption || reflexivity |]).
    split; [intros response Hcontra; discriminate Hcontra |].
    intros e u' output' h5 _ _ Hrun'. rewrite Hrun in Hrun'.
    discriminate Hrun'.
Qed.

Lemma retrieval_precedes_and_feeds_every_tier_witness :
  exists r h',
    Rag.generate_combined_response Scenario.lecture3
      "What is gradient descent?" [] = (Returns r, h')
    /\ Rag.answer_text r = "Lecture 3 covers gradient descent."
    /\ Rag.image_results r = [Rag.image_result "PNG" Scenario.match3]
    /\ Rag.has_images r = true.
Proof.
  destruct (retrieval_precedes_and_feeds_every_tier Scenario.lecture3
              "What is gradient descent?" [] _ _ _ _
              (lecture3_reaches_generation Scenario.lecture3
                 (or_introl eq_refl)))
    as (r & h' & retrieval & later & Hgen & _ & _ & _ & _ & _
        & Himgs & Hhas & _ & _ & Hagent).
  exists r, h'. split; [exact Hgen |].
  split; [| split; [exact Himgs | exact Hhas]].
  eapply (Hagent (RuntimeError "429 quota exceeded") tt).
  - vm_compute. reflexivity.
  - vm_compute. reflexivity.
  - vm_compute. reflexivity.
Defined.

Lemma string_append_assoc (s1 s2 s3 : string) :
  (s1 ++ (s2 ++ s3))%string = ((s1 ++ s2) ++ s3)%string.
Proof.
  induction s1 as [| c s1 IH].
  - reflexivity.
  - change (String c (s1 ++ (s2 ++ s3)) = String c ((s1 ++ s2) ++ s3))%string.
    f_equal. exact IH.
Qed.

(** C6.  When the run reaches the first tier with both searches empty,
    the text block of the prompt is ["No relevant text information
    found."], its image block is ["No relevant images found."], the
    prompt ends with the same [INSTRUCTIONS] as every prompt, and the
    language model is invoked with that prompt; the run returns a
    result, which carries the model's response when the model answers. *)
Theorem empty_retrieval_still_generates
    (W : Rag.world) (query : string) (h h3 : Rag.history) :
  Rag.reaches_generation W query h [] [] "" h3 ->
  let prompt :=
    (nl
     ++ Rag.indent ++ "User Query: " ++ query ++ nl
     ++ Rag.indent ++ nl
     ++ Rag.indent ++ "Text Context:" ++ nl
     ++ Rag.indent ++ "No relevant text information found." ++ nl
     ++ Rag.indent ++ nl
     ++ Rag.indent ++ "Image References:" ++ nl
     ++ Rag.indent ++ "No relevant images found." ++ nl
     ++ Rag.indent ++ nl
     ++ Rag.INSTRUCTIONS)%string in
  Rag.build_prompt query (Rag.text_context_of W []) "" = prompt
  /\ (forall text_context image_context,
        exists blocks,
          Rag.build_prompt query text_context image_context
          = (blocks ++ Rag.INSTRUCTIONS)%string)
  /\ exists r later,
       Rag.generate_combined_response W query h
       = (Returns r, h3 ++ Rag.EvLlmInvoke prompt :: later)
       /\ Rag.image_results r = []
       /\ Rag.has_images r = false
       /\ (forall response,
             Rag.llm_invoke W h3 prompt = Returns response ->
             Rag.answer_text r = response).
Proof.
  intros Hreach prompt.
  assert (Hprompt : Rag.build_prompt query (Rag.text_context_of W []) "" = prompt)
    by reflexivity.
  split; [exact Hprompt |]. split.
  - intros text_context image_context.
    unfold Rag.build_prompt, Rag.prompt_with.
    eexists. rewrite !string_append_assoc. reflexivity.
  - pose proof (generate_from_first_tier W query h [] [] "" h3 Hreach) as Hgen.
    cbv zeta in Hgen. rewrite Hprompt in Hgen.
    set (h4 := h3 ++ [Rag.EvLlmInvoke prompt]) in *.
    assert (Htail : forall l, h4 ++ l = h3 ++ Rag.EvLlmInvoke prompt :: l).
    { intros l. unfold h4. rewrite <- app_assoc. reflexivity. }
    destruct (Rag.llm_invoke W h3 prompt) as [response | e1].
    { exists (Rag.tier_answer response [] query), [].
      split; [exact Hgen |]. repeat (split; [reflexivity |]).
      intros response' [= <-]. reflexivity. }
    destruct (Rag.initialize_agent W h4 3) as [u | e2].
    2:{ exists (Rag.tier_answer Rag.generation_apology [] query),
          [Rag.EvInitializeAgent 3].
        rewrite <- Htail. split; [exact Hgen |].
        repeat (split; [reflexivity |]).
        intros response Hcontra. discriminate Hcontra. }
    destruct (agent_run_extends W 3 (Rag.agent_prompt_of query)
                (h4 ++ [Rag.EvInitializeAgent 3])) as (o & acalls & Hrun).
    rewrite Hrun in Hgen.
    destruct o as [output | e3].
    + exists (Rag.tier_answer output [] query),
        (Rag.EvInitializeAgent 3 :: acalls).
      rewrite <- Htail. rewrite <- app_assoc in Hgen.
      split; [exact Hgen |]. repeat (split; [reflexivity |]).
      intros response Hcontra. discriminate Hcontra.
    + exists (Rag.tier_answer Rag.generation_apology [] query),
        (Rag.EvInitializeAgent 3 :: acalls).
      rewrite <- Htail. rewrite <- app_assoc in Hgen.
      split; [exact Hgen |]. repeat (split; [reflexivity |]).
      intros response Hcontra. discriminate Hcontra.
Qed.

(** With both indexes empty and the model up, the answer is the model's. *)
Lemma quiet_reaches_generation :
  Rag.reaches_generation Scenario.quiet "What is gradient descent?" [] [] [] ""
    [Rag.EvGetLlm;
     Rag.EvLlmInvoke Rag.llm_test_prompt;
     Rag.EvHuggingFaceEmbeddings "all-MiniLM-L6-v2";
     Rag.EvMilvus "combined_text_collection";
     Rag.EvSimilaritySearch "What is gradient descent?" 5;
     Rag.EvSearchImagesByText "What is gradient descent?" 3
       "combined_embeddings_7" "pdf_images_7"].
Proof.
  split; [reflexivity |].
  split; [exists "Gradient descent is explained in Lecture 3."; reflexivity |].
  split; [| reflexivity].
  eexists. split; vm_compute; reflexivity.
Defined.

Lemma empty_retrieval_still_generates_witness :
  exists r h',
    Rag.generate_combined_response Scenario.quiet
      "What is gradient descent?" [] = (Returns r, h')
    /\ Rag.answer_text r = "Gradient descent is explained in Lecture 3."
    /\ Rag.image_results r = [].
Proof.
  destruct (empty_retrieval_still_generates Scenario.quiet
              "What is gradient descent?" [] _ quiet_reaches_generation)
    as (_ & _ & r & later & Hgen & Himgs & _ & Hanswer).
  exists r. eexists. split; [exact Hgen |]. split; [| exact Himgs].
  apply Hanswer. reflexivity.
Defined.

(** * Binary64 arithmetic of the embedding weights *)

Section Binary64Facts.

Local Open Scope Z_scope.

(** *** The shift register *)

Lemma iter_pos_nat {A : Type} (f : A -> A) (p : positive) (x : A) :
  SpecFloat.iter_pos f p x = Nat.iter (Pos.to_nat p) f x.
Proof.
  revert x. induction p as [p IH | p IH |]; intros x; cbn [SpecFloat.iter_pos].
  - rewrite !IH, Pos2Nat.inj_xI.
    replace (S (2 * Pos.to_nat p))%nat with (Pos.to_nat p + (Pos.to_nat p + 1))%nat by lia.
    rewrite !Nat.iter_add. cbn. reflexivity.
  - rewrite !IH, Pos2Nat.inj_xO.
    replace (2 * Pos.to_nat p)%nat with (Pos.to_nat p + Pos.to_nat p)%nat by lia.
    rewrite Nat.iter_add. reflexivity.
  - reflexivity.
Qed.


Lemma shr_1_nonneg (m : Z) (r s : bool) :
  0 <= m ->
  shr_1 {| shr_m := m; shr_r := r; shr_s := s |}
  = {| shr_m := m / 2; shr_r := Z.odd m; shr_s := r || s |}.
Proof.
  intros Hm. destruct m as [| p | p]; [reflexivity | | lia].
  destruct p as [p | p |]; cbn [shr_1].
  - replace (Z.pos p~1 / 2) with (Z.pos p)
      by (apply Z.div_unique with (r := 1); lia).
    reflexivity.
  - replace (Z.pos p~0 / 2) with (Z.pos p)
      by (apply Z.div_unique with (r := 0); lia).
    reflexivity.
  - reflexivity.
Qed.

Lemma shr_iter (M : Z) (j : nat) :
  0 <= M ->
  Nat.iter j shr_1 {| shr_m := M; shr_r := false; shr_s := false |} = shifted M j.
Proof.
  intros HM. induction j as [| j IH].
  - cbn. unfold shifted. cbn. rewrite Z.div_1_r. reflexivity.
  - rewrite Nat.iter_succ, IH. unfold shifted at 1.
    rewrite shr_1_nonneg by (apply Z.div_pos; [lia | apply Z.pow_pos_nonneg; lia]).
    unfold shifted. f_equal.
    + rewrite Nat2Z.inj_succ, Z.pow_succ_r by lia.
      rewrite Z.div_div by (try apply Z.pow_pos_nonneg; lia).
      f_equal. lia.
    + rewrite <- Z.bit0_odd. rewrite Z.div_pow2_bits by lia. f_equal.
    + destruct j as [| j']; [cbn; rewrite Z.mod_1_r; reflexivity |].
      rewrite Nat2Z.inj_succ.
      rewrite Z.pow_succ_r by lia.
      set (P := 2 ^ Z.of_nat j').
      assert (HP : 0 < P) by (apply Z.pow_pos_nonneg; lia).
      pose proof (Z.testbit_spec' M (Z.of_nat j') ltac:(lia)) as Hbit.
      fold P in Hbit.
      rewrite (Z.mul_comm 2 P), Z.rem_mul_r by lia.
      assert (HP' : 0 <= M mod P < P) by (apply Z.mod_pos_bound; lia).
      destruct (Z.testbit M (Z.of_nat j')); cbn in Hbit; rewrite <- Hbit;
        destruct (Z.eqb_spec (M mod P) 0) as [E0 | N0]; cbn;
        match goal with
        | |- context [?a =? 0] => destruct (Z.eqb_spec a 0) as [E1 | N1]
        end; cbn; try reflexivity; nia.
Qed.


(** Shifting [M] right by [p] bits and rounding by the two bits kept is
    [rne M p]. *)
Lemma round_shifted (M : Z) (p : positive) :
  0 <= M ->
  let mrs := SpecFloat.iter_pos shr_1 p {| shr_m := M; shr_r := false; shr_s := false |} in
  shr_m mrs = M / 2 ^ Z.pos p
  /\ round_nearest_even (shr_m mrs) (loc_of_shr_record mrs) = rne M (Z.pos p).
Proof.
  intros HM mrs. unfold mrs. rewrite iter_pos_nat, shr_iter by assumption.
  destruct (Pos.to_nat p) as [| j] eqn:Hj; [lia |].
  assert (Hp : Z.pos p = Z.of_nat j + 1) by lia.
  unfold shifted. cbn [shr_m shr_r shr_s loc_of_shr_record].
  rewrite Nat2Z.inj_succ, <- Z.add_1_r, <- Hp.
  split; [reflexivity |].
  unfold rne. rewrite Hp. replace (Z.of_nat j + 1 - 1) with (Z.of_nat j) by lia.
  rewrite Z.pow_add_r by lia. change (2 ^ 1) with 2.
  set (P := 2 ^ Z.of_nat j).
  assert (HP : 0 < P) by (apply Z.pow_pos_nonneg; lia).
  pose proof (Z.testbit_spec' M (Z.of_nat j) ltac:(lia)) as Hbit. fold P in Hbit.
  rewrite (Z.rem_mul_r M P 2) by lia.
  assert (HP' : 0 <= M mod P < P) by (apply Z.mod_pos_bound; lia).
  set (q := M / (P * 2)).
  destruct (Z.testbit M (Z.of_nat j)); cbn in Hbit; rewrite <- Hbit;
    destruct (Z.eqb_spec (M mod P) 0) as [E0 | N0]; cbn [negb round_nearest_even];
    repeat match goal with
      | |- context [?a <? ?b] => destruct (Z.ltb_spec a b); try lia
      | |- context [?a =? ?b] => destruct (Z.eqb_spec a b); try lia
      end; try reflexivity.
Qed.


(** *** Exponents and digits *)

Lemma fexp64 (e : Z) : fexp 53 1024 e = Z.max (e - 53) (-1074).
Proof. reflexivity. Qed.

Lemma digits2_pos_bounds (m : positive) :
  2 ^ (Z.pos (digits2_pos m) - 1) <= Z.pos m < 2 ^ Z.pos (digits2_pos m).
Proof.
  induction m as [m IH | m IH |]; cbn [digits2_pos].
  - rewrite Pos2Z.inj_succ.
    replace (Z.succ (Z.pos (digits2_pos m)) - 1) with (Z.succ (Z.pos (digits2_pos m) - 1)) by lia.
    rewrite !Z.pow_succ_r by lia. lia.
  - rewrite Pos2Z.inj_succ.
    replace (Z.succ (Z.pos (digits2_pos m)) - 1) with (Z.succ (Z.pos (digits2_pos m) - 1)) by lia.
    rewrite !Z.pow_succ_r by lia. lia.
  - cbn. lia.
Qed.

Lemma digits2_pos_unique (m : positive) (d : Z) :
  2 ^ (d - 1) <= Z.pos m < 2 ^ d -> Z.pos (digits2_pos m) = d.
Proof.
  intros [Hlo Hhi].
  pose proof (digits2_pos_bounds m) as [Hlo' Hhi'].
  assert (Hd : 0 < d).
  { destruct (Z.lt_ge_cases 0 d) as [H | H]; [exact H |].
    assert (2 ^ d <= 2 ^ 0) by (apply Z.pow_le_mono_r; lia). cbn in *. lia. }
  assert (H1 : d - 1 < Z.pos (digits2_pos m)).
  { apply (Z.pow_lt_mono_r_iff 2); lia. }
  assert (H2 : Z.pos (digits2_pos m) - 1 < d).
  { apply (Z.pow_lt_mono_r_iff 2); lia. }
  lia.
Qed.

(** *** Rounding a mantissa *)

(** A mantissa with [n > 0] bits too many is shifted and rounded. *)
Lemma binary_round_aux_shift (m : positive) (E n : Z) :
  n = fexp 53 1024 (Z.pos (digits2_pos m) + E) - E ->
  0 < n ->
  binary_round_aux 53 1024 false (Z.pos m) E loc_Exact
  = round_tail (rne (Z.pos m) n) (E + n).
Proof.
  intros Hn Hpos. unfold binary_round_aux, round_tail.
  unfold shr_fexp at 1. cbn [Zdigits2]. rewrite <- Hn.
  destruct n as [| p | p]; try lia.
  cbn [shr shr_record_of_loc].
  destruct (round_shifted (Z.pos m) p ltac:(lia)) as [_ Hround].
  cbv zeta in Hround. rewrite Hround. reflexivity.
Qed.

(** A mantissa that fits is kept. *)
Lemma binary_round_aux_fits (m : positive) (E : Z) :
  fexp 53 1024 (Z.pos (digits2_pos m) + E) <= E ->
  E <= 971 ->
  binary_round_aux 53 1024 false (Z.pos m) E loc_Exact = S754_finite false m E.
Proof.
  intros Hfit HE. unfold binary_round_aux.
  assert (Hshr : shr_fexp 53 1024 (Z.pos m) E loc_Exact
                 = ({| shr_m := Z.pos m; shr_r := false; shr_s := false |}, E)).
  { unfold shr_fexp. cbn [Zdigits2 shr_record_of_loc].
    destruct (fexp 53 1024 (Z.pos (digits2_pos m) + E) - E) as [| p | p] eqn:Hd;
      try reflexivity. lia. }
  rewrite Hshr. cbn [shr_m loc_of_shr_record round_nearest_even].
  rewrite Hshr. cbn [shr_m].
  destruct (Z.leb_spec E (1024 - 53)); [reflexivity | lia].
Qed.

Lemma round_tail_fits (r : positive) (E : Z) :
  fexp 53 1024 (Z.pos (digits2_pos r) + E) <= E ->
  E <= 971 ->
  round_tail (Z.pos r) E = S754_finite false r E.
Proof.
  intros Hfit HE. unfold round_tail.
  assert (Hshr : shr_fexp 53 1024 (Z.pos r) E loc_Exact
                 = ({| shr_m := Z.pos r; shr_r := false; shr_s := false |}, E)).
  { unfold shr_fexp. cbn [Zdigits2 shr_record_of_loc].
    destruct (fexp 53 1024 (Z.pos (digits2_pos r) + E) - E) as [| p | p] eqn:Hd;
      try reflexivity. lia. }
  rewrite Hshr. cbn [shr_m].
  destruct (Z.leb_spec E (1024 - 53)); [reflexivity | lia].
Qed.

Lemma shl_align_down (mx : positive) (ex ex' : Z) :
  ex' <= ex ->
  Z.pos (fst (shl_align mx ex ex')) = Z.pos mx * 2 ^ (ex - ex').
Proof.
  intros Hle. unfold shl_align.
  destruct (ex' - ex) as [| d | d] eqn:Hd; try lia.
  - replace (ex - ex') with 0 by lia. cbn [fst]. rewrite Z.pow_0_r. lia.
  - cbn [fst]. replace (ex - ex') with (Z.pos d) by lia.
    change (Pos.iter xO mx d) with (shift_pos d mx).
    rewrite shift_pos_correct. change (Z.pow_pos 2 d) with (2 ^ Z.pos d). lia.
Qed.

Lemma shl_align_up (mx : positive) (ex ex' : Z) :
  ex <= ex' -> shl_align mx ex ex' = (mx, ex).
Proof.
  intros Hle. unfold shl_align.
  destruct (ex' - ex) as [| d | d] eqn:Hd; try reflexivity. lia.
Qed.


(** The difference [1.0 - x] for a normal or subnormal [x] below one
    half: the exact difference, rounded to 53 bits at exponent -53. *)
Lemma sub_from_one (m : positive) (e : Z) :
  e <= -54 -> -1074 <= e -> Z.pos m < 2 ^ 53 ->
  exists R : positive,
    SFsub 53 1024 float_one (S754_finite false m e)
    = round_tail (Z.pos R) (-53)
    /\ Z.pos R = rne (2 ^ (- e) - Z.pos m) (- e - 53).
Proof.
  intros He Hemin Hm.
  set (k := - e).
  assert (Hk : 54 <= k <= 1074) by lia.
  assert (Hpow : 2 ^ k = 2 ^ 53 * 2 ^ (k - 53)).
  { rewrite <- Z.pow_add_r by lia. f_equal. lia. }
  assert (Hpos : 0 < 2 ^ (k - 53)) by (apply Z.pow_pos_nonneg; lia).
  assert (Hge2 : 2 <= 2 ^ (k - 53)).
  { change 2 with (2 ^ 1) at 1. apply Z.pow_le_mono_r; lia. }
  unfold SFsub, float_one. cbn [cond_Zopp].
  replace (Z.min (-52) e) with e by lia.
  rewrite (shl_align_down 4503599627370496 (-52) e) by lia.
  rewrite (shl_align_up m e e) by lia. cbn [fst].
  replace (-52 - e) with (k - 52) by lia.
  assert (Hone : 4503599627370496 * 2 ^ (k - 52) = 2 ^ k).
  { change 4503599627370496 with (2 ^ 52). rewrite <- Z.pow_add_r by lia.
    f_equal. lia. }
  rewrite Hone.
  assert (HD : 2 ^ (k - 1) < 2 ^ k - Z.pos m).
  { replace k with (Z.succ (k - 1)) at 2 by lia. rewrite Z.pow_succ_r by lia.
    assert (2 ^ 53 <= 2 ^ (k - 1)) by (apply Z.pow_le_mono_r; lia). lia. }
  assert (0 < 2 ^ (k - 1)) by (apply Z.pow_pos_nonneg; lia).
  destruct (2 ^ k - Z.pos m) as [| D | D] eqn:HDeq; try lia.
  unfold binary_normalize, binary_round.
  assert (Hdig : Z.pos (digits2_pos D) = k).
  { apply digits2_pos_unique. lia. }
  rewrite Hdig.
  assert (Hf : fexp 53 1024 (k + e) = -53) by (rewrite fexp64; lia).
  rewrite Hf. rewrite shl_align_up by lia.
  rewrite (binary_round_aux_shift D e (k - 53))
    by (try rewrite Hdig, Hf; lia).
  replace (e + (k - 53)) with (-53) by lia.
  assert (HR : 0 < rne (Z.pos D) (k - 53)).
  { unfold rne.
    assert (0 < Z.pos D / 2 ^ (k - 53)).
    { apply Z.div_str_pos. split; [lia |].
      assert (2 ^ (k - 53) <= 2 ^ (k - 1)) by (apply Z.pow_le_mono_r; lia). lia. }
    repeat match goal with
      | |- context [if ?b then _ else _] => destruct b
      end; lia. }
  destruct (rne (Z.pos D) (k - 53)) as [| R | R] eqn:HRe; try lia.
  exists R. split; [reflexivity |]. unfold k in *. lia.
Qed.

(** *** Rounding to nearest even *)

(** The rounded quotient is within half a unit of the exact one. *)
Lemma rne_error (M n : Z) :
  0 <= M -> 1 <= n ->
  2 * Z.abs (rne M n * 2 ^ n - M) <= 2 ^ n.
Proof.
  intros HM Hn. unfold rne.
  assert (Hpow : 2 ^ n = 2 * 2 ^ (n - 1)).
  { replace n with (Z.succ (n - 1)) at 1 by lia. apply Z.pow_succ_r. lia. }
  rewrite !Hpow.
  set (half := 2 ^ (n - 1)).
  assert (Hhalf : 0 < half) by (apply Z.pow_pos_nonneg; lia).
  pose proof (Z.div_mod M (2 * half) ltac:(lia)) as Hdm.
  pose proof (Z.mod_pos_bound M (2 * half) ltac:(lia)) as Hr.
  set (q := M / (2 * half)) in *. set (r := M mod (2 * half)) in *.
  destruct (Z.ltb_spec r half); [nia |].
  destruct (Z.eqb_spec r half); [destruct (Z.even q); nia |].
  nia.
Qed.

Lemma rne_exact_quotient (q r n : Z) :
  1 <= n -> 0 <= r -> 2 * r < 2 ^ n -> rne (q * 2 ^ n + r) n = q.
Proof.
  intros Hn Hr Hlt. unfold rne.
  assert (Hpow : 2 ^ n = 2 * 2 ^ (n - 1)).
  { replace n with (Z.succ (n - 1)) at 1 by lia. apply Z.pow_succ_r. lia. }
  assert (Hhalf : 0 < 2 ^ (n - 1)) by (apply Z.pow_pos_nonneg; lia).
  assert (Hq : (q * 2 ^ n + r) / 2 ^ n = q).
  { symmetry. apply Z.div_unique with (r := r); lia. }
  assert (Hm : (q * 2 ^ n + r) mod 2 ^ n = r).
  { symmetry. apply Z.mod_unique with (q := q); lia. }
  rewrite Hq, Hm.
  destruct (Z.ltb_spec r (2 ^ (n - 1))); [reflexivity | lia].
Qed.

Lemma rne_up_to_even (q r n : Z) :
  1 <= n -> Z.even q = false -> 2 ^ n <= 2 * r -> r < 2 ^ n ->
  rne (q * 2 ^ n + r) n = q + 1.
Proof.
  intros Hn Hodd Hge Hlt. unfold rne.
  assert (Hpow : 2 ^ n = 2 * 2 ^ (n - 1)).
  { replace n with (Z.succ (n - 1)) at 1 by lia. apply Z.pow_succ_r. lia. }
  assert (Hhalf : 0 < 2 ^ (n - 1)) by (apply Z.pow_pos_nonneg; lia).
  assert (Hq : (q * 2 ^ n + r) / 2 ^ n = q).
  { symmetry. apply Z.div_unique with (r := r); lia. }
  assert (Hm : (q * 2 ^ n + r) mod 2 ^ n = r).
  { symmetry. apply Z.mod_unique with (q := q); lia. }
  rewrite Hq, Hm, Hodd.
  destruct (Z.ltb_spec r (2 ^ (n - 1))); [lia |].
  destruct (Z.eqb_spec r (2 ^ (n - 1))); reflexivity.
Qed.

(** *** Sums of positive floats *)

Lemma add_finite_low (m my : positive) (e ey : Z) :
  e <= ey ->
  SFadd 53 1024 (S754_finite false m e) (S754_finite false my ey)
  = binary_normalize 53 1024 (Z.pos m + Z.pos my * 2 ^ (ey - e)) e false.
Proof.
  intros Hle. unfold SFadd. cbn [cond_Zopp].
  replace (Z.min e ey) with e by lia.
  rewrite (shl_align_up m e e) by lia. cbn [fst].
  rewrite (shl_align_down my ey e) by lia. reflexivity.
Qed.

Lemma add_finite_high (m my : positive) (e ey : Z) :
  ey <= e ->
  SFadd 53 1024 (S754_finite false m e) (S754_finite false my ey)
  = binary_normalize 53 1024 (Z.pos m * 2 ^ (e - ey) + Z.pos my) ey false.
Proof.
  intros Hle. unfold SFadd. cbn [cond_Zopp].
  replace (Z.min e ey) with ey by lia.
  rewrite (shl_align_up my ey ey) by lia. cbn [fst].
  rewrite (shl_align_down m e ey) by lia. reflexivity.
Qed.

Lemma normalize_shift (S e d n : Z) :
  0 < S -> 2 ^ (d - 1) <= S < 2 ^ d ->
  n = fexp 53 1024 (d + e) - e -> 0 < n ->
  binary_normalize 53 1024 S e false = round_tail (rne S n) (e + n).
Proof.
  intros HS Hd Hn Hpos.
  destruct S as [| s | s]; try lia.
  unfold binary_normalize, binary_round.
  rewrite (digits2_pos_unique s d Hd).
  rewrite shl_align_up by lia.
  apply binary_round_aux_shift; [| assumption].
  rewrite (digits2_pos_unique s d Hd). exact Hn.
Qed.

Lemma round_tail_carry : round_tail (2 ^ 53) (-53) = float_one.
Proof. vm_compute. reflexivity. Qed.

Lemma round_tail_one : round_tail (2 ^ 52) (-52) = float_one.
Proof. vm_compute. reflexivity. Qed.

(** *** The three ranges of [x] *)

(** [x] below one half: the difference is rounded, and the sum rounds
    back to [1.0]. *)
Lemma below_half_sums_to_one (m : positive) (e : Z) :
  e <= -54 -> -1074 <= e -> Z.pos m < 2 ^ 53 ->
  SFadd 53 1024 (S754_finite false m e)
    (SFsub 53 1024 float_one (S754_finite false m e)) = float_one.
Proof.
  intros He Hemin Hm.
  destruct (sub_from_one m e He Hemin Hm) as (R & Hsub & HR).
  rewrite Hsub. clear Hsub.
  set (k := - e) in *.
  assert (Hk : 54 <= k <= 1074) by lia.
  assert (He' : e = - k) by lia.
  set (P2 := 2 ^ (k - 53)) in *.
  assert (HP2 : 2 <= P2).
  { change 2 with (2 ^ 1) at 1. apply Z.pow_le_mono_r; lia. }
  assert (Hk53 : 2 ^ k = 2 ^ 53 * P2).
  { unfold P2. rewrite <- Z.pow_add_r by lia. f_equal. lia. }
  assert (Hk52 : 2 ^ (k - 52) = 2 * P2).
  { unfold P2. replace (k - 52) with (Z.succ (k - 53)) by lia.
    apply Z.pow_succ_r. lia. }
  assert (Hk1 : 2 ^ k = 2 * 2 ^ (k - 1)).
  { replace k with (Z.succ (k - 1)) at 1 by lia. apply Z.pow_succ_r. lia. }
  pose proof (rne_error (2 ^ k - Z.pos m) (k - 53) ltac:(lia) ltac:(lia)) as Herr.
  rewrite <- HR in Herr. fold P2 in Herr.
  change (2 ^ 53) with 9007199254740992 in *.
  assert (HRlo : 4503599627370496 <= Z.pos R) by nia.
  assert (HRhi : Z.pos R <= 9007199254740992) by nia.
  destruct (Z.eq_dec (Z.pos R) 9007199254740992) as [Htop | Hnot].
  - (* the difference rounds to 1.0 *)
    rewrite Htop. change 9007199254740992 with (2 ^ 53) at 1.
    rewrite round_tail_carry. unfold float_one.
    rewrite add_finite_low by lia.
    rewrite (normalize_shift _ e (k + 1) (k - 52)).
    + replace (Z.pos m + 4503599627370496 * 2 ^ (-52 - e))
        with (4503599627370496 * 2 ^ (k - 52) + Z.pos m)
        by (replace (-52 - e) with (k - 52) by lia; lia).
      rewrite rne_exact_quotient by (rewrite ?Hk52; lia).
      replace (e + (k - 52)) with (-52) by lia. exact round_tail_one.
    + lia.
    + replace (-52 - e) with (k - 52) by lia.
      replace (k + 1 - 1) with k by lia.
      replace (k + 1) with (Z.succ k) by lia. rewrite Z.pow_succ_r by lia.
      rewrite Hk52, Hk53. lia.
    + rewrite fexp64. lia.
    + lia.
  - assert (Hdig : Z.pos (digits2_pos R) = 53).
    { apply digits2_pos_unique. change (2 ^ (53 - 1)) with 4503599627370496.
      change (2 ^ 53) with 9007199254740992. lia. }
    rewrite round_tail_fits by (rewrite ?Hdig, ?fexp64; lia).
    rewrite add_finite_low by lia.
    replace (-53 - e) with (k - 53) by lia. fold P2.
    destruct (Z.le_gt_cases (2 ^ k) (Z.pos m + Z.pos R * P2)) as [Hup | Hdown].
    + (* the rounded difference is not below the exact difference *)
      rewrite (normalize_shift _ e (k + 1) (k - 52)).
      * replace (Z.pos m + Z.pos R * P2)
          with (4503599627370496 * 2 ^ (k - 52)
                + (Z.pos m + Z.pos R * P2 - 2 ^ k))
          by (rewrite Hk52, Hk53; lia).
        rewrite rne_exact_quotient by (rewrite ?Hk52; lia).
        replace (e + (k - 52)) with (-52) by lia. exact round_tail_one.
      * lia.
      * replace (k + 1 - 1) with k by lia.
        replace (k + 1) with (Z.succ k) by lia. rewrite Z.pow_succ_r by lia.
        lia.
      * rewrite fexp64. lia.
      * lia.
    + (* the rounded difference is below the exact difference *)
      rewrite (normalize_shift _ e k (k - 53)).
      * replace (Z.pos m + Z.pos R * P2)
          with (9007199254740991 * 2 ^ (k - 53)
                + (Z.pos m + Z.pos R * P2 - 2 ^ k + P2))
          by (fold P2; rewrite Hk53; lia).
        rewrite rne_up_to_even; fold P2; try lia; try reflexivity.
        replace (e + (k - 53)) with (-53) by lia.
        change (9007199254740991 + 1) with (2 ^ 53). exact round_tail_carry.
      * lia.
      * split; [| lia]. rewrite Hk53 in *.
        assert (2 ^ (k - 1) = 4503599627370496 * P2) by lia. lia.
      * rewrite fexp64. lia.
      * lia.
Qed.

Lemma shl_align_snd (mx : positive) (ex ex' : Z) :
  ex' <= ex -> snd (shl_align mx ex ex') = ex'.
Proof.
  intros Hle. unfold shl_align.
  destruct (ex' - ex) as [| d | d] eqn:Hd; cbn [snd]; lia.
Qed.

(** [x] in [[0.5, 1.0)]: the difference and the sum are exact. *)
Lemma above_half_sums_to_one (m : positive) :
  2 ^ 52 <= Z.pos m < 2 ^ 53 ->
  SFadd 53 1024 (S754_finite false m (-53))
    (SFsub 53 1024 float_one (S754_finite false m (-53))) = float_one.
Proof.
  intros Hm. change (2 ^ 52) with 4503599627370496 in Hm.
  change (2 ^ 53) with 9007199254740992 in Hm.
  unfold SFsub at 1, float_one at 1. cbn [cond_Zopp].
  change (Z.min (-52) (-53)) with (-53).
  rewrite (shl_align_down 4503599627370496 (-52) (-53)) by lia.
  rewrite (shl_align_up m (-53) (-53)) by lia. cbn [fst].
  change (4503599627370496 * 2 ^ (-52 - -53)) with 9007199254740992.
  destruct (9007199254740992 - Z.pos m) as [| D | D] eqn:HD; try lia.
  unfold binary_normalize, binary_round.
  pose proof (digits2_pos_bounds D) as HdD.
  set (d := Z.pos (digits2_pos D)) in *.
  assert (Hd : 1 <= d <= 53).
  { split; [unfold d; lia |].
    destruct (Z.le_gt_cases d 53) as [H | H]; [exact H |].
    assert (2 ^ 53 <= 2 ^ (d - 1)) by (apply Z.pow_le_mono_r; lia).
    change (2 ^ 53) with 9007199254740992 in *. lia. }
  rewrite fexp64. replace (Z.max (d + -53 - 53) (-1074)) with (d - 106) by lia.
  destruct (shl_align D (-53) (d - 106)) as [D' E'] eqn:Hshl.
  assert (HD' : Z.pos D' = Z.pos D * 2 ^ (53 - d)).
  { pose proof (shl_align_down D (-53) (d - 106) ltac:(lia)) as H.
    rewrite Hshl in H. cbn [fst] in H. rewrite H. f_equal. f_equal. lia. }
  assert (HE' : E' = d - 106).
  { pose proof (shl_align_snd D (-53) (d - 106) ltac:(lia)) as H.
    rewrite Hshl in H. exact H. }
  subst E'.
  assert (Hsplit : 2 ^ 53 = 2 ^ d * 2 ^ (53 - d)).
  { rewrite <- Z.pow_add_r by lia. f_equal. lia. }
  assert (Hsplit' : 2 ^ 52 = 2 ^ (d - 1) * 2 ^ (53 - d)).
  { rewrite <- Z.pow_add_r by lia. f_equal. lia. }
  assert (Hj : 0 < 2 ^ (53 - d)) by (apply Z.pow_pos_nonneg; lia).
  assert (HdD' : Z.pos (digits2_pos D') = 53).
  { apply digits2_pos_unique. change (53 - 1) with 52. nia. }
  rewrite binary_round_aux_fits by (rewrite ?HdD', ?fexp64; lia).
  rewrite add_finite_high by lia.
  replace (-53 - (d - 106)) with (53 - d) by lia.
  assert (Hsum : Z.pos m * 2 ^ (53 - d) + Z.pos D' = 2 ^ 52 * 2 ^ (54 - d) + 0).
  { rewrite HD'.
    replace (54 - d) with (Z.succ (53 - d)) by lia. rewrite Z.pow_succ_r by lia.
    change (2 ^ 52) with 4503599627370496. nia. }
  rewrite Hsum.
  rewrite (normalize_shift _ (d - 106) (107 - d) (54 - d)).
  - rewrite rne_exact_quotient.
    + replace (d - 106 + (54 - d)) with (-52) by lia. exact round_tail_one.
    + lia.
    + lia.
    + assert (0 < 2 ^ (54 - d)) by (apply Z.pow_pos_nonneg; lia). lia.
  - assert (0 < 2 ^ (54 - d)) by (apply Z.pow_pos_nonneg; lia).
    change (2 ^ 52) with 4503599627370496. lia.
  - rewrite Z.add_0_r, <- Z.pow_add_r by lia.
    replace (52 + (54 - d)) with (107 - d - 1) by lia.
    split; [lia |]. apply Z.pow_lt_mono_r; lia.
  - rewrite fexp64. lia.
  - lia.
Qed.

(** What [valid_binary] says about a mantissa and its exponent. *)
Lemma bounded64 (m : positive) (e : Z) :
  bounded 53 1024 m e = true ->
  -1074 <= e <= 971
  /\ Z.pos m < 2 ^ 53
  /\ (-1074 < e -> 2 ^ 52 <= Z.pos m).
Proof.
  unfold bounded, canonical_mantissa. rewrite fexp64.
  intros H. apply andb_prop in H. destruct H as [Hc He].
  apply Z.eqb_eq in Hc. apply Z.leb_le in He.
  pose proof (digits2_pos_bounds m) as [Hlo Hhi].
  set (d := Z.pos (digits2_pos m)) in *.
  assert (Hd : d <= 53) by lia.
  split; [lia |]. split.
  - assert (2 ^ d <= 2 ^ 53) by (apply Z.pow_le_mono_r; lia). lia.
  - intros Hnormal. assert (d = 53) by lia. subst d.
    replace 52 with (Z.pos (digits2_pos m) - 1) by lia. exact Hlo.
Qed.

(** For every float [x] with [0.0 <= x <= 1.0], [x + (1.0 - x)] is
    exactly [1.0]. *)
Lemma complement_sums_to_one (x : spec_float) :
  valid_binary 53 1024 x = true ->
  SFleb (S754_zero false) x = true ->
  SFleb x float_one = true ->
  SFadd 53 1024 x (SFsub 53 1024 float_one x) = float_one.
Proof.
  intros Hvalid Hlow Hhigh.
  destruct x as [s | s | | s m e].
  - reflexivity.
  - destruct s; discriminate.
  - discriminate.
  - destruct s; [discriminate |].
    cbn [valid_binary] in Hvalid.
    destruct (bounded64 m e Hvalid) as (He & Hm & Hnormal).
    unfold SFleb, SFcompare, float_one in Hhigh.
    destruct (Z.compare_spec e (-52)) as [Heq | Hlt | Hgt]; [| | discriminate].
    + subst e.
      rewrite Pos.compare_cont_spec, Pos2Z.inj_compare in Hhigh.
      assert (Hle : Z.pos m <= 4503599627370496).
      { destruct (Z.compare_spec (Z.pos m) 4503599627370496) as [Hc | Hc | Hc];
          [rewrite Hc; apply Z.le_refl | apply Z.lt_le_incl; exact Hc
          | discriminate Hhigh]. }
      assert (Hge : 4503599627370496 <= Z.pos m) by (apply Hnormal; reflexivity).
      assert (Heq : m = 4503599627370496%positive).
      { apply Pos2Z.inj. apply Z.le_antisymm; assumption. }
      rewrite Heq. vm_compute. reflexivity.
    + destruct (Z.eq_dec e (-53)) as [-> | Hne].
      * apply above_half_sums_to_one. split; [apply Hnormal; lia | exact Hm].
      * apply below_half_sums_to_one; lia.
Qed.

End Binary64Facts.

(** C9.  For every float [image_weight] with [0.0 <= image_weight <= 1.0]
    that the form hands over together with an uploaded file, the handler
    builds a configuration whose [image_weight] is the value entered and
    whose [image_weight + text_weight] is exactly [1.0]; the
    configuration is passed to the pipeline as built, and after the
    pipeline has run it still has the values it was built with. *)
Theorem embedding_config_weights_sum_to_one
    (W : Rag.world)
    (save_upload : list Byte.byte -> outcome string)
    (create_embeddings_and_store :
       string -> gmap string Rag.pyval -> Rag.EmbeddingConfig.t ->
       outcome (gmap string Rag.pyval))
    (image_weight similarity_threshold : py_float) (batch_size : Z)
    (use_dim_reduction : bool) (output_dim : Z) (use_alignment : bool)
    (mongo_collection milvus_collection : string)
    (file : list Byte.byte) (image_metadata : gmap string Rag.pyval) :
  is_float image_weight = true ->
  float_le float_zero image_weight = true ->
  float_le image_weight float_one = true ->
  exists config result,
    Rag.process_pdf_for_images W save_upload create_embeddings_and_store
      image_weight similarity_threshold batch_size use_dim_reduction
      output_dim use_alignment mongo_collection milvus_collection
      (Some file) image_metadata
    = Some (config, result)
    /\ Rag.EmbeddingConfig.image_weight config = image_weight
    /\ float_add (Rag.EmbeddingConfig.image_weight config)
                 (Rag.EmbeddingConfig.text_weight config) = float_one
    /\ result
       = Rag.process_document_for_images W save_upload
           create_embeddings_and_store file image_metadata config
    /\ config
       = Rag.EmbeddingConfig.Build image_weight
           (float_sub float_one image_weight) similarity_threshold batch_size
           use_dim_reduction output_dim use_alignment
           mongo_collection milvus_collection.
Proof.
  intros Hfloat Hlow Hhigh.
  eexists. eexists. split; [reflexivity |].
  split; [reflexivity |]. split; [| split; reflexivity].
  cbn [Rag.EmbeddingConfig.image_weight Rag.EmbeddingConfig.text_weight].
  unfold float_add, float_sub.
  apply complement_sums_to_one; assumption.
Qed.

Lemma embedding_config_weights_sum_to_one_witness :
  exists config result,
    Rag.process_pdf_for_images Scenario.quiet Scenario.upload_ok
      Scenario.store_two Scenario.weight_03 Scenario.threshold_098 8 true 512 true
      "pdf_images_5" "combined_embeddings_5"
      (Some [Byte.x25; Byte.x50; Byte.x44; Byte.x46]) ∅
    = Some (config, result)
    /\ float_add (Rag.EmbeddingConfig.image_weight config)
                 (Rag.EmbeddingConfig.text_weight config) = float_one.
Proof.
  destruct (embedding_config_weights_sum_to_one Scenario.quiet
              Scenario.upload_ok Scenario.store_two
              Scenario.weight_03 Scenario.threshold_098 8 true 512 true
              "pdf_images_5" "combined_embeddings_5"
              [Byte.x25; Byte.x50; Byte.x44; Byte.x46] ∅)
    as (config & result & Hrun & _ & Hsum & _).
  - vm_compute. reflexivity.
  - vm_compute. reflexivity.
  - vm_compute. reflexivity.
  - exists config, result. split; [exact Hrun | exact Hsum].
Defined.


(** * Further properties of [GEMINI_final.py] *)

Section GeminiFinalMore.

Import GeminiFinal.

(** X1.  [pad_or_truncate] leaves a vector of the target length as it is,
    so applying it twice with the same non-negative dimension is the same
    as applying it once. *)
Theorem pad_or_truncate_idempotent (vector : list py_float) (d : Z) :
  (0 <= d)%Z ->
  pad_or_truncate (pad_or_truncate vector d) d = pad_or_truncate vector d.
Proof.
  intros Hd.
  pose proof (pad_or_truncate_length vector d Hd) as Hlen.
  rewrite (pad_or_truncate_shorter (pad_or_truncate vector d) d) by lia.
  replace (Z.to_nat d - length (pad_or_truncate vector d)) with 0 by lia.
  cbn. apply app_nil_r.
Qed.

Lemma pad_or_truncate_idempotent_witness :
  pad_or_truncate
    (pad_or_truncate [Scenario.one; Scenario.one; Scenario.one] 5) 5
  = pad_or_truncate [Scenario.one; Scenario.one; Scenario.one] 5.
Proof. apply pad_or_truncate_idempotent. lia. Defined.

(** X2.  For a negative target dimension [pad_or_truncate] never pads: it
    drops the last [-d] entries of the vector, and the result has
    [max 0 (len + d)] entries. *)
Theorem pad_or_truncate_negative_dim (vector : list py_float) (d : Z) :
  (d < 0)%Z ->
  pad_or_truncate vector d
  = firstn (length vector - Z.to_nat (- d)) vector
  /\ Z.of_nat (length (pad_or_truncate vector d))
     = Z.max 0 (Z.of_nat (length vector) + d).
Proof.
  intros Hd. unfold pad_or_truncate.
  destruct (Z.gtb_spec (Z.of_nat (length vector)) d) as [_ | Hle]; [| lia].
  unfold slice_to. destruct (Z.ltb_spec d 0) as [_ | Hge]; [| lia].
  replace (Z.to_nat (Z.of_nat (length vector) + d))
    with (length vector - Z.to_nat (- d)) by lia.
  split; [reflexivity |].
  rewrite length_firstn. lia.
Qed.

Lemma pad_or_truncate_negative_dim_witness :
  pad_or_truncate [Scenario.one; float_zero; Scenario.one] (-1)
  = firstn (length [Scenario.one; float_zero; Scenario.one] - Z.to_nat (- -1))
      [Scenario.one; float_zero; Scenario.one]
  /\ Z.of_nat (length (pad_or_truncate [Scenario.one; float_zero; Scenario.one] (-1)))
     = Z.max 0 (Z.of_nat (length [Scenario.one; float_zero; Scenario.one]) + -1).
Proof. apply pad_or_truncate_negative_dim. lia. Defined.

Variable word_tokenize : string -> list string.
Variable lemmatize : string -> string.
Variable stop_words : gset string.
Variable encode : string -> outcome (list py_float).
Variable open_collection : string -> outcome unit.

(** X3.  [perform_search] consults the index only with a query vector of
    exactly 384 entries and the limit 5: two indexes that answer all such
    queries alike give the same search result, whatever the embedding
    model returns. *)
Theorem perform_search_queries_384_dimensions
    (collection_search collection_search' :
       list py_float -> Z -> outcome (list hit))
    (query : string) :
  (forall v, length v = 384 -> collection_search v 5%Z = collection_search' v 5%Z) ->
  perform_search word_tokenize lemmatize stop_words encode open_collection
    collection_search query
  = perform_search word_tokenize lemmatize stop_words encode open_collection
      collection_search' query.
Proof.
  intros Hagree. unfold perform_search, get_embedding.
  destruct (encode _) as [raw | e]; cbn; [| reflexivity].
  destruct (open_collection _) as [u | e]; cbn; [| reflexivity].
  rewrite (Hagree (pad_or_truncate raw 384)); [reflexivity |].
  pose proof (pad_or_truncate_length raw 384 ltac:(lia)). lia.
Qed.


Lemma lower_ascii_idempotent (c : ascii) :
  lower_ascii (lower_ascii c) = lower_ascii c.
Proof.
  destruct c as [[] [] [] [] [] [] [] []]; vm_compute; reflexivity.
Qed.

Lemma lower_idempotent (s : string) : lower (lower s) = lower s.
Proof.
  induction s as [| c s IH]; cbn [lower].
  - reflexivity.
  - rewrite lower_ascii_idempotent, IH. reflexivity.
Qed.

(** X5.  [preprocess_query] does not see the case of its input: the
    lowercased query is normalized like the query itself, and so are any
    two queries that differ in case only. *)
Theorem preprocess_query_ignores_case (query query' : string) :
  lower query = lower query' ->
  preprocess_query word_tokenize lemmatize stop_words query
  = preprocess_query word_tokenize lemmatize stop_words query'
  /\ preprocess_query word_tokenize lemmatize stop_words (lower query)
     = preprocess_query word_tokenize lemmatize stop_words query.
Proof.
  intros Hsame. unfold preprocess_query, processed_tokens.
  rewrite lower_idempotent, Hsame. split; reflexivity.
Qed.

Variable list_models : outcome unit.
Variable generate_content : string -> string -> outcome string.

(** X6.  [generate_answer_with_gemini] never raises.  It returns the
    model's text when both the listing of the models and the generation
    return, and the fixed error sentence otherwise; in particular a
    failure of the listing, which only feeds a debugging printout, costs
    the answer even when the model would have answered. *)
Theorem generate_answer_with_gemini_always_answers
    (query : string) (retrieved_chunks : list string) :
  exists answer,
    generate_answer_with_gemini list_models generate_content
      query retrieved_chunks = Returns answer
    /\ (forall u text,
          list_models = Returns u ->
          generate_content "gemini-2.0-flash"
            (gemini_prompt query retrieved_chunks) = Returns text ->
          answer = text)
    /\ ((exists e, list_models = Raises e) -> answer = gemini_error)
    /\ ((exists e, generate_content "gemini-2.0-flash"
                     (gemini_prompt query retrieved_chunks) = Raises e) ->
        answer = gemini_error).
Proof.
  unfold generate_answer_with_gemini.
  destruct list_models as [u | e]; cbn.
  - destruct (generate_content _ _) as [text | e]; cbn.
    + exists text. split; [reflexivity |]. split; [| split].
      * intros u' text' _ [= <-]. reflexivity.
      * intros [e He]. discriminate He.
      * intros [e He]. discriminate He.
    + exists gemini_error. split; [reflexivity |]. split; [| split].
      * intros u' text' _ Hcontra. discriminate Hcontra.
      * reflexivity.
      * reflexivity.
  - exists gemini_error. split; [reflexivity |]. split; [| split].
    + intros u' text' Hcontra. discriminate Hcontra.
    + reflexivity.
    + reflexivity.
Qed.

End GeminiFinalMore.

Lemma perform_search_queries_384_dimensions_witness :
  GeminiFinal.perform_search
    Scenario.word_tokenize Scenario.lemmatize Scenario.stop_words
    Scenario.encode3 Scenario.open_ok Scenario.search_one
    "What is gradient descent?"
  = GeminiFinal.perform_search
      Scenario.word_tokenize Scenario.lemmatize Scenario.stop_words
      Scenario.encode3 Scenario.open_ok Scenario.search_any_width
      "What is gradient descent?".
Proof.
  apply perform_search_queries_384_dimensions.
  intros v Hv. unfold Scenario.search_any_width. rewrite Hv. reflexivity.
Defined.


Lemma preprocess_query_ignores_case_witness :
  GeminiFinal.preprocess_query
    Scenario.word_tokenize Scenario.lemmatize Scenario.stop_words
    "GRADIENT Descent"
  = GeminiFinal.preprocess_query
      Scenario.word_tokenize Scenario.lemmatize Scenario.stop_words
      "gradient descent"
  /\ GeminiFinal.preprocess_query
       Scenario.word_tokenize Scenario.lemmatize Scenario.stop_words
       (lower "GRADIENT Descent")
     = GeminiFinal.preprocess_query
         Scenario.word_tokenize Scenario.lemmatize Scenario.stop_words
         "GRADIENT Descent".
Proof.
  apply preprocess_query_ignores_case. vm_compute. reflexivity.
Defined.

(** ** The query form *)

Lemma nth_error_enumerate_from {A : Type} (l : list A) (a i : nat) :
  nth_error (combine (seq a (length l)) l) i
  = option_map (fun x => (a + i, x)) (nth_error l i).
Proof.
  revert a i. induction l as [| x l IH]; intros a i; cbn.
  - destruct i; reflexivity.
  - destruct i as [| i]; cbn.
    + rewrite Nat.add_0_r. reflexivity.
    + rewrite IH. destruct (nth_error l i); cbn; [| reflexivity].
      repeat f_equal. lia.
Qed.

Lemma nth_error_enumerate {A : Type} (l : list A) (i : nat) :
  nth_error (enumerate l) i = option_map (fun x => (i, x)) (nth_error l i).
Proof. unfold enumerate. apply nth_error_enumerate_from. Qed.

Section FormFacts.

Import GeminiFinal.

Variable word_tokenize : string -> list string.
Variable lemmatize : string -> string.
Variable stop_words : gset string.
Variable encode : string -> outcome (list py_float).
Variable open_collection : string -> outcome unit.
Variable collection_search : list py_float -> Z -> outcome (list hit).
Variable list_models : outcome unit.
Variable generate_content : string -> string -> outcome string.
Variable format_4f : py_float -> string.

Lemma insert_rows_appends (rows : list (nat * (string * py_float))) (g : gui) :
  insert_rows format_4f rows g
  = {| query_input := query_input g;
       result_tree :=
         result_tree g
         ++ map (fun '(idx, (description, distance)) =>
                   {| rank := Z.of_nat idx + 1;
                      row_description := description;
                      row_distance := format_4f distance |}) rows;
       llm_output_text := llm_output_text g |}.
Proof.
  revert g. induction rows as [| [idx [description distance]] rest IH];
    intros g; cbn [insert_rows map].
  - rewrite app_nil_r. destruct g; reflexivity.
  - rewrite IH. cbn. rewrite <- app_assoc. reflexivity.
Qed.

Lemma generate_answer_with_gemini_returns (query : string)
    (chunks : list string) :
  exists answer,
    generate_answer_with_gemini list_models generate_content query chunks
    = Returns answer.
Proof.
  unfold generate_answer_with_gemini.
  destruct list_models; cbn; [| eauto].
  destruct (generate_content _ _); cbn; eauto.
Qed.

(** X7.  A submitted query that is not blank and whose search returns
    replaces the form's content: the table holds exactly one row per hit,
    in the order of the hits and ranked from 1, the old rows are gone, and
    the answer field holds the new answer and nothing of the old one.  A
    search that raises leaves table and answer as they were. *)
Theorem submit_query_replaces_the_results (g : gui) :
  strips_to_empty (query_input g) = false ->
  let run :=
    submit_query word_tokenize lemmatize stop_words encode open_collection
      collection_search list_models generate_content format_4f g in
  match perform_search word_tokenize lemmatize stop_words encode
          open_collection collection_search (query_input g) with
  | Raises e => run = (Raises e, g)
  | Returns results =>
      exists answer,
        generate_answer_with_gemini list_models generate_content
          (query_input g) (map fst results) = Returns answer
        /\ fst run = Returns tt
        /\ query_input (snd run) = query_input g
        /\ llm_output_text (snd run) = answer
        /\ length (result_tree (snd run)) = length results
        /\ forall i description distance,
             nth_error results i = Some (description, distance) ->
             nth_error (result_tree (snd run)) i
             = Some {| rank := Z.of_nat i + 1;
                       row_description := description;
                       row_distance := format_4f distance |}
  end.
Proof.
  intros Hquery run. unfold run, submit_query. rewrite Hquery.
  destruct (perform_search _ _ _ _ _ _ _) as [results | e]; [| reflexivity].
  destruct (generate_answer_with_gemini_returns (query_input g)
              (map fst results)) as [answer Hanswer].
  exists answer. rewrite Hanswer. rewrite insert_rows_appends. cbn.
  split; [reflexivity |]. split; [reflexivity |]. split; [reflexivity |].
  split; [reflexivity |]. split.
  - rewrite length_map. unfold enumerate.
    rewrite length_combine, length_seq. lia.
  - intros i description distance Hnth.
    rewrite nth_error_map, nth_error_enumerate, Hnth. reflexivity.
Qed.

(** X8.  When Milvus is down (opening the collection or the search raises
    a [MilvusException]) and the embedding model works, a submitted query
    still ends normally: the table is emptied and the language model is
    asked all the same, with a prompt that has no chunk in it. *)
Theorem submit_query_with_index_down (g : gui) (msg : string) :
  strips_to_empty (query_input g) = false ->
  (exists raw,
     encode (preprocess_query word_tokenize lemmatize stop_words (query_input g))
     = Returns raw
     /\ (open_collection collection_name = Raises (MilvusException msg)
         \/ (exists u, open_collection collection_name = Returns u)
            /\ collection_search (pad_or_truncate raw 384) 5%Z
               = Raises (MilvusException msg))) ->
  exists answer,
    generate_answer_with_gemini list_models generate_content
      (query_input g) [] = Returns answer
    /\ submit_query word_tokenize lemmatize stop_words encode open_collection
         collection_search list_models generate_content format_4f g
       = (Returns tt,
          {| query_input := query_input g;
             result_tree := [];
             llm_output_text := answer |}).
Proof.
  intros Hquery (raw & Henc & Hdown).
  assert (Hsearch :
            perform_search word_tokenize lemmatize stop_words encode
              open_collection collection_search (query_input g) = Returns []).
  { unfold perform_search, get_embedding. rewrite Henc. cbn.
    destruct Hdown as [Hopen | [[u Hopen] Hsearch]].
    - rewrite Hopen. reflexivity.
    - rewrite Hopen. cbn. rewrite Hsearch. reflexivity. }
  destruct (generate_answer_with_gemini_returns (query_input g) [])
    as [answer Hanswer].
  exists answer. split; [exact Hanswer |].
  unfold submit_query. rewrite Hquery, Hsearch. cbn [map enumerate].
  rewrite Hanswer. reflexivity.
Qed.

End FormFacts.

Lemma submit_query_replaces_the_results_witness :
  let run :=
    GeminiFinal.submit_query
      Scenario.word_tokenize Scenario.lemmatize Scenario.stop_words
      Scenario.encode3 Scenario.open_ok Scenario.search_one
      Scenario.models_ok Scenario.gemini_answers Scenario.four_decimals
      (Scenario.stale_form "What is gradient descent?") in
  fst run = Returns tt
  /\ length (GeminiFinal.result_tree (snd run)) = 1
  /\ nth_error (GeminiFinal.result_tree (snd run)) 0
     = Some (GeminiFinal.Row 1 "gradient descent" "1.0000").
Proof.
  pose proof (submit_query_replaces_the_results
                Scenario.word_tokenize Scenario.lemmatize Scenario.stop_words
                Scenario.encode3 Scenario.open_ok Scenario.search_one
                Scenario.models_ok Scenario.gemini_answers
                Scenario.four_decimals
                (Scenario.stale_form "What is gradient descent?")
                eq_refl) as H.
  cbv zeta in H.
  assert (Hsearch :
            GeminiFinal.perform_search
              Scenario.word_tokenize Scenario.lemmatize Scenario.stop_words
              Scenario.encode3 Scenario.open_ok Scenario.search_one
              (GeminiFinal.query_input
                 (Scenario.stale_form "What is gradient descent?"))
            = Returns [("gradient descent", Scenario.one)])
    by (vm_compute; reflexivity).
  rewrite Hsearch in H.
  destruct H as (answer & _ & Hfst & _ & _ & Hlen & Hrows).
  cbv zeta. split; [exact Hfst |]. split; [exact Hlen |].
  exact (Hrows 0 "gradient descent" Scenario.one eq_refl).
Defined.

Lemma submit_query_with_index_down_witness :
  exists answer,
    GeminiFinal.submit_query
      Scenario.word_tokenize Scenario.lemmatize Scenario.stop_words
      Scenario.encode3 Scenario.open_ok Scenario.search_timeout
      Scenario.models_ok Scenario.gemini_answers Scenario.four_decimals
      (Scenario.stale_form "What is gradient descent?")
    = (Returns tt,
       {| GeminiFinal.query_input := "What is gradient descent?";
          GeminiFinal.result_tree := [];
          GeminiFinal.llm_output_text := answer |}).
Proof.
  destruct (submit_query_with_index_down
              Scenario.word_tokenize Scenario.lemmatize Scenario.stop_words
              Scenario.encode3 Scenario.open_ok Scenario.search_timeout
              Scenario.models_ok Scenario.gemini_answers
              Scenario.four_decimals
              (Scenario.stale_form "What is gradient descent?")
              "search timed out" eq_refl)
    as (answer & _ & Hrun).
  - exists [Scenario.one; Scenario.one; Scenario.one].
    split; [reflexivity |]. right. split; [exists tt; reflexivity | reflexivity].
  - exists answer. exact Hrun.
Defined.

(** * Further properties of [multimodal-rag-system.py] *)

(** ** Lists built by comprehensions *)

Lemma omap_list_returns {A B : Type} (f : A -> outcome B) (l : list A)
    (ys : list B) :
  omap_list f l = Returns ys -> Forall2 (fun x y => f x = Returns y) l ys.
Proof.
  revert ys. induction l as [| x l IH]; intros ys; cbn.
  - intros [= <-]. constructor.
  - destruct (f x) as [y | e] eqn:Hx; cbn; [| discriminate].
    destruct (omap_list f l) as [ys' | e]; cbn; [| discriminate].
    intros [= <-]. constructor; auto.
Qed.

Lemma omap_list_raises {A B : Type} (f : A -> outcome B) (l : list A)
    (e : exn) :
  omap_list f l = Raises e -> Exists (fun x => f x = Raises e) l.
Proof.
  induction l as [| x l IH]; cbn; [discriminate |].
  destruct (f x) as [y | e'] eqn:Hx; cbn.
  - destruct (omap_list f l) as [ys' | e'']; cbn; [discriminate |].
    intros [= <-]. apply Exists_cons_tl. apply IH. reflexivity.
  - intros [= <-]. apply Exists_cons_hd. exact Hx.
Qed.

Lemma omap_list_stops {A B : Type} (f : A -> outcome B) (l : list A) :
  Exists (fun x => exists e, f x = Raises e) l ->
  exists e, omap_list f l = Raises e.
Proof.
  induction 1 as [x l [e Hx] | x l Hl [e IH]]; cbn.
  - rewrite Hx. cbn. eauto.
  - destruct (f x) as [y | e']; cbn; [| eauto].
    rewrite IH. cbn. eauto.
Qed.

Lemma map_snd_enumerate_from {A : Type} (l : list A) (a : nat) :
  map snd (combine (seq a (length l)) l) = l.
Proof.
  revert a. induction l as [| x l IH]; intros a; cbn; [reflexivity |].
  rewrite IH. reflexivity.
Qed.

Lemma map_snd_enumerate {A : Type} (l : list A) : map snd (enumerate l) = l.
Proof. apply map_snd_enumerate_from. Qed.

Lemma Forall_enumerate {A : Type} (P : A -> Prop) (l : list A) :
  Forall (fun p => P (snd p)) (enumerate l) <-> Forall P l.
Proof.
  rewrite <- (map_snd_enumerate l) at 2. rewrite List.Forall_map. reflexivity.
Qed.

Lemma Exists_enumerate {A : Type} (P : A -> Prop) (l : list A) :
  Exists (fun p => P (snd p)) (enumerate l) <-> Exists P l.
Proof.
  rewrite <- (map_snd_enumerate l) at 2. rewrite List.Exists_map. reflexivity.
Qed.

(** A joined list starts as its first part does. *)
Lemma join_head (sep : string) (c : ascii) (s : string) (parts : list string) :
  exists rest, join sep (String c s :: parts) = String c rest.
Proof.
  unfold join. destruct parts as [| part parts].
  - exists s. reflexivity.
  - exists (s ++ sep ++ String.concat sep (part :: parts))%string. reflexivity.
Qed.

(** ** The agent's tools *)

Section ToolFacts.

Import Rag.

Variable W : world.

(** X9.  [text_search_tool] never raises, makes the calls of one text
    search and no others, and answers ["No relevant text information
    found."] exactly when that search gave nothing. *)
Theorem text_search_tool_sentinel_iff_nothing_found
    (query : string) (h : history) :
  exists results answer h',
    search_text_chunks W query 5 h = (Returns results, h')
    /\ text_search_tool W query h = (Returns answer, h')
    /\ (answer = no_text_found <-> results = []).
Proof.
  destruct (search_text_chunks_total W query 5 h) as (results & h' & Hsearch).
  unfold text_search_tool, bind. rewrite Hsearch.
  destruct results as [| r results].
  - exists [], no_text_found, h'. repeat split; reflexivity.
  - unfold enumerate. cbn [length seq combine map].
    match goal with
    | |- context [join nl (?x :: ?xs)] =>
        assert (Hrest : exists rest, join nl (x :: xs) = String "T" rest)
          by (apply join_head)
    end.
    destruct Hrest as [rest Hrest].
    eexists _, _, h'. split; [reflexivity |]. split; [reflexivity |].
    rewrite Hrest. unfold no_text_found. split; discriminate.
Qed.

(** The line of one image in the answer of [image_search_tool]. *)
Lemma image_line_returns (i : nat) (img : ImageMatch.t) (line : string) :
  (do related <- slice_100 (ImageMatch.text img) ;
   do score <- format_2f W (ImageMatch.similarity_score img) ;
   Returns
     ("Image " ++ str_int (Z.of_nat (i + 1)) ++ ":" ++ nl
      ++ "From " ++ py_str W (ImageMatch.lecture_code img) ++ ", "
      ++ "Lecture " ++ py_str W (ImageMatch.lecture_number img) ++ ", "
      ++ "Page " ++ py_str W (ImageMatch.page_number img) ++ " - "
      ++ "Related to: " ++ related ++ "..." ++ nl
      ++ "Similarity score: " ++ score ++ nl)%string)%outcome
  = Returns line ->
  is_str (ImageMatch.text img) = true
  /\ (exists score, format_2f W (ImageMatch.similarity_score img) = Returns score)
  /\ exists rest, line = String "I" rest.
Proof.
  destruct (ImageMatch.text img); cbn; try discriminate.
  destruct (format_2f W _) as [score | e]; cbn; [| discriminate].
  intros [= <-]. split; [reflexivity |]. split; [eauto |]. eauto.
Qed.

Lemma image_line_raises (i : nat) (img : ImageMatch.t) (e : exn) :
  (do related <- slice_100 (ImageMatch.text img) ;
   do score <- format_2f W (ImageMatch.similarity_score img) ;
   Returns
     ("Image " ++ str_int (Z.of_nat (i + 1)) ++ ":" ++ nl
      ++ "From " ++ py_str W (ImageMatch.lecture_code img) ++ ", "
      ++ "Lecture " ++ py_str W (ImageMatch.lecture_number img) ++ ", "
      ++ "Page " ++ py_str W (ImageMatch.page_number img) ++ " - "
      ++ "Related to: " ++ related ++ "..." ++ nl
      ++ "Similarity score: " ++ score ++ nl)%string)%outcome
  = Raises e ->
  is_str (ImageMatch.text img) = false
  \/ format_2f W (ImageMatch.similarity_score img) = Raises e.
Proof.
  destruct (ImageMatch.text img); cbn; auto.
  destruct (format_2f W _) as [score | e']; cbn; [discriminate |].
  intros [= <-]. auto.
Qed.

(** X10.  [image_search_tool] makes the calls of one image search and no
    others.  It returns exactly when every image found has a caption
    that is a string and a score that can be formatted, and then its
    answer is ["No relevant images found."] exactly when the search gave
    nothing; otherwise it raises, which [text_search_tool] never does. *)
Theorem image_search_tool_outcomes (query : string) (h : history) :
  exists results h',
    search_images W query 3 h = (Returns results, h')
    /\ snd (image_search_tool W query h) = h'
    /\ match fst (image_search_tool W query h) with
       | Returns answer =>
           (answer = no_images_found <-> results = [])
           /\ Forall (fun img =>
                        is_str (ImageMatch.text img) = true
                        /\ exists score,
                             format_2f W (ImageMatch.similarity_score img)
                             = Returns score) results
       | Raises e =>
           Exists (fun img =>
                     is_str (ImageMatch.text img) = false
                     \/ format_2f W (ImageMatch.similarity_score img)
                        = Raises e) results
       end.
Proof.
  assert (exists results h', search_images W query 3 h = (Returns results, h'))
    as (results & h' & Hsearch)
    by (rewrite search_images_unfold; eauto).
  exists results, h'. split; [exact Hsearch |].
  unfold image_search_tool, bind. rewrite Hsearch.
  destruct results as [| r rest].
  - cbn. repeat split; try reflexivity. constructor.
  - unfold lift.
    match goal with
    | |- context [omap_list ?f ?l] =>
        destruct (omap_list f l) as [lines | e] eqn:Hlines
    end.
    + cbn. split; [reflexivity |].
      apply omap_list_returns in Hlines.
      assert (Hall : Forall (fun p : nat * ImageMatch.t =>
                               is_str (ImageMatch.text (snd p)) = true
                               /\ exists score,
                                    format_2f W (ImageMatch.similarity_score (snd p))
                                    = Returns score) (enumerate (r :: rest))).
      { clear - Hlines. induction Hlines as [| [i img] line l lines Hline _ IH];
          constructor; [| exact IH].
        apply image_line_returns in Hline. cbn. tauto. }
      split; [| apply (proj1 (Forall_enumerate
                         (fun img => is_str (ImageMatch.text img) = true
                                     /\ exists score,
                                          format_2f W (ImageMatch.similarity_score img)
                                          = Returns score) (r :: rest)));
                exact Hall].
      unfold enumerate in Hlines. cbn [length seq combine] in Hlines.
      inversion Hlines as [| p line l lines' Hline Hrest]; subst.
      apply image_line_returns in Hline.
      destruct Hline as (_ & _ & tail & ->).
      destruct (join_head nl "I" tail lines') as [tail' ->].
      unfold no_images_found. split; discriminate.
    + cbn. split; [reflexivity |]. apply omap_list_raises in Hlines.
      apply (proj1 (Exists_enumerate
               (fun img => is_str (ImageMatch.text img) = false
                           \/ format_2f W (ImageMatch.similarity_score img)
                              = Raises e) (r :: rest))).
      clear - Hlines. induction Hlines as [[i img] l Hline | p l _ IH].
      * apply Exists_cons_hd. apply image_line_raises in Hline. exact Hline.
      * apply Exists_cons_tl. exact IH.
Qed.

End ToolFacts.

(** ** Images and the answer *)

Section ImageFacts.

Import Rag.

Variable W : world.

Lemma process_match_alone (match_ : gmap string pyval) :
  match match_ !! "image" with
  | Some (PImage img) =>
      match save_png W img with
      | Returns data =>
          process_match W match_ []
          = Returns [image_result (b64encode W data) match_]
      | Raises e => process_match W match_ [] = Raises e
      end
  | _ =>
      process_match W match_ [] = Returns []
      \/ exists e, process_match W match_ [] = Raises e
  end.
Proof.
  unfold process_match, dict_get.
  destruct (match_ !! "image") as [v |]; cbn; [| auto].
  destruct v as [| n | x | s | img]; cbn; auto.
  - destruct (negb (n =? 0)%Z); cbn; eauto.
  - destruct x; cbn; eauto.
  - destruct s; cbn; eauto.
  - destruct (save_png W img); reflexivity.
Qed.

(** X11.  The loop of [search_images] is a filter: the result holds, in
    the order of the store's answer, one entry for each match that has
    an image which can be saved as PNG, and nothing for the others; a
    match that fails does not disturb the matches after it.  So there
    are never more results than matches. *)
Theorem search_images_keeps_the_order_of_the_store
    (query : string) (top_k : Z) (h : history)
    (matches : list (gmap string pyval)) :
  search_images_by_text W h query top_k "combined_embeddings_7" "pdf_images_7"
  = Returns matches ->
  let entry (match_ : gmap string pyval) : option ImageMatch.t :=
    match match_ !! "image" with
    | Some (PImage img) =>
        match save_png W img with
        | Returns data => Some (image_result (b64encode W data) match_)
        | Raises _ => None
        end
    | _ => None
    end in
  exists results h',
    search_images W query top_k h = (Returns results, h')
    /\ results = omap entry matches
    /\ length results <= length matches.
Proof.
  intros Hmatches entry.
  rewrite search_images_unfold, Hmatches.
  eexists _, _. split; [reflexivity |].
  assert (Hfilter : format_results W matches [] = omap entry matches).
  { clear Hmatches. induction matches as [| match_ rest IH]; [reflexivity |].
    cbn [format_results]. pose proof (process_match_alone match_) as Hone.
    change (omap entry (match_ :: rest))
      with (match entry match_ with
            | Some r => r :: omap entry rest
            | None => omap entry rest
            end).
    unfold entry at 1.
    destruct (match_ !! "image") as [[| n | x | s | img] |];
      try (destruct Hone as [-> | [e ->]]; exact IH).
    destruct (save_png W img) as [data | e]; rewrite Hone; [| exact IH].
    rewrite format_results_acc, IH. reflexivity. }
  split; [exact Hfilter |].
  rewrite Hfilter. clear. induction matches as [| match_ rest IH]; [cbn; lia |].
  change (omap entry (match_ :: rest))
    with (match entry match_ with
          | Some r => r :: omap entry rest
          | None => omap entry rest
          end).
  destruct (entry match_); cbn; lia.
Qed.

Lemma image_context_of_raises (imgs : list ImageMatch.t) :
  Exists (fun img => is_str (ImageMatch.text img) = false) imgs ->
  exists e, image_context_of W imgs = Raises e.
Proof.
  intros Hbad. unfold image_context_of.
  destruct imgs as [| img imgs]; [inversion Hbad |].
  match goal with
  | |- context [omap_list ?f ?l] =>
      destruct (omap_list_stops f l) as [e He]; [| rewrite He; cbn; eauto]
  end.
  apply (proj2 (Exists_enumerate
                  (fun img => is_str (ImageMatch.text img) = false)
                  (img :: imgs))) in Hbad.
  clear - Hbad. induction Hbad as [[i x] l Hx | p l _ IH].
  - apply Exists_cons_hd. cbn in Hx.
    destruct (ImageMatch.text x); cbn; try discriminate; eauto.
  - apply Exists_cons_tl. exact IH.
Qed.

(** X12.  One image whose caption is not a string costs the whole
    answer: although the model passed its health check and both searches
    returned, [generate_combined_response] gives the apology of its outer
    handler without the text found and without any image, and the model
    is never asked for an answer (the history ends with the searches). *)
Theorem non_string_caption_discards_the_answer
    (query : string) (h h2 h3 : history)
    (txts : list TextMatch.t) (imgs : list ImageMatch.t) :
  get_llm W h = Returns tt ->
  (exists test_response,
     llm_invoke W (h ++ [EvGetLlm]) llm_test_prompt = Returns test_response) ->
  search_text_chunks W query 5
    ((h ++ [EvGetLlm]) ++ [EvLlmInvoke llm_test_prompt])
  = (Returns txts, h2) ->
  search_images W query 3 h2 = (Returns imgs, h3) ->
  Exists (fun img => is_str (ImageMatch.text img) = false) imgs ->
  generate_combined_response W query h = (Returns (fallback_answer query), h3).
Proof.
  intros Hllm [test Htest] Htxt Himg Hbad.
  destruct (image_context_of_raises imgs Hbad) as [e Hctx].
  unfold generate_combined_response.
  unfold try_except, bind, call, lift, raise, ret.
  rewrite Hllm, Htest, Htxt, Himg, Hctx. reflexivity.
Qed.

End ImageFacts.

Lemma search_images_keeps_the_order_of_the_store_witness :
  exists h',
    Rag.search_images Scenario.lecture3_up "What is gradient descent?" 3 []
    = (Returns [Rag.image_result "PNG" Scenario.match3], h').
Proof.
  destruct (search_images_keeps_the_order_of_the_store
              Scenario.lecture3_up "What is gradient descent?" 3 []
              [Scenario.orphan_match; Scenario.match3] eq_refl)
    as (results & h' & Hsearch & Hresults & _).
  exists h'. rewrite Hsearch, Hresults. vm_compute. reflexivity.
Defined.

Lemma non_string_caption_discards_the_answer_witness :
  Rag.generate_combined_response Scenario.captionless_store
    "What is gradient descent?" []
  = (Returns (Rag.fallback_answer "What is gradient descent?"),
     [Rag.EvGetLlm;
      Rag.EvLlmInvoke Rag.llm_test_prompt;
      Rag.EvHuggingFaceEmbeddings "all-MiniLM-L6-v2";
      Rag.EvMilvus "combined_text_collection";
      Rag.EvSimilaritySearch "What is gradient descent?" 5;
      Rag.EvSearchImagesByText "What is gradient descent?" 3
        "combined_embeddings_7" "pdf_images_7"]).
Proof.
  apply (non_string_caption_discards_the_answer Scenario.captionless_store
           "What is gradient descent?" []
           [Rag.EvGetLlm;
            Rag.EvLlmInvoke Rag.llm_test_prompt;
            Rag.EvHuggingFaceEmbeddings "all-MiniLM-L6-v2";
            Rag.EvMilvus "combined_text_collection";
            Rag.EvSimilaritySearch "What is gradient descent?" 5]
           _
           [Rag.text_result Scenario.chunk3]
           [Rag.image_result "PNG" Scenario.captionless_match]).
  - reflexivity.
  - eexists. reflexivity.
  - vm_compute. reflexivity.
  - vm_compute. reflexivity.
  - apply Exists_cons_hd. vm_compute. reflexivity.
Defined.

(** ** The chat *)

Lemma string_append_nil_r (s : string) : (s ++ "")%string = s.
Proof.
  induction s as [| c s IH]; [reflexivity |].
  change (String c (s ++ "")%string = String c s). rewrite IH. reflexivity.
Qed.

Section ChatFacts.

Import Rag.

(** The line that one message adds to the chat history. *)
Lemma chat_fold_acc (msgs : list chat_message) (acc : string) :
  fold_left
    (fun chat_history msg =>
       match msg with
       | SystemMessage _ => chat_history
       | UserMessage content => chat_history ++ "User: " ++ content ++ nl
       | AssistantAnswer content =>
           chat_history ++ "Assistant: " ++ answer_text content ++ nl
       | AssistantText content => chat_history ++ "Assistant: " ++ content ++ nl
       end)%string
    msgs acc
  = (acc ++ fold_left
       (fun chat_history msg =>
          match msg with
          | SystemMessage _ => chat_history
          | UserMessage content => chat_history ++ "User: " ++ content ++ nl
          | AssistantAnswer content =>
              chat_history ++ "Assistant: " ++ answer_text content ++ nl
          | AssistantText content => chat_history ++ "Assistant: " ++ content ++ nl
          end)
       msgs "")%string.
Proof.
  revert acc. induction msgs as [| msg msgs IH]; intros acc; cbn [fold_left].
  - rewrite string_append_nil_r. reflexivity.
  - destruct msg as [content | content | content | content];
      [apply IH | | |];
      rewrite IH;
      match goal with
      | |- _ = (acc ++ fold_left ?f msgs ?line)%string =>
          rewrite (IH line), (string_append_assoc acc line)
      end;
      reflexivity.
Qed.

(** X13.  [get_chat_history] reads the messages one by one: the history
    of two lists of messages in a row is the history of the first
    followed by the history of the second, whatever the settings of the
    session are; and a system message adds nothing to it. *)
Theorem get_chat_history_app (before after : list chat_message)
    (s s1 s2 i i1 i2 : bool) (content : string) :
  get_chat_history (Session (before ++ after) s i)
  = (get_chat_history (Session before s1 i1)
     ++ get_chat_history (Session after s2 i2))%string
  /\ get_chat_history (Session (before ++ SystemMessage content :: after) s i)
     = get_chat_history (Session (before ++ after) s i).
Proof.
  unfold get_chat_history. cbn [messages].
  rewrite !fold_left_app. cbn [fold_left].
  split; [| reflexivity].
  apply chat_fold_acc.
Qed.

Variable W : world.

Lemma text_search_tool_calls (query : string) (h : history) :
  exists answer calls,
    text_search_tool W query h = (Returns answer, h ++ calls)
    /\ Forall (fun ev => is_retrieval_call ev = true) calls
    /\ count_events starts_text_search calls = 1
    /\ count_events starts_image_search calls = 0.
Proof.
  destruct (search_text_chunks_total W query 5 h) as (results & h' & Hsearch).
  destruct (search_text_chunks_calls W query 5 h h' results Hsearch)
    as (calls & -> & Hcalls).
  unfold text_search_tool, bind. rewrite Hsearch.
  destruct results; eexists _, calls; (split; [reflexivity | exact Hcalls]).
Qed.

Lemma show_new_images_as_in_history (st : session_state)
    (imgs : list ImageMatch.t) :
  show_new_images W st imgs = show_images W st imgs.
Proof.
  unfold show_new_images, show_images.
  destruct imgs; [reflexivity |]. destruct (include_images st); reflexivity.
Qed.

Lemma generate_keeps_the_query (query : string) (h : history) :
  exists response h',
    generate_combined_response W query h = (Returns response, h')
    /\ original_query response = query.
Proof.
  destruct (generate_returns W query h)
    as (r & h' & Hgen & [-> | (text & txts & imgs & ictx & h3 & _ & ->)]);
    exists r || idtac; eauto.
Qed.

(** X14.  A chat turn with a prompt that is not empty always ends
    normally.  It adds to the session exactly the prompt and the
    dictionary that [generate_combined_response] returned for it, in
    this order (writing [original_query] into the dictionary changes
    nothing: it already holds the prompt), it keeps the settings, and
    the chat history grows by the two lines of the exchange. *)
Theorem chat_input_records_the_exchange
    (st : session_state) (prompt : string) (h : history) :
  prompt <> "" ->
  exists response h1 st' shown h',
    generate_combined_response W prompt h = (Returns response, h1)
    /\ chat_input W st prompt h = (Returns (st', shown), h')
    /\ messages st'
       = messages st ++ [UserMessage prompt; AssistantAnswer response]
    /\ show_sources st' = show_sources st
    /\ include_images st' = include_images st
    /\ get_chat_history st'
       = (get_chat_history st
          ++ "User: " ++ prompt ++ nl
          ++ "Assistant: " ++ answer_text response ++ nl)%string.
Proof.
  intros Hprompt.
  destruct (generate_keeps_the_query prompt h) as (response & h1 & Hgen & Hquery).
  assert (Hsame : set_original_query response prompt = response).
  { destruct response. cbn in Hquery. subst. reflexivity. }
  exists response, h1.
  unfold chat_input. destruct prompt as [| c prompt]; [congruence |].
  unfold bind. rewrite Hgen, Hsame.
  assert (Hsources :
            exists sources h',
              (if show_sources st
               then show_text_sources W (String c prompt)
               else ret []) h1 = (Returns sources, h')).
  { destruct (show_sources st); [| cbn; eauto].
    destruct (text_search_tool_calls (String c prompt) h1)
      as (answer & calls & Htool & _).
    unfold show_text_sources, bind. rewrite Htool. cbn. eauto. }
  destruct Hsources as (sources & h' & ->).
  eexists _, _, h'. split; [reflexivity |]. split; [reflexivity |].
  cbn [messages show_sources include_images].
  split; [rewrite <- app_assoc; reflexivity |].
  split; [reflexivity |]. split; [reflexivity |].
  unfold get_chat_history. cbn [messages].
  rewrite !fold_left_app. cbn [fold_left].
  rewrite <- !string_append_assoc. reflexivity.
Qed.

(** X15.  What a chat turn puts on the page is what the history loop
    puts there for the two new messages on every later run: the branch
    that warns about missing images is never taken.  With the text
    sources switched off, showing them again costs no call. *)
Theorem chat_input_shows_what_the_history_shows
    (st st' : session_state) (prompt : string) (h h' : history)
    (shown : list widget) :
  prompt <> "" ->
  show_sources st = false ->
  chat_input W st prompt h = (Returns (st', shown), h') ->
  exists response,
    messages st' = messages st ++ [UserMessage prompt; AssistantAnswer response]
    /\ forall h0,
         show_history W st' [UserMessage prompt; AssistantAnswer response] h0
         = (Returns shown, h0).
Proof.
  intros Hprompt Hoff.
  destruct (generate_keeps_the_query prompt h) as (response & h1 & Hgen & Hquery).
  unfold chat_input. destruct prompt as [| c prompt]; [congruence |].
  unfold bind. rewrite Hgen, Hoff. cbn.
  intros [= <- <- <-]. eexists. split; [rewrite <- app_assoc; reflexivity |].
  intros h0. cbn. rewrite ?Hoff. cbn.
  rewrite show_new_images_as_in_history. unfold show_images. cbn.
  rewrite !app_nil_r. reflexivity.
Qed.

(** X16.  The page shows at most three images of an answer, one per
    column: the first [min 3 n] of the [n] images, in their order, each
    under the caption ["Image k"] with [k] counted from 1. *)
Theorem image_columns_shows_the_first_three (imgs : list ImageMatch.t) :
  exists columns,
    image_columns W imgs = st_columns columns
    /\ length columns = Nat.min 3 (length imgs)
    /\ forall i img,
         i < 3 ->
         nth_error imgs i = Some img ->
         exists details,
           nth_error columns i
           = Some (st_image
                     ("data:image/png;base64," ++ ImageMatch.image_data img)%string
                     ("Image " ++ str_int (Z.of_nat i + 1))%string
                   :: details).
Proof.
  unfold image_columns. eexists. split; [reflexivity |]. split.
  - rewrite length_map. unfold enumerate.
    rewrite length_combine, length_seq, length_firstn. lia.
  - intros i img Hi Hnth.
    rewrite nth_error_map, nth_error_enumerate, nth_error_firstn, Hnth.
    assert (Hlen : i < length imgs)
      by (apply nth_error_Some; rewrite Hnth; discriminate).
    destruct (Nat.ltb_spec i (Nat.min 3 (length imgs))) as [_ | Hge]; [| lia].
    cbn. unfold image_column. eauto.
Qed.

Lemma show_message_calls (st : session_state) (msg : chat_message)
    (h : history) :
  exists shown calls,
    show_message W st msg h = (Returns shown, h ++ calls)
    /\ Forall (fun ev => is_retrieval_call ev = true) calls
    /\ count_events starts_text_search calls
       = (if show_sources st && is_assistant_answer msg then 1 else 0)
    /\ count_events starts_image_search calls = 0.
Proof.
  destruct msg as [content | content | content | content]; cbn;
    rewrite ?andb_false_r;
    try (unfold ret; eexists _, []; rewrite (app_nil_r h);
         repeat split; constructor).
  rewrite andb_true_r. unfold bind.
  destruct (show_sources st).
  - destruct (text_search_tool_calls (original_query content) h)
      as (answer & calls & Htool & Hcalls).
    unfold show_text_sources, bind. rewrite Htool. cbn.
    eexists _, calls. split; [reflexivity | exact Hcalls].
  - cbn. eexists _, []. rewrite (app_nil_r h). repeat split; constructor.
Qed.

(** X17.  Showing the history never raises and never asks the model or
    the image store.  With the text sources switched on it runs one text
    search for every stored answer of the assistant, on every run of the
    page; with the sources switched off it makes no call at all. *)
Theorem show_history_searches_once_per_answer
    (st : session_state) (msgs : list chat_message) (h : history) :
  exists shown calls,
    show_history W st msgs h = (Returns shown, h ++ calls)
    /\ Forall (fun ev => is_retrieval_call ev = true) calls
    /\ count_events starts_text_search calls
       = (if show_sources st
          then length (List.filter is_assistant_answer msgs)
          else 0)
    /\ count_events starts_image_search calls = 0
    /\ (show_sources st = false -> calls = []).
Proof.
  revert h. induction msgs as [| msg msgs IH]; intros h.
  - cbn. eexists _, []. rewrite app_nil_r.
    repeat split; try constructor. destruct (show_sources st); reflexivity.
  - destruct (show_message_calls st msg h)
      as (shown & calls & Hmsg & Hret & Htext & Himage).
    destruct (IH (h ++ calls))
      as (shown' & calls' & Hrest & Hret' & Htext' & Himage' & Hoff).
    cbn [show_history]. unfold bind. rewrite Hmsg, Hrest. cbn.
    exists (shown ++ shown'), (calls ++ calls'). rewrite app_assoc.
    split; [reflexivity |]. split; [apply Forall_app; auto |].
    rewrite !count_events_app, Htext, Htext', Himage, Himage'.
    split; [| split; [reflexivity |]].
    + cbn [List.filter]. destruct (show_sources st); [| reflexivity].
      destruct (is_assistant_answer msg); cbn; lia.
    + intros Hsrc. rewrite (Hoff Hsrc), app_nil_r.
      rewrite Hsrc in Htext. cbn in Htext.
      destruct msg; cbn in Hmsg; unfold ret, bind in Hmsg;
        try rewrite Hsrc in Hmsg; cbn in Hmsg;
        injection Hmsg as _ Hh;
        rewrite <- (app_nil_r h) in Hh at 1;
        apply app_inv_head in Hh; auto.
Qed.

End ChatFacts.

Lemma chat_input_records_the_exchange_witness :
  exists st' shown h',
    Rag.chat_input Scenario.lecture3_up Scenario.one_exchange
      "What is gradient descent?" []
    = (Returns (st', shown), h')
    /\ length (Rag.messages st') = 5
    /\ Rag.show_sources st' = true.
Proof.
  destruct (chat_input_records_the_exchange Scenario.lecture3_up
              Scenario.one_exchange "What is gradient descent?" []
              ltac:(discriminate))
    as (response & h1 & st' & shown & h' & _ & Hrun & Hmsgs & Hsrc & _).
  exists st', shown, h'. split; [exact Hrun |].
  split; [rewrite Hmsgs; reflexivity | exact Hsrc].
Defined.

Lemma chat_input_shows_what_the_history_shows_witness :
  exists st' shown h' response,
    Rag.chat_input Scenario.lecture3_up Rag.initial_session
      "What is gradient descent?" []
    = (Returns (st', shown), h')
    /\ Rag.show_history Scenario.lecture3_up st'
         [Rag.UserMessage "What is gradient descent?";
          Rag.AssistantAnswer response] h'
       = (Returns shown, h').
Proof.
  destruct (Rag.chat_input Scenario.lecture3_up Rag.initial_session
              "What is gradient descent?" [])
    as [[[st' shown] | e] h'] eqn:Hrun.
  - destruct (chat_input_shows_what_the_history_shows Scenario.lecture3_up
                Rag.initial_session st' "What is gradient descent?" [] h' shown
                ltac:(discriminate) eq_refl Hrun)
      as (response & _ & Hshow).
    exists st', shown, h', response. split; [reflexivity | apply Hshow].
  - exfalso. vm_compute in Hrun. discriminate Hrun.
Defined.

(** ** Document processing *)

Section IngestionFacts.

Import Rag.

Variable W : world.
Variable save_upload : list Byte.byte -> outcome string.
Variable create_embeddings_and_store :
  string -> gmap string pyval -> EmbeddingConfig.t -> outcome (gmap string pyval).

(** X18.  [process_document_for_images] never raises.  It reports
    success exactly when the upload was written, the pipeline returned a
    dictionary without an ["error"] entry, and that dictionary has a
    ["num_unique"] entry; the report then carries the pipeline's
    dictionary.  Every other report carries no result and a message that
    starts with ["Error: "]: so a pipeline that stored the images but
    did not count them is reported as failed. *)
Theorem process_document_for_images_succeeds_iff
    (file : list Byte.byte) (metadata : gmap string pyval)
    (config : EmbeddingConfig.t) :
  let report :=
    process_document_for_images W save_upload create_embeddings_and_store
      file metadata config in
  (success report = true <->
   exists pdf_path result num_unique,
     save_upload file = Returns pdf_path
     /\ create_embeddings_and_store pdf_path metadata config = Returns result
     /\ result !! "error" = None
     /\ result !! "num_unique" = Some num_unique
     /\ Rag.result report = Some result)
  /\ (success report = false ->
      Rag.result report = None
      /\ exists detail, message report = ("Error: " ++ detail)%string).
Proof.
  cbv zeta. unfold process_document_for_images, dict_item.
  destruct (save_upload file) as [pdf_path | e] eqn:Hsave; cbn.
  2:{ split; [| eauto]. split; [discriminate |].
      intros (p & r & n & Hp & _). discriminate. }
  destruct (create_embeddings_and_store pdf_path metadata config)
    as [result | e] eqn:Hrun; cbn.
  2:{ split; [| eauto]. split; [discriminate |].
      intros (p & r & n & [= <-] & Hr & _). congruence. }
  destruct (result !! "error") as [err |] eqn:Herr; cbn.
  { split; [| eauto]. split; [discriminate |].
    intros (p & r & n & [= <-] & Hr & Hnone & _). congruence. }
  destruct (result !! "num_unique") as [num_unique |] eqn:Hnum; cbn.
  - split; [| discriminate]. split; [| reflexivity].
    intros _. exists pdf_path, result, num_unique. auto.
  - split; [| eauto]. split; [discriminate |].
    intros (p & r & n & [= <-] & Hr & _ & Hsome & _). congruence.
Qed.

Variable load : string -> outcome (list document).
Variable split_documents : list document -> outcome (list document).
Variable load_embeddings : string -> outcome unit.
Variable from_documents : list document -> string -> outcome unit.

(** X19.  [process_document_for_text] never raises.  It reports success
    exactly when all five steps returned, and then counts the chunks
    that the splitter gave and that were handed to the index
    ["combined_text_collection"].  The splitter sees every loaded page
    with its own content and with the metadata of the form laid over the
    loader's: an entry of the form wins, the other entries of the page
    stay.  A failed run reports no count and a message that starts with
    ["Error: "]. *)
Theorem process_document_for_text_succeeds_iff
    (file : list Byte.byte) (metadata : gmap string pyval) :
  let report :=
    process_document_for_text save_upload load split_documents
      load_embeddings from_documents file metadata in
  (text_success report = true <->
   exists pdf_path pages tagged chunks,
     save_upload file = Returns pdf_path
     /\ load pdf_path = Returns pages
     /\ Forall2 (fun page doc =>
                   page_content doc = page_content page
                   /\ forall key,
                        Rag.metadata doc !! key
                        = match metadata !! key with
                          | Some v => Some v
                          | None => Rag.metadata page !! key
                          end) pages tagged
     /\ split_documents tagged = Returns chunks
     /\ load_embeddings "all-MiniLM-L6-v2" = Returns tt
     /\ from_documents chunks "combined_text_collection" = Returns tt
     /\ chunk_count report = Some (Z.of_nat (length chunks)))
  /\ (text_success report = false ->
      chunk_count report = None
      /\ exists detail, text_message report = ("Error: " ++ detail)%string).
Proof.
  cbv zeta. unfold process_document_for_text.
  assert (Htagged : forall pages tagged,
            Forall2 (fun page doc =>
                       page_content doc = page_content page
                       /\ forall key,
                            Rag.metadata doc !! key
                            = match metadata !! key with
                              | Some v => Some v
                              | None => Rag.metadata page !! key
                              end) pages tagged
            <-> tagged = map (update_metadata metadata) pages).
  { induction pages as [| page pages IH]; intros tagged; split.
    - inversion 1. reflexivity.
    - intros ->. constructor.
    - inversion 1 as [| p doc ps docs [Hcontent Hmeta] Hrest]; subst.
      apply IH in Hrest. subst. cbn. f_equal.
      destruct doc as [content meta]. unfold update_metadata. cbn in *.
      f_equal; [exact Hcontent |].
      apply map_eq. intros key. rewrite Hmeta, lookup_union.
      destruct (metadata !! key), (Rag.metadata page !! key); reflexivity.
    - intros ->. cbn. constructor; [| apply IH; reflexivity].
      split; [reflexivity |]. intros key. cbn. rewrite lookup_union.
      destruct (metadata !! key), (Rag.metadata page !! key); reflexivity. }
  destruct (save_upload file) as [pdf_path | e] eqn:Hsave; cbn.
  2:{ split; [| eauto]. split; [discriminate |].
      intros (p & ps & t & c & Hp & _). discriminate. }
  destruct (load pdf_path) as [pages | e] eqn:Hload; cbn.
  2:{ split; [| eauto]. split; [discriminate |].
      intros (p & ps & t & c & [= <-] & Hps & _). congruence. }
  destruct (split_documents (map (update_metadata metadata) pages))
    as [chunks | e] eqn:Hsplit; cbn.
  2:{ split; [| eauto]. split; [discriminate |].
      intros (p & ps & t & c & [= <-] & Hps & Ht & Hc & _).
      assert (ps = pages) by congruence. subst.
      apply Htagged in Ht. subst. congruence. }
  destruct (load_embeddings "all-MiniLM-L6-v2") as [[] | e] eqn:Hemb; cbn.
  2:{ split; [| eauto]. split; [discriminate |].
      intros (p & ps & t & c & _ & _ & _ & _ & He & _). discriminate. }
  destruct (from_documents chunks "combined_text_collection")
    as [[] | e] eqn:Hstore; cbn.
  2:{ split; [| eauto]. split; [discriminate |].
      intros (p & ps & t & c & [= <-] & Hps & Ht & Hc & _ & Hs & _).
      assert (ps = pages) by congruence. subst.
      apply Htagged in Ht. subst.
      assert (c = chunks) by congruence. subst. congruence. }
  split; [| discriminate]. split; [| reflexivity].
  intros _. exists pdf_path, pages, (map (update_metadata metadata) pages), chunks.
  split; [reflexivity |]. split; [exact Hload |].
  split; [apply Htagged; reflexivity |]. auto.
Qed.

End IngestionFacts.

(** ** The blocks of the prompt *)

Section PromptFacts.

Import Rag.

Variable W : world.

Lemma text_context_of_head (r : TextMatch.t) (rest : list TextMatch.t) :
  exists tail, text_context_of W (r :: rest) = String "S" tail.
Proof.
  unfold text_context_of. cbn [map].
  match goal with
  | |- context [join ?sep (?x :: ?xs)] => apply (join_head sep "S" _ xs)
  end.
Qed.

Lemma image_context_of_head (img : ImageMatch.t) (rest : list ImageMatch.t)
    (ictx : string) :
  image_context_of W (img :: rest) = Returns ictx ->
  exists tail, ictx = String "I" tail.
Proof.
  unfold image_context_of.
  match goal with
  | |- context [omap_list ?f ?l] =>
      destruct (omap_list f l) as [entries | e] eqn:Hentries
  end; cbn; [| discriminate].
  intros [= <-]. apply omap_list_returns in Hentries.
  unfold enumerate in Hentries. cbn [length seq combine] in Hentries.
  inversion Hentries as [| p entry l entries' Hentry Hrest]; subst.
  destruct (slice_100 (ImageMatch.text img)) as [related | e];
    cbn in Hentry; [| discriminate].
  injection Hentry as <-.
  match goal with
  | |- context [join ?sep (?x :: ?xs)] => apply (join_head sep "I" _ xs)
  end.
Qed.

(** X20.  The two context blocks of the prompt hold the sentinel
    ["No relevant text information found."] or ["No relevant images
    found."] exactly when the search behind the block gave nothing;
    whatever was retrieved goes into the prompt as it was formatted and
    is never replaced by a sentinel. *)
Theorem prompt_shows_sentinels_iff_nothing_found
    (query : string) (txts : list TextMatch.t) (imgs : list ImageMatch.t)
    (ictx : string) :
  image_context_of W imgs = Returns ictx ->
  let text_block := or_else (text_context_of W txts) no_text_found in
  let image_block := or_else ictx no_images_found in
  build_prompt query (text_context_of W txts) ictx
  = prompt_with query text_block image_block
  /\ (text_block = no_text_found <-> txts = [])
  /\ (image_block = no_images_found <-> imgs = [])
  /\ (txts <> [] -> text_block = text_context_of W txts)
  /\ (imgs <> [] -> image_block = ictx).
Proof.
  intros Hictx text_block image_block. split; [reflexivity |].
  assert (Htext : (text_block = no_text_found <-> txts = [])
                  /\ (txts <> [] -> text_block = text_context_of W txts)).
  { subst text_block. destruct txts as [| r rest].
    - split; [split; reflexivity | congruence].
    - destruct (text_context_of_head r rest) as [tail ->]. cbn.
      unfold no_text_found. split; [split; discriminate | reflexivity]. }
  assert (Himage : (image_block = no_images_found <-> imgs = [])
                   /\ (imgs <> [] -> image_block = ictx)).
  { subst image_block. destruct imgs as [| img rest].
    - cbn in Hictx. injection Hictx as <-.
      split; [split; reflexivity | congruence].
    - destruct (image_context_of_head img rest ictx Hictx) as [tail ->]. cbn.
      unfold no_images_found. split; [split; discriminate | reflexivity]. }
  tauto.
Qed.

End PromptFacts.

Lemma prompt_shows_sentinels_iff_nothing_found_witness :
  Rag.or_else
    (Rag.text_context_of Scenario.quiet [Rag.text_result Scenario.chunk3])
    Rag.no_text_found
  = Rag.text_context_of Scenario.quiet [Rag.text_result Scenario.chunk3]
  /\ Rag.or_else
       ("Image 1: From IT3061, Lecture 3, Page 12 - Related to: Loss surface..."
        ++ nl)%string
       Rag.no_images_found
     <> Rag.no_images_found.
Proof.
  destruct (prompt_shows_sentinels_iff_nothing_found Scenario.quiet
              "What is gradient descent?"
              [Rag.text_result Scenario.chunk3]
              [Rag.image_result "PNG" Scenario.match3]
              ("Image 1: From IT3061, Lecture 3, Page 12 - Related to: Loss surface..."
               ++ nl)%string)
    as (_ & _ & Himage & Htext & _).
  - vm_compute. reflexivity.
  - split; [apply Htext; discriminate |].
    intros Heq. apply Himage in Heq. discriminate Heq.
Defined.
